(** * Logitech G-Hub Profile Editor: the profile store

    A shallow embedding of [LGHUB_Profile_Editor_V3.py]: the two database
    helpers [load_profiles_from_db] and [save_profile_to_db], and the methods
    of [GHubEditorApp] that read or change profiles ([add_entry],
    [delete_entry], [browse_icon], [clear_icon], [save_changes],
    [on_profile_select]).

    Widgets, styling and the icon preview are presentation only and are left
    out; what a method shows in a message box or sends to the log is kept as
    an event, because the properties below speak about them. *)

From Stdlib Require Import ZArith List String Ascii Bool Lia Arith.
From Stdlib Require Import Permutation Sorted.
From Stdlib Require Import Floats.SpecFloat.
From Stdlib Require Import Init.Byte.
From Stdlib Require Import DecimalString.
Import ListNotations.

Set Warnings "-register-all".
Local Open Scope string_scope.
Local Open Scope list_scope.

(* ================================================================== *)
(** * Python strings

    A [str] is modelled by the sequence of its code points, each below 256
    (the Latin-1 range, which [lower], [strip] and the regular expression of
    [browse_icon] map into itself).  Comparison of two [str] in Python is the
    lexicographic comparison of code points, which is [String.leb]. *)

Module PyStr.

Definition ord (c : ascii) : N := N_of_ascii c.

Definition between (lo hi n : N) : bool := (N.leb lo n && N.leb n hi)%bool.

(** [c.isspace()], which is also the class [\s] of [re] on [str] patterns
    and the set removed by [strip()] without argument. *)
Definition isspace (c : ascii) : bool :=
  let n := ord c in
  (between 9 13 n || between 28 32 n || N.eqb n 133 || N.eqb n 160)%bool.

(** [c.isalnum()] on the Latin-1 range. *)
Definition isalnum (c : ascii) : bool :=
  let n := ord c in
  (between 48 57 n || between 65 90 n || between 97 122 n
   || N.eqb n 170 || between 178 179 n || N.eqb n 181 || between 185 186 n
   || between 188 190 n || between 192 214 n || between 216 246 n
   || between 248 255 n)%bool.

(** The class [\w] of [re] on [str] patterns: alphanumerics and the
    underscore. *)
Definition is_word (c : ascii) : bool := (isalnum c || Ascii.eqb c "_")%bool.

(** [c.lower()] for one code point. *)
Definition lower_char (c : ascii) : ascii :=
  let n := ord c in
  if (between 65 90 n || between 192 214 n || between 216 222 n)%bool
  then ascii_of_N (n + 32) else c.

(** [s.lower()] *)
Fixpoint lower (s : string) : string :=
  match s with
  | EmptyString => EmptyString
  | String c s' => String (lower_char c) (lower s')
  end.

(** [s.lstrip()] *)
Fixpoint lstrip (s : string) : string :=
  match s with
  | EmptyString => EmptyString
  | String c s' => if isspace c then lstrip s' else s
  end.

(** [s.rstrip()] *)
Fixpoint rstrip (s : string) : string :=
  match s with
  | EmptyString => EmptyString
  | String c s' =>
      match rstrip s' with
      | EmptyString => if isspace c then EmptyString else String c EmptyString
      | r => String c r
      end
  end.

(** [s.strip()] *)
Definition strip (s : string) : string := rstrip (lstrip s).

(** [s.replace(old, new)] for one-character [old] and [new]. *)
Fixpoint replace (old new : ascii) (s : string) : string :=
  match s with
  | EmptyString => EmptyString
  | String c s' =>
      String (if Ascii.eqb c old then new else c) (replace old new s')
  end.

(** [re.sub(r'[^...]', '', s)] for a negated character class: the
    characters of the class are kept, every other one is deleted. *)
Fixpoint re_sub_outside (class : ascii -> bool) (s : string) : string :=
  match s with
  | EmptyString => EmptyString
  | String c s' =>
      if class c then String c (re_sub_outside class s')
      else re_sub_outside class s'
  end.

(** Truth value of a [str]: the empty string is false. *)
Definition truthy (s : string) : bool :=
  match s with EmptyString => false | _ => true end.

(** [a or b] on strings. *)
Definition or_else (a b : string) : string := if truthy a then a else b.

(** All characters of [s] satisfy [p]. *)
Fixpoint all_chars (p : ascii -> bool) (s : string) : bool :=
  match s with
  | EmptyString => true
  | String c s' => (p c && all_chars p s')%bool
  end.

End PyStr.

(* ================================================================== *)
(** * JSON values as [json.loads] builds them

    [None], [bool], [int], [float], [str], [list] and [dict].  A [dict] keeps
    its insertion order, so it is an association list; [dict_get] and
    [dict_set] are [d.get(k)] and [d[k] = v]. *)

Inductive json : Type :=
| JNull
| JBool (b : bool)
| JInt (z : Z)
| JFloat (f : spec_float)
| JStr (s : string)
| JArr (l : list json)
| JObj (m : list (string * json)).

Definition dict := list (string * json).

Fixpoint dict_get (k : string) (m : dict) : option json :=
  match m with
  | [] => None
  | (k', v) :: rest => if String.eqb k' k then Some v else dict_get k rest
  end.

(** [d.get(k, default)] *)
Definition dict_get_default (k : string) (default : json) (m : dict) : json :=
  match dict_get k m with Some v => v | None => default end.

(** [d[k] = v]: an existing key keeps its place, a new key goes last. *)
Fixpoint dict_set (k : string) (v : json) (m : dict) : dict :=
  match m with
  | [] => [(k, v)]
  | (k', v') :: rest =>
      if String.eqb k' k then (k, v) :: rest
      else (k', v') :: dict_set k v rest
  end.

(** ** Python's [==] on these values

    [bool], [int] and [float] compare by numeric value ([True == 1],
    [1 == 1.0]); two lists are equal when they are equal element by element;
    two dicts when they have the same number of keys and every key of the
    first is mapped by the second to an equal value.  The comparisons made
    inside containers, and by [in] and [list.remove], first test whether the
    two operands are the same object; the decoder returns one shared object
    for every [NaN], so [NaN] equals [NaN] there. *)

Definition signed (s : bool) (m : positive) : Z :=
  if s then Z.neg m else Z.pos m.

(** Does the float [f] have the integer value [z]? *)
Definition float_int_eqb (f : spec_float) (z : Z) : bool :=
  match f with
  | S754_zero _ => Z.eqb z 0
  | S754_finite s m e =>
      if Z.leb 0 e then Z.eqb z (signed s m * 2 ^ e)
      else Z.eqb (z * 2 ^ (- e)) (signed s m)
  | _ => false
  end.

Definition float_eqb (f g : spec_float) : bool :=
  match f, g with
  | S754_nan, S754_nan => true
  | S754_zero _, S754_zero _ => true
  | S754_infinity s, S754_infinity t => Bool.eqb s t
  | S754_finite s m e, S754_finite t n d =>
      let lo := Z.min e d in
      Z.eqb (signed s m * 2 ^ (e - lo)) (signed t n * 2 ^ (d - lo))
  | _, _ => false
  end.

Inductive number : Type :=
| NInt (z : Z)
| NFloat (f : spec_float).

Definition as_number (j : json) : option number :=
  match j with
  | JBool b => Some (NInt (if b then 1 else 0)%Z)
  | JInt z => Some (NInt z)
  | JFloat f => Some (NFloat f)
  | _ => None
  end.

Definition number_eqb (a b : number) : bool :=
  match a, b with
  | NInt x, NInt y => Z.eqb x y
  | NInt x, NFloat g => float_int_eqb g x
  | NFloat f, NInt y => float_int_eqb f y
  | NFloat f, NFloat g => float_eqb f g
  end.

(** [f] holds of the two lists element by element. *)
Fixpoint forall2b {A B : Type} (f : A -> B -> bool) (xs : list A)
    (ys : list B) : bool :=
  match xs, ys with
  | [], [] => true
  | x :: xs', y :: ys' => (f x y && forall2b f xs' ys')%bool
  | _, _ => false
  end.

Fixpoint py_eq (a b : json) {struct a} : bool :=
  match a, b with
  | JNull, JNull => true
  | JStr s, JStr t => String.eqb s t
  | JArr l, JArr l' => forall2b py_eq l l'
  | JObj m, JObj m' =>
      (Nat.eqb (List.length m) (List.length m') &&
       forallb (fun kv => match dict_get (fst kv) m' with
                          | Some v' => py_eq (snd kv) v'
                          | None => false
                          end) m)%bool
  | _, _ =>
      match as_number a, as_number b with
      | Some x, Some y => number_eqb x y
      | _, _ => false
      end
  end.

(** The keys of a Python dict are distinct; [distinct_keys] says so of
    every dict inside a value. *)
Fixpoint distinct (ks : list string) : bool :=
  match ks with
  | [] => true
  | k :: ks' => (negb (existsb (String.eqb k) ks') && distinct ks')%bool
  end.

Fixpoint distinct_keys (j : json) : bool :=
  match j with
  | JArr l => forallb distinct_keys l
  | JObj m =>
      (distinct (map fst m) && forallb (fun kv => distinct_keys (snd kv)) m)%bool
  | _ => true
  end.

(** ** [x in l] and [l.remove(x)] for an [x] that is the object at position
    [pos] of [l]: an element matches when it is that very object or compares
    equal to it. *)

Definition same_or_equal (pos : nat) (x : json) (i : nat) (y : json) : bool :=
  (Nat.eqb i pos || py_eq y x)%bool.

(** Index of the first match at or after position [i]. *)
Fixpoint list_index_from (pos : nat) (x : json) (i : nat) (l : list json)
  : option nat :=
  match l with
  | [] => None
  | y :: l' =>
      if same_or_equal pos x i y then Some i
      else list_index_from pos x (S i) l'
  end.

(** [l] without its element at index [i]. *)
Fixpoint remove_at {A : Type} (i : nat) (l : list A) : list A :=
  match l, i with
  | [], _ => []
  | _ :: l', O => l'
  | y :: l', S i' => y :: remove_at i' l'
  end.

(** [if x in l: l.remove(x)] *)
Definition remove_if_in (pos : nat) (x : json) (l : list json) : list json :=
  match list_index_from pos x 0 l with
  | Some i => remove_at i l
  | None => l
  end.

(* ================================================================== *)
(** * What the program takes from its libraries

    [json], [os.path] and Tk are not part of the program.  The theorems hold
    for every behaviour of these functions; [Posix] further down is one
    instance, used to run the model on concrete inputs. *)

Definition bytes := list byte.

Class Runtime : Type := {
  (** [json.loads(data_blob.decode("utf-8"))]; [None] when either raises. *)
  json_loads : bytes -> option json;
  (** [json.dumps(entire_json, indent=2).encode("utf-8")]; [None] when
      either raises. *)
  json_dumps : json -> option bytes;
  (** [os.path.join(a, b)] *)
  os_path_join : string -> string -> string;
  (** [os.path.splitext(p)] *)
  os_path_splitext : string -> string * string;
  (** The text a Tk [StringVar] holds after [set(v)] for a [v] that is not a
      [str]. *)
  tk_text : json -> string
}.

(* ================================================================== *)
(** * The database, the log and the other observable effects *)

(** One row of the table [DATA]: the columns [_id] and [FILE] ([None] is
    SQL [NULL]). *)
Record row : Type := { row_id : Z; row_FILE : option bytes }.

(** The table; [None] when connecting to the database or running a
    statement on it raises (no such file or table). *)
Definition database := option (list row).

Inductive level : Type := DEBUG | INFO | WARNING | ERROR.

Inductive message : Type :=
| Loading_profiles_from_DB
| Failed_to_query_the_DB
| Failed_to_parse_JSON_row (id : Z)
| Loaded_profiles (n : nat)
| Could_not_encode_updated_JSON
| Row_updated_in_DB (id : Z)
| DB_update_failed
| Failed_to_open_image (file_path : string)
| Failed_to_save_BMP (final_path : string)
| Icon_cleared
| Changes_saved (new_name : string) (id : Z).

Inductive box : Type := showinfo | showwarning | showerror.

Inductive event : Type :=
| Log (lv : level) (m : message)
  (** a call of [save_profile_to_db], recorded on entry *)
| SaveRow (id : Z) (entire_json : json)
  (** [img.save(final_path, "BMP")] returned *)
| ImgSave (final_path : string)
| MessageBox (b : box) (title : string).

(** Python exceptions that leave a function; [DanglingRef] is not one of
    them: it marks a state in which an entry points outside the loaded
    documents, which the program cannot build. *)
Inductive exn : Type :=
| AttributeError
| TypeError
| IndexError
| DanglingRef.

Inductive result (A : Type) : Type :=
| Ok (a : A)
| Raise (e : exn).

Arguments Ok {A} a.
Arguments Raise {A} e.

(* ================================================================== *)
(** * Loaded profiles

    [load_profiles_from_db] returns a list of dicts
    [{db_row_id, entire_json, profile}] in which [entire_json] is the parsed
    document of the row, shared by all the entries of that row, and
    [profile] is an element of the list inside that document.  The model
    keeps the parsed documents in a list and an entry refers to its document
    and to its profile by position, so that a change made through [profile]
    is seen through [entire_json], as in Python.  A method that changes the
    length of a list ([add_entry], [delete_entry]) reloads right after, which
    builds the entries anew. *)

Record item : Type := {
  db_row_id : Z;
  entire_json : nat;   (* which parsed document *)
  profile : nat        (* which element of its applications list *)
}.

Record loaded : Type := {
  documents : list json;
  entries : list item
}.

(** The list [doc["applications"]["applications"]] when the document has
    that shape. *)
Definition apps_list_of (doc : json) : option (list json) :=
  match doc with
  | JObj top =>
      match dict_get "applications" top with
      | Some (JObj sec) =>
          match dict_get "applications" sec with
          | Some (JArr l) => Some l
          | _ => None
          end
      | _ => None
      end
  | _ => None
  end.

(** The document an entry belongs to. *)
Definition document_of (docs : list json) (it : item) : option json :=
  nth_error docs (entire_json it).

(** The profile an entry stands for. *)
Definition profile_of (docs : list json) (it : item) : option json :=
  match document_of docs it with
  | Some doc =>
      match apps_list_of doc with
      | Some l => nth_error l (profile it)
      | None => None
      end
  | None => None
  end.

(** ** The sort of [load_profiles_from_db]

    [list.sort(key=...)] computes the key of every element first, then sorts
    stably on the keys. *)

(** [p["profile"].get("name", "").lower()] *)
Definition sort_key (prof : json) : result string :=
  match prof with
  | JObj fields =>
      match dict_get_default "name" (JStr "") fields with
      | JStr s => Ok (PyStr.lower s)
      | _ => Raise AttributeError
      end
  | _ => Raise AttributeError
  end.

Fixpoint keyed {A : Type} (key : A -> result string) (l : list A)
  : result (list (string * A)) :=
  match l with
  | [] => Ok []
  | x :: l' =>
      match key x with
      | Raise e => Raise e
      | Ok k =>
          match keyed key l' with
          | Raise e => Raise e
          | Ok kl => Ok ((k, x) :: kl)
          end
      end
  end.

Fixpoint insert_by_key {A : Type} (x : string * A) (l : list (string * A))
  : list (string * A) :=
  match l with
  | [] => [x]
  | y :: l' =>
      if String.leb (fst x) (fst y) then x :: l
      else y :: insert_by_key x l'
  end.

(** Stable sort on the keys. *)
Fixpoint sort_by_key {A : Type} (l : list (string * A)) : list (string * A) :=
  match l with
  | [] => []
  | x :: l' => insert_by_key x (sort_by_key l')
  end.

(** [l.sort(key=key)] *)
Definition list_sort {A : Type} (key : A -> result string) (l : list A)
  : result (list A) :=
  match keyed key l with
  | Raise e => Raise e
  | Ok kl => Ok (map snd (sort_by_key kl))
  end.

(* ================================================================== *)
(** * DB helpers *)

Section Helpers.

Context {RT : Runtime}.

(** The entries of one row: one per element of its applications list, in
    the order of the list, each with the profile it stands for. *)
Fixpoint entries_of (id : Z) (doc : nat) (i : nat) (apps_list : list json)
  : list (item * json) :=
  match apps_list with
  | [] => []
  | prof :: rest =>
      ({| db_row_id := id; entire_json := doc; profile := i |}, prof)
        :: entries_of id doc (S i) rest
  end.

(** [not data_blob] *)
Definition blob_is_empty (data_blob : option bytes) : bool :=
  match data_blob with
  | None | Some [] => true
  | Some (_ :: _) => false
  end.

(** What one row adds to [all_profiles]: nothing unless
    [parsed_data["applications"]] is a dict whose ["applications"] is a
    list.  [parsed_data.get] raises when the document is not a dict. *)
Definition row_entries (id : Z) (doc : nat) (parsed_data : json)
  : result (list (item * json)) :=
  match parsed_data with
  | JObj top =>
      match dict_get "applications" top with
      | Some (JObj apps_section) =>
          match dict_get_default "applications" (JArr []) apps_section with
          | JArr apps_list => Ok (entries_of id doc 0 apps_list)
          | _ => Ok []
          end
      | _ => Ok []
      end
  | _ => Raise AttributeError
  end.

(** The loop over the rows (lines 93 to 113).  [docs] are the documents
    parsed so far and [all_profiles] the entries collected so far; the
    result comes with what the loop logged. *)
Fixpoint load_rows (rows : list row) (docs : list json)
    (all_profiles : list (item * json))
  : list event * result (list json * list (item * json)) :=
  match rows with
  | [] => ([], Ok (docs, all_profiles))
  | r :: rest =>
      match row_FILE r with
      | None | Some [] => load_rows rest docs all_profiles
      | Some data_blob =>
          match json_loads data_blob with
          | None =>
              let (evs, res) := load_rows rest docs all_profiles in
              (Log WARNING (Failed_to_parse_JSON_row (row_id r)) :: evs, res)
          | Some parsed_data =>
              match row_entries (row_id r) (List.length docs) parsed_data with
              | Raise e => ([], Raise e)
              | Ok new =>
                  load_rows rest (docs ++ [parsed_data]) (all_profiles ++ new)
              end
          end
      end
  end.

(** [load_profiles_from_db(db_path)] *)
Definition load_profiles_from_db (db : database)
  : list event * result loaded :=
  match db with
  | None =>
      ([Log DEBUG Loading_profiles_from_DB; Log ERROR Failed_to_query_the_DB],
       Ok {| documents := []; entries := [] |})
  | Some rows =>
      let (evs, res) := load_rows rows [] [] in
      let evs := Log DEBUG Loading_profiles_from_DB :: evs in
      match res with
      | Raise e => (evs, Raise e)
      | Ok (docs, all_profiles) =>
          match list_sort (fun p => sort_key (snd p)) all_profiles with
          | Raise e => (evs, Raise e)
          | Ok sorted =>
              (evs ++ [Log INFO (Loaded_profiles (List.length sorted))],
               Ok {| documents := docs; entries := map fst sorted |})
          end
      end
  end.

(** [UPDATE DATA SET FILE = ? WHERE _id = ?] *)
Definition sql_update (new_blob : bytes) (id : Z) (rows : list row)
  : list row :=
  map (fun r => if Z.eqb (row_id r) id
                then {| row_id := row_id r; row_FILE := Some new_blob |}
                else r) rows.

(** [save_profile_to_db(db_path, row_id, entire_json)]: it returns nothing
    and raises nothing; what it did shows in the log and in the table. *)
Definition save_profile_to_db (db : database) (id : Z) (doc : json)
  : list event * database :=
  match json_dumps doc with
  | None => ([SaveRow id doc; Log ERROR Could_not_encode_updated_JSON], db)
  | Some new_blob =>
      match db with
      | None => ([SaveRow id doc; Log ERROR DB_update_failed], db)
      | Some rows =>
          ([SaveRow id doc; Log DEBUG (Row_updated_in_DB id)],
           Some (sql_update new_blob id rows))
      end
  end.

End Helpers.

(* ================================================================== *)
(** * Main GUI: the state of [GHubEditorApp] and of what it acts on *)

Record state : Type := {
  DATA : database;                      (* the table of settings.db *)
  events : list event;                  (* oldest first *)
  icon_cache_folder : string;
  docs : list json;                     (* the documents of self.profiles *)
  profiles : list item;
  selected_profile_index : option nat;
  name_entry_var : string;
  app_path_var : string;
  icon_path_var : string
}.

Definition set_DATA (db : database) (s : state) : state :=
  {| DATA := db; events := events s;
     icon_cache_folder := icon_cache_folder s;
     docs := docs s; profiles := profiles s;
     selected_profile_index := selected_profile_index s;
     name_entry_var := name_entry_var s; app_path_var := app_path_var s;
     icon_path_var := icon_path_var s |}.

Definition add_events (evs : list event) (s : state) : state :=
  {| DATA := DATA s; events := events s ++ evs;
     icon_cache_folder := icon_cache_folder s;
     docs := docs s; profiles := profiles s;
     selected_profile_index := selected_profile_index s;
     name_entry_var := name_entry_var s; app_path_var := app_path_var s;
     icon_path_var := icon_path_var s |}.

Definition set_docs (d : list json) (s : state) : state :=
  {| DATA := DATA s; events := events s;
     icon_cache_folder := icon_cache_folder s;
     docs := d; profiles := profiles s;
     selected_profile_index := selected_profile_index s;
     name_entry_var := name_entry_var s; app_path_var := app_path_var s;
     icon_path_var := icon_path_var s |}.

Definition set_profiles (ld : loaded) (s : state) : state :=
  {| DATA := DATA s; events := events s;
     icon_cache_folder := icon_cache_folder s;
     docs := documents ld; profiles := entries ld;
     selected_profile_index := selected_profile_index s;
     name_entry_var := name_entry_var s; app_path_var := app_path_var s;
     icon_path_var := icon_path_var s |}.

Definition set_selected (sel : option nat) (s : state) : state :=
  {| DATA := DATA s; events := events s;
     icon_cache_folder := icon_cache_folder s;
     docs := docs s; profiles := profiles s;
     selected_profile_index := sel;
     name_entry_var := name_entry_var s; app_path_var := app_path_var s;
     icon_path_var := icon_path_var s |}.

Definition set_name_entry_var (v : string) (s : state) : state :=
  {| DATA := DATA s; events := events s;
     icon_cache_folder := icon_cache_folder s;
     docs := docs s; profiles := profiles s;
     selected_profile_index := selected_profile_index s;
     name_entry_var := v; app_path_var := app_path_var s;
     icon_path_var := icon_path_var s |}.

Definition set_app_path_var (v : string) (s : state) : state :=
  {| DATA := DATA s; events := events s;
     icon_cache_folder := icon_cache_folder s;
     docs := docs s; profiles := profiles s;
     selected_profile_index := selected_profile_index s;
     name_entry_var := name_entry_var s; app_path_var := v;
     icon_path_var := icon_path_var s |}.

Definition set_icon_path_var (v : string) (s : state) : state :=
  {| DATA := DATA s; events := events s;
     icon_cache_folder := icon_cache_folder s;
     docs := docs s; profiles := profiles s;
     selected_profile_index := selected_profile_index s;
     name_entry_var := name_entry_var s; app_path_var := app_path_var s;
     icon_path_var := v |}.

(** ** A method is a state transformer that may raise *)

Definition M (A : Type) : Type := state -> result A * state.

Definition ret {A : Type} (a : A) : M A := fun s => (Ok a, s).

Definition raise {A : Type} (e : exn) : M A := fun s => (Raise e, s).

Definition bind {A B : Type} (m : M A) (k : A -> M B) : M B :=
  fun s =>
    match m s with
    | (Ok a, s') => k a s'
    | (Raise e, s') => (Raise e, s')
    end.

Definition get : M state := fun s => (Ok s, s).

Definition modify (f : state -> state) : M unit := fun s => (Ok tt, f s).

Definition emit (evs : list event) : M unit := modify (add_events evs).

Declare Scope py_scope.
Delimit Scope py_scope with py.

Notation "x <- m ;; k" := (bind m (fun x => k))
  (at level 61, m at next level, right associativity) : py_scope.
Notation "m ;; k" := (bind m (fun _ => k))
  (at level 61, right associativity) : py_scope.

Local Open Scope py_scope.

(** [Some x] or the exception [e]. *)
Definition or_raise {A : Type} (e : exn) (o : option A) : M A :=
  match o with Some a => ret a | None => raise e end.

(** [l[i] = x] on a list that is long enough. *)
Fixpoint list_set {A : Type} (i : nat) (x : A) (l : list A) : list A :=
  match l, i with
  | [], _ => []
  | _ :: l', O => x :: l'
  | y :: l', S i' => y :: list_set i' x l'
  end.

(** [entire_json["applications"]["applications"] = apps_list] on a
    document that has an applications object. *)
Definition put_apps_list (doc : json) (apps_list : list json) : json :=
  match doc with
  | JObj top =>
      match dict_get "applications" top with
      | Some (JObj sec) =>
          JObj (dict_set "applications"
                  (JObj (dict_set "applications" (JArr apps_list) sec)) top)
      | _ => doc
      end
  | _ => doc
  end.

(** A change of the profile object of [it], made in place: the document
    that holds it changes at that element. *)
Definition store_profile (it : item) (prof : json) : M unit :=
  s <- get ;;
  doc <- or_raise DanglingRef (document_of (docs s) it) ;;
  apps_list <- or_raise DanglingRef (apps_list_of doc) ;;
  modify (set_docs (list_set (entire_json it)
                      (put_apps_list doc (list_set (profile it) prof apps_list))
                      (docs s))).

(** [prof[k] = v] *)
Definition setitem (k : string) (v : json) (prof : json) : M json :=
  match prof with
  | JObj fields => ret (JObj (dict_set k v fields))
  | _ => raise TypeError
  end.

(** The [dict] behind [x.get(...)]. *)
Definition as_dict (x : json) : M dict :=
  match x with
  | JObj fields => ret fields
  | _ => raise AttributeError
  end.

(** The [str] behind [x.strip()]. *)
Definition as_str (x : json) : M string :=
  match x with
  | JStr v => ret v
  | _ => raise AttributeError
  end.

(** [self.profiles[idx]] with the document and the profile it refers to. *)
Definition item_at (idx : nat) : M (item * json * json) :=
  s <- get ;;
  it <- or_raise IndexError (nth_error (profiles s) idx) ;;
  doc <- or_raise DanglingRef (document_of (docs s) it) ;;
  prof <- or_raise DanglingRef (profile_of (docs s) it) ;;
  ret (it, doc, prof).

Section App.

Context {RT : Runtime}.

(** [self.profiles = load_profiles_from_db(self.db_path)]: when the call
    raises, the assignment does not happen. *)
Definition reload : M unit :=
  fun s =>
    let (evs, res) := load_profiles_from_db (DATA s) in
    match res with
    | Ok ld => (Ok tt, set_profiles ld (add_events evs s))
    | Raise e => (Raise e, add_events evs s)
    end.

(** [save_profile_to_db(self.db_path, row_id, entire_json)] *)
Definition call_save_profile_to_db (id : Z) (doc : json) : M unit :=
  fun s =>
    let (evs, db) := save_profile_to_db (DATA s) id doc in
    (Ok tt, set_DATA db (add_events evs s)).

(** What a [StringVar] holds after [set(v)]. *)
Definition var_text (v : json) : string :=
  match v with
  | JStr t => t
  | _ => tk_text v
  end.

(** [on_profile_select]; [curselection] is the first selected line of the
    list box, if any. *)
Definition on_profile_select (curselection : option nat) : M unit :=
  match curselection with
  | None => modify (set_selected None)
  | Some idx =>
      modify (set_selected (Some idx)) ;;
      x <- item_at idx ;;
      fields <- as_dict (snd x) ;;
      modify (set_name_entry_var
                (var_text (dict_get_default "name" (JStr "") fields))) ;;
      modify (set_app_path_var
                (var_text (dict_get_default "applicationPath" (JStr "") fields))) ;;
      modify (set_icon_path_var
                (var_text (dict_get_default "posterPath" (JStr "") fields)))
  end.

(** The first [i] with [self.profiles[i]["profile"].get("name") == name]. *)
Fixpoint index_of_name (ds : list json) (name : string) (i : nat)
    (l : list item) : M (option nat) :=
  match l with
  | [] => ret None
  | it :: l' =>
      prof <- or_raise DanglingRef (profile_of ds it) ;;
      fields <- as_dict prof ;;
      if py_eq (dict_get_default "name" JNull fields) (JStr name)
      then ret (Some i)
      else index_of_name ds name (S i) l'
  end.

(** The selection made at the end of [add_entry] and [save_changes]. *)
Definition select_by_name (name : string) : M unit :=
  s <- get ;;
  idx <- index_of_name (docs s) name 0 (profiles s) ;;
  match idx with
  | Some i => on_profile_select (Some i)
  | None => ret tt
  end.

Definition new_profile : json :=
  JObj [("applicationId", JStr "new-app-id");
        ("applicationPath", JStr "");
        ("isCustom", JBool true);
        ("name", JStr "New Entry");
        ("posterPath", JStr "")].

(** [add_entry] *)
Definition add_entry : M unit :=
  s <- get ;;
  match profiles s with
  | [] => emit [MessageBox showinfo "No DB Rows"]
  | it :: _ =>
      doc <- or_raise DanglingRef (document_of (docs s) it) ;;
      top <- as_dict doc ;;
      apps_section <- as_dict (dict_get_default "applications" (JObj []) top) ;;
      match dict_get_default "applications" (JArr []) apps_section with
      | JArr apps_list =>
          let apps_section' :=
            dict_set "applications" (JArr (apps_list ++ [new_profile]))
                     apps_section in
          let doc' := JObj (dict_set "applications" (JObj apps_section') top) in
          modify (set_docs (list_set (entire_json it) doc' (docs s))) ;;
          call_save_profile_to_db (db_row_id it) doc' ;;
          reload ;;
          select_by_name "New Entry"
      | _ => raise AttributeError
      end
  end.

(** [delete_entry]; [askyesno] is the answer to the confirmation. *)
Definition delete_entry (askyesno : bool) : M unit :=
  s <- get ;;
  match selected_profile_index s with
  | None => emit [MessageBox showwarning "No selection"]
  | Some idx =>
      if negb askyesno then ret tt
      else
        x <- item_at idx ;;
        let '(it, doc, prof_to_delete) := x in
        apps_list <- or_raise DanglingRef (apps_list_of doc) ;;
        let doc' :=
          put_apps_list doc
            (remove_if_in (profile it) prof_to_delete apps_list) in
        modify (set_docs (list_set (entire_json it) doc' (docs s))) ;;
        call_save_profile_to_db (db_row_id it) doc' ;;
        reload ;;
        modify (set_selected None) ;;
        modify (set_name_entry_var "") ;;
        modify (set_app_path_var "") ;;
        modify (set_icon_path_var "")
  end.

(** The file name [browse_icon] builds from the profile name. *)
Definition safe_name_of (name : string) : string :=
  let app_name := PyStr.or_else (PyStr.strip name) "app_unknown" in
  PyStr.or_else
    (PyStr.replace " " "_"
       (PyStr.strip
          (PyStr.re_sub_outside
             (fun c => (PyStr.is_word c || PyStr.isspace c
                        || Ascii.eqb c "-")%bool)
             app_name)))
    "icon".

(** [browse_icon]; [askopenfilename] is the path chosen in the dialog (empty
    when it was cancelled), [image_open] and [img_save] tell whether
    [Image.open] and [img.save] return or raise. *)
Definition browse_icon (askopenfilename : string) (image_open img_save : bool)
  : M unit :=
  s <- get ;;
  match selected_profile_index s with
  | None => emit [MessageBox showwarning "No Profile"]
  | Some idx =>
      if negb (PyStr.truthy askopenfilename) then ret tt
      else if negb image_open then
        emit [Log ERROR (Failed_to_open_image askopenfilename);
              MessageBox showerror "Error"]
      else
        x <- item_at idx ;;
        let '(it, _, prof) := x in
        fields <- as_dict prof ;;
        poster <- as_str (dict_get_default "posterPath" (JStr "") fields) ;;
        let existing_path := PyStr.strip poster in
        name <- as_str (dict_get_default "name" (JStr "") fields) ;;
        let safe_name := safe_name_of name in
        let final_path :=
          if PyStr.truthy existing_path
          then (fst (os_path_splitext existing_path) ++ ".bmp")%string
          else os_path_join (icon_cache_folder s) (safe_name ++ ".bmp")%string in
        if negb img_save then
          emit [Log ERROR (Failed_to_save_BMP final_path);
                MessageBox showerror "Error"]
        else
          emit [ImgSave final_path] ;;
          prof' <- setitem "posterPath" (JStr final_path) prof ;;
          store_profile it prof' ;;
          modify (set_icon_path_var final_path)
  end.

(** [clear_icon] *)
Definition clear_icon : M unit :=
  s <- get ;;
  match selected_profile_index s with
  | None => emit [MessageBox showwarning "No Profile"]
  | Some idx =>
      x <- item_at idx ;;
      let '(it, _, prof) := x in
      prof' <- setitem "posterPath" (JStr "") prof ;;
      store_profile it prof' ;;
      modify (set_icon_path_var "") ;;
      emit [Log INFO Icon_cleared]
  end.

(** The three assignments of [save_changes] to the profile. *)
Definition edited (name app_path icon_path : string) (fields : dict) : dict :=
  dict_set "posterPath" (JStr icon_path)
    (dict_set "applicationPath" (JStr app_path)
       (dict_set "name" (JStr name) fields)).

(** [save_changes] *)
Definition save_changes : M unit :=
  s <- get ;;
  match selected_profile_index s with
  | None => emit [MessageBox showwarning "No Profile"]
  | Some idx =>
      x <- item_at idx ;;
      let '(it, _, prof) := x in
      match prof with
      | JObj fields =>
          let new_name := name_entry_var s in
          store_profile it
            (JObj (edited new_name (app_path_var s) (icon_path_var s) fields)) ;;
          s1 <- get ;;
          doc' <- or_raise DanglingRef (document_of (docs s1) it) ;;
          call_save_profile_to_db (db_row_id it) doc' ;;
          reload ;;
          select_by_name new_name ;;
          emit [Log INFO (Changes_saved new_name (db_row_id it));
                MessageBox showinfo "Saved"]
      | _ => raise TypeError
      end
  end.

(** [GHubEditorApp(master, db_path, icon_cache_folder)]: the state after
    the constructor, or the exception that leaves it. *)
Definition init (db : database) (folder : string) : result unit * state :=
  reload {| DATA := db; events := []; icon_cache_folder := folder;
            docs := []; profiles := [];
            selected_profile_index := None;
            name_entry_var := ""; app_path_var := ""; icon_path_var := "" |}.

End App.

(* ================================================================== *)
(** * One runtime, to run the model

    [posixpath] for [os.path]; a serializer that prints what
    [json.dumps(..., indent=2)] prints for the values without floats other
    than zero, infinities and NaN; and a decoder that knows a given list of
    documents: a blob decodes to the document whose serialization it is, and
    every other blob counts as one that does not parse. *)

Module Posix.

(** Position of the last [c] in [s]. *)
Fixpoint rfind (c : ascii) (s : string) : option nat :=
  match s with
  | EmptyString => None
  | String x s' =>
      match rfind c s' with
      | Some i => Some (S i)
      | None => if Ascii.eqb x c then Some 0 else None
      end
  end.

Definition startswith (c : ascii) (s : string) : bool :=
  match s with
  | String x _ => Ascii.eqb x c
  | EmptyString => false
  end.

Fixpoint endswith (c : ascii) (s : string) : bool :=
  match s with
  | EmptyString => false
  | String x EmptyString => Ascii.eqb x c
  | String _ s' => endswith c s'
  end.

(** [posixpath.join(a, b)] *)
Definition join (a b : string) : string :=
  if startswith "/" b then b
  else if (negb (PyStr.truthy a) || endswith "/" a)%bool then (a ++ b)%string
  else (a ++ "/" ++ b)%string.

(** Is there a character other than a dot in [s[from:upto]]? *)
Definition has_non_dot (s : string) (from upto : nat) : bool :=
  negb (PyStr.all_chars (fun c => Ascii.eqb c ".")
          (substring from (upto - from) s)).

(** [posixpath.splitext(p)] *)
Definition splitext (p : string) : string * string :=
  let filename_index :=
    match rfind "/" p with Some i => S i | None => 0 end in
  match rfind "." p with
  | Some dot =>
      if (Nat.ltb filename_index dot && has_non_dot p filename_index dot)%bool
      then (substring 0 dot p, substring dot (String.length p - dot) p)
      else (p, "")
  | None => (p, "")
  end.

Definition hex_digit (n : N) : ascii :=
  ascii_of_N (if N.ltb n 10 then 48 + n else 87 + n).

(** One character inside a JSON string, with [ensure_ascii]. *)
Definition escape_char (c : ascii) : string :=
  let n := N_of_ascii c in
  let backslash := "092"%char in
  if N.eqb n 34 then String backslash (String c "")
  else if N.eqb n 92 then String backslash (String c "")
  else if N.eqb n 10 then String backslash "n"
  else if N.eqb n 13 then String backslash "r"
  else if N.eqb n 9 then String backslash "t"
  else if N.eqb n 8 then String backslash "b"
  else if N.eqb n 12 then String backslash "f"
  else if (N.leb 32 n && N.leb n 126)%bool then String c ""
  else String backslash
         ("u00" ++ String (hex_digit (n / 16))
                     (String (hex_digit (n mod 16)) ""))%string.

Fixpoint escape (s : string) : string :=
  match s with
  | EmptyString => EmptyString
  | String c s' => (escape_char c ++ escape s')%string
  end.

Definition quoted (s : string) : string :=
  String "034" (escape s ++ String "034" "")%string.

Fixpoint spaces (n : nat) : string :=
  match n with
  | O => ""
  | S n' => String " " (spaces n')
  end.

Definition float_text (f : spec_float) : option string :=
  match f with
  | S754_nan => Some "NaN"
  | S754_infinity false => Some "Infinity"
  | S754_infinity true => Some "-Infinity"
  | S754_zero false => Some "0.0"
  | S754_zero true => Some "-0.0"
  | S754_finite _ _ _ => None
  end.

(** The text of [j] at nesting depth [depth], two spaces per level. *)
Fixpoint text_at (depth : nat) (j : json) : option string :=
  match j with
  | JNull => Some "null"
  | JBool true => Some "true"
  | JBool false => Some "false"
  | JInt z => Some (NilZero.string_of_int (Z.to_int z))
  | JFloat f => float_text f
  | JStr s => Some (quoted s)
  | JArr [] => Some "[]"
  | JArr (x :: l) =>
      let nl := (String "010" (spaces (2 * S depth)))%string in
      match text_at (S depth) x,
            (fix rest (l : list json) : option string :=
               match l with
               | [] => Some ""
               | y :: l' =>
                   match text_at (S depth) y, rest l' with
                   | Some t, Some r => Some ("," ++ nl ++ t ++ r)%string
                   | _, _ => None
                   end
               end) l with
      | Some t, Some r =>
          Some ("[" ++ nl ++ t ++ r ++ String "010" (spaces (2 * depth)) ++ "]")%string
      | _, _ => None
      end
  | JObj [] => Some "{}"
  | JObj ((k, x) :: m) =>
      let nl := (String "010" (spaces (2 * S depth)))%string in
      match text_at (S depth) x,
            (fix rest (m : dict) : option string :=
               match m with
               | [] => Some ""
               | (k', y) :: m' =>
                   match text_at (S depth) y, rest m' with
                   | Some t, Some r =>
                       Some ("," ++ nl ++ quoted k' ++ ": " ++ t ++ r)%string
                   | _, _ => None
                   end
               end) m with
      | Some t, Some r =>
          Some ("{" ++ nl ++ quoted k ++ ": " ++ t ++ r
                ++ String "010" (spaces (2 * depth)) ++ "}")%string
      | _, _ => None
      end
  end.

(** [json.dumps(j, indent=2).encode("utf-8")]; the text is ASCII. *)
Definition dumps (j : json) : option bytes :=
  match text_at 0 j with
  | Some t => Some (list_byte_of_string t)
  | None => None
  end.

Definition bytes_eqb (a b : bytes) : bool :=
  String.eqb (string_of_list_byte a) (string_of_list_byte b).

(** A decoder for the documents of [known]. *)
Fixpoint loads (known : list json) (data_blob : bytes) : option json :=
  match known with
  | [] => None
  | j :: known' =>
      match dumps j with
      | Some b => if bytes_eqb b data_blob then Some j else loads known' data_blob
      | None => loads known' data_blob
      end
  end.

Definition text_of_var (v : json) : string :=
  match v with
  | JNull => "None"
  | JBool true => "1"
  | JBool false => "0"
  | JInt z => NilZero.string_of_int (Z.to_int z)
  | _ => ""
  end.

Definition runtime (known : list json) : Runtime :=
  {| json_loads := loads known;
     json_dumps := dumps;
     os_path_join := join;
     os_path_splitext := splitext;
     tk_text := text_of_var |}.

End Posix.

(* ================================================================== *)
(** * Vocabulary of the properties *)

Section Vocabulary.

Context {RT : Runtime}.

(** The document a row holds: none when the blob is empty or absent, or
    does not decode and parse. *)
Definition row_document (r : row) : option json :=
  match row_FILE r with
  | None | Some [] => None
  | Some data_blob => json_loads data_blob
  end.

(** The profile entries of a document, in the order of its list. *)
Definition profiles_in (doc : json) : list json :=
  match apps_list_of doc with
  | Some l => l
  | None => []
  end.

(** The profile entries of all rows, row after row. *)
Definition profiles_in_rows (rows : list row) : list json :=
  flat_map (fun r => match row_document r with
                     | Some doc => profiles_in doc
                     | None => []
                     end) rows.

(** The documents of all rows that hold one. *)
Definition row_documents (rows : list row) : list json :=
  flat_map (fun r => match row_document r with
                     | Some doc => [doc]
                     | None => []
                     end) rows.

Definition rows_of (db : database) : list row :=
  match db with
  | Some rows => rows
  | None => []
  end.

End Vocabulary.

(** A row that [load_profiles_from_db] passes over: its blob is empty or
    absent, or does not decode and parse. *)
Definition skipped `{RT : Runtime} (r : row) : bool :=
  match row_document r with
  | None => true
  | Some _ => false
  end.

(** A row whose blob is there but does not decode and parse. *)
Definition undecodable `{RT : Runtime} (r : row) : bool :=
  (negb (blob_is_empty (row_FILE r)) && skipped r)%bool.

Definition parse_warning (r : row) : event :=
  Log WARNING (Failed_to_parse_JSON_row (row_id r)).

(** A document is a JSON object. *)
Definition is_document (j : json) : bool :=
  match j with
  | JObj _ => true
  | _ => false
  end.

(** A well-formed profile entry is an object whose name, when it has one,
    is a string. *)
Definition well_formed_profile (prof : json) : bool :=
  match prof with
  | JObj fields =>
      match dict_get "name" fields with
      | None | Some (JStr _) => true
      | Some _ => false
      end
  | _ => false
  end.

(** The profile's name in lower case, the empty string when it has none. *)
Definition name_key (prof : json) : string :=
  match prof with
  | JObj fields =>
      match dict_get "name" fields with
      | Some (JStr s) => PyStr.lower s
      | _ => ""
      end
  | _ => ""
  end.

Definition key_le (p q : json) : Prop :=
  String.leb (name_key p) (name_key q) = true.

(** Order of two keyed elements, and the test for a given key. *)
Definition fst_le {A : Type} (x y : string * A) : Prop :=
  String.leb (fst x) (fst y) = true.

Definition has_key {A : Type} (k : string) (x : string * A) : bool :=
  String.eqb (fst x) k.

(** The profiles of a loaded list, through the references of its entries. *)
Definition shown (ld : loaded) : list (option json) :=
  map (profile_of (documents ld)) (entries ld).

(** The calls of [save_profile_to_db] recorded in a list of events, oldest
    first. *)
Fixpoint saves (evs : list event) : list (Z * json) :=
  match evs with
  | [] => []
  | SaveRow id doc :: evs' => (id, doc) :: saves evs'
  | _ :: evs' => saves evs'
  end.

(** Did the log receive an error? *)
Definition logs_failure (evs : list event) : bool :=
  existsb (fun e => match e with Log ERROR _ => true | _ => false end) evs.

(** No row has the identifier [id]. *)
Definition matches_no_row (rows : list row) (id : Z) : bool :=
  forallb (fun r => negb (Z.eqb (row_id r) id)) rows.

(** The field [k] of a profile. *)
Definition field (k : string) (prof : json) : option json :=
  match prof with
  | JObj fields => dict_get k fields
  | _ => None
  end.

(** The base name of the icon file as the specification words it: the
    characters of the name other than letters, digits, whitespace and
    hyphen removed, whitespace turned into underscores, and "icon" when
    nothing is left. *)
Definition claimed_base_name (name : string) : string :=
  PyStr.or_else
    (PyStr.re_sub_outside (fun _ => true)
       ((fix underscores (t : string) : string :=
           match t with
           | EmptyString => EmptyString
           | String c t' =>
               String (if PyStr.isspace c then "_"%char else c) (underscores t')
           end)
          (PyStr.re_sub_outside
             (fun c => (PyStr.isalnum c || PyStr.isspace c
                        || Ascii.eqb c "-")%bool)
             name)))
    "icon".

(** The characters a name built by [browse_icon] is made of: letters,
    digits, underscore, hyphen, and whitespace other than the space. *)
Definition file_name_char (c : ascii) : bool :=
  (PyStr.is_word c || Ascii.eqb c "-"
   || (PyStr.isspace c && negb (Ascii.eqb c " ")))%bool.

(** The entry [it] refers, in the documents [ds], to a document with the
    top-level fields [top], whose applications object has the fields [sec]
    and the list [l], and to the element [prof] of that list. *)
Definition points (ds : list json) (it : item) (top sec : dict)
    (l : list json) (prof : json) : Prop :=
  document_of ds it = Some (JObj top) /\
  dict_get "applications" top = Some (JObj sec) /\
  dict_get "applications" sec = Some (JArr l) /\
  nth_error l (profile it) = Some prof.

(** The document [JObj top] with [l'] as its applications list. *)
Definition with_apps_list (top sec : dict) (l' : list json) : json :=
  JObj (dict_set "applications"
          (JObj (dict_set "applications" (JArr l') sec)) top).

(** Between [s] and [s'] the table was not written and
    [save_profile_to_db] was not called. *)
Definition quiet (s s' : state) : Prop :=
  DATA s' = DATA s /\ saves (events s') = saves (events s).

(** A method that never writes the table nor calls [save_profile_to_db]. *)
Definition silent {A : Type} (m : M A) : Prop :=
  forall s, quiet s (snd (m s)).

(* ================================================================== *)
(** * A small database, to run the model on

    The decoder of [Demo.rt] knows the documents below and no other: a
    document written by a save is not among them, so the runs look at what
    happens up to and including the save, not at the reload after it. *)

Module Demo.

Definition doc_a : json :=
  JObj [("applications",
         JObj [("applications",
                JArr [JObj [("name", JStr "Zed");
                            ("applicationPath", JStr "C:/z.exe");
                            ("posterPath", JStr "")];
                      JObj [("applicationId", JStr "id-1");
                            ("isCustom", JBool false);
                            ("name", JStr "alpha");
                            ("posterPath", JStr "/x/old.png")]]);
               ("shown", JBool true)]);
        ("version", JInt 3)].

Definition doc_b : json :=
  JObj [("applications",
         JObj [("applications",
                JArr [JObj [("applicationId", JStr "id-2")];
                      JObj [("name", JStr "Beta")]])])].

Definition doc_c : json := JObj [("other", JInt 1)].

(** A document whose list holds an element that is not an object. *)
Definition doc_d : json :=
  JObj [("applications",
         JObj [("applications", JArr [JObj [("name", JStr "ok")]; JStr "x"])])].

(** A document with an unnamed profile, a name with an underscore, and two
    profiles that compare equal in Python ([True == 1], and the order of
    the keys does not count). *)
Definition doc_e : json :=
  JObj [("applications",
         JObj [("applications",
                JArr [JObj [("name", JStr ""); ("posterPath", JStr "")];
                      JObj [("name", JStr "dup"); ("isCustom", JBool true)];
                      JObj [("name", JStr "a_b")];
                      JObj [("isCustom", JInt 1); ("name", JStr "dup")]])])].

(** A document with an empty list of profiles. *)
Definition doc_f : json :=
  JObj [("applications", JObj [("applications", JArr [])])].

Definition known : list json :=
  [doc_a; doc_b; doc_c; doc_d; doc_e; doc_f].

Definition rt : Runtime := Posix.runtime known.

Definition table : list row :=
  [ {| row_id := 1; row_FILE := Posix.dumps doc_a |};
    {| row_id := 2; row_FILE := None |};
    {| row_id := 3; row_FILE := Some (list_byte_of_string "{not json") |};
    {| row_id := 4; row_FILE := Posix.dumps doc_b |};
    {| row_id := 5; row_FILE := Some [] |};
    {| row_id := 6; row_FILE := Posix.dumps doc_c |} ].

(** The application after start-up on [table]. *)
Definition s0 : state :=
  Eval vm_compute in snd (init (RT := rt) (Some table) "/cache").

(** The profile "alpha" selected and its three fields typed over. *)
Definition s1 : state :=
  Eval vm_compute in
    set_icon_path_var "/x/new.bmp"
      (set_app_path_var "D:/alpha.exe"
         (set_name_entry_var "Renamed"
            (snd (on_profile_select (RT := rt) (Some 1) s0)))).

Definition table_c : list row :=
  [ {| row_id := 6; row_FILE := Posix.dumps doc_c |};
    {| row_id := 8; row_FILE := Posix.dumps doc_f |} ].

(** Start-up on a table whose rows hold documents without any profile. *)
Definition s_c : state :=
  Eval vm_compute in snd (init (RT := rt) (Some table_c) "/cache").

Definition table_e : list row :=
  [ {| row_id := 7; row_FILE := Posix.dumps doc_e |} ].

(** Start-up on [table_e]; the list box shows the unnamed profile, "a_b",
    and the two "dup", in this order. *)
Definition s_e : state :=
  Eval vm_compute in snd (init (RT := rt) (Some table_e) "/cache").

(** [s_e] with line [i] of the list box selected. *)
Definition s_e_selected (i : nat) : state :=
  snd (on_profile_select (RT := rt) (Some i) s_e).

Definition table_d : list row :=
  [ {| row_id := 1; row_FILE := Posix.dumps doc_a |};
    {| row_id := 2; row_FILE := Posix.dumps doc_d |} ].

End Demo.

(* ================================================================== *)
(** * Further vocabulary: entries and the rows they come from *)

(** The entry [it], standing for the profile [prof], comes from a row of
    the table: the row has the entry's identifier, the entry's document is
    the document of that row, and [prof] is the element of its list at the
    entry's position. *)
Definition entry_from_row `{RT : Runtime} (rows : list row) (ds : list json)
    (it : item) (prof : json) : Prop :=
  exists r doc,
    In r rows /\ row_id r = db_row_id it /\ row_document r = Some doc /\
    document_of ds it = Some doc /\
    nth_error (profiles_in doc) (profile it) = Some prof.

(** The entry refers to a profile that is an object whose name, if any, is
    a string. *)
Definition entry_ok (ds : list json) (it : item) : bool :=
  match profile_of ds it with
  | Some prof => well_formed_profile prof
  | None => false
  end.

(** Every entry of the state refers to such a profile. *)
Definition state_ok (s : state) : bool :=
  forallb (entry_ok (docs s)) (profiles s).

(** Between [s] and [s'] the table, the loaded documents and entries and
    the cache folder are the same: only the selection, the form fields and
    the events may differ. *)
Definition same_store (s s' : state) : Prop :=
  DATA s' = DATA s /\ docs s' = docs s /\ profiles s' = profiles s /\
  icon_cache_folder s' = icon_cache_folder s.

(** A step that leaves the table and the loaded documents and entries as
    they are. *)
Definition stores_nothing {A : Type} (m : M A) : Prop :=
  forall s, same_store s (snd (m s)).

(** What is in memory is what loading the table gives. *)
Definition in_sync `{RT : Runtime} (s : state) : Prop :=
  snd (load_profiles_from_db (DATA s))
  = Ok {| documents := docs s; entries := profiles s |}.

(** The exceptions a method can end with in a state whose entries are all
    in order. *)
Definition expected (r : result unit) : Prop :=
  match r with
  | Ok _ => True
  | Raise e => e = IndexError \/ e = AttributeError
  end.

(** The entry refers to a profile with the name [name]. *)
Definition named (name : string) (ds : list json) (it : item) : bool :=
  match profile_of ds it with
  | Some prof =>
      match field "name" prof with
      | Some (JStr n) => String.eqb n name
      | _ => false
      end
  | None => false
  end.

(** The first position at or after [i] of an entry of [l] with the name
    [name]. *)
Fixpoint first_named (name : string) (ds : list json) (i : nat)
    (l : list item) : option nat :=
  match l with
  | [] => None
  | it :: l' =>
      if named name ds it then Some i else first_named name ds (S i) l'
  end.

(** [populate_list]: the lines of the list box, one name per entry. *)
Fixpoint names_of (ds : list json) (l : list item) : M (list json) :=
  match l with
  | [] => ret []
  | it :: l' =>
      bind (or_raise DanglingRef (profile_of ds it)) (fun prof =>
      bind (as_dict prof) (fun fields =>
      bind (names_of ds l') (fun rest =>
      ret (dict_get_default "name" (JStr "(Unnamed)") fields :: rest))))
  end.

Definition populate_list : M (list json) :=
  bind get (fun s => names_of (docs s) (profiles s)).

(** A step that, in a state whose entries are in order, returns and leaves
    the table and the loaded documents and entries as they are. *)
Definition settles (k : M unit) : Prop :=
  forall s, state_ok s = true ->
            exists s', k s = (Ok tt, s') /\ same_store s s'.

(** The identifiers of the rows of the table, in the order of the rows;
    nothing for a database that cannot be opened. *)
Definition row_ids (db : database) : option (list Z) :=
  option_map (map row_id) db.

(** Between [s] and [s'] no row was added, removed or moved. *)
Definition same_rows (s s' : state) : Prop :=
  row_ids (DATA s') = row_ids (DATA s).

(** A step that adds, removes and moves no row. *)
Definition keeps_rows {A : Type} (m : M A) : Prop :=
  forall s, same_rows s (snd (m s)).

(* ================================================================== *)
(** * A second runtime, whose decoder also knows the documents that the
      runs on the small database save *)

Module Demo2.

Definition l_b : list json :=
  [JObj [("applicationId", JStr "id-2")]; JObj [("name", JStr "Beta")]].

Definition sec_b : dict := [("applications", JArr l_b)].

Definition top_b : dict := [("applications", JObj sec_b)].

(** [Demo.doc_b] after "New Entry" was added. *)
Definition doc_b_added : json :=
  Eval vm_compute in with_apps_list top_b sec_b (l_b ++ [new_profile]).

Definition l_e : list json :=
  [JObj [("name", JStr ""); ("posterPath", JStr "")];
   JObj [("name", JStr "dup"); ("isCustom", JBool true)];
   JObj [("name", JStr "a_b")];
   JObj [("isCustom", JInt 1); ("name", JStr "dup")]].

Definition sec_e : dict := [("applications", JArr l_e)].

Definition top_e : dict := [("applications", JObj sec_e)].

(** [Demo.doc_e] after the second "dup" was selected and deleted. *)
Definition doc_e_deleted : json :=
  Eval vm_compute in
    with_apps_list top_e sec_e
      (remove_if_in 3 (JObj [("isCustom", JInt 1); ("name", JStr "dup")]) l_e).

Definition fields_alpha : dict :=
  [("applicationId", JStr "id-1"); ("isCustom", JBool false);
   ("name", JStr "alpha"); ("posterPath", JStr "/x/old.png")].

Definition l_a : list json :=
  [JObj [("name", JStr "Zed"); ("applicationPath", JStr "C:/z.exe");
         ("posterPath", JStr "")];
   JObj fields_alpha].

Definition sec_a : dict := [("applications", JArr l_a); ("shown", JBool true)].

Definition top_a : dict := [("applications", JObj sec_a); ("version", JInt 3)].

(** [Demo.doc_a] after the changes typed in [Demo.s1] were saved. *)
Definition doc_a_saved : json :=
  Eval vm_compute in
    with_apps_list top_a sec_a
      (list_set 1 (JObj (edited "Renamed" "D:/alpha.exe" "/x/new.bmp"
                                fields_alpha)) l_a).

Definition known : list json :=
  doc_b_added :: doc_e_deleted :: doc_a_saved :: Demo.known.

Definition rt : Runtime := Posix.runtime known.

Definition blob_of (doc : json) : bytes :=
  match Posix.dumps doc with
  | Some b => b
  | None => []
  end.

Definition blob_b_added : bytes := Eval vm_compute in blob_of doc_b_added.

Definition blob_e_deleted : bytes := Eval vm_compute in blob_of doc_e_deleted.

Definition blob_a_saved : bytes := Eval vm_compute in blob_of doc_a_saved.

(** [Demo.s_e] with the second "dup" selected. *)
Definition s_e3 : state := Eval vm_compute in Demo.s_e_selected 3.

End Demo2.


(* ================================================================== *)
(** * Facts about strings, dicts and lists *)

Lemma ascii_compare_trans (a b c : ascii) (o : comparison) :
  Ascii.compare a b = o -> Ascii.compare b c = o -> Ascii.compare a c = o.
Proof.
  unfold Ascii.compare. destruct o; intros H1 H2.
  - apply N.compare_eq_iff in H1, H2. apply N.compare_eq_iff. congruence.
  - apply N.compare_lt_iff in H1. apply N.compare_lt_iff in H2.
    apply N.compare_lt_iff. eapply N.lt_trans; eassumption.
  - apply N.compare_gt_iff in H1. apply N.compare_gt_iff in H2.
    apply N.compare_gt_iff. eapply N.lt_trans; eassumption.
Qed.

Lemma string_leb_trans (a b c : string) :
  String.leb a b = true -> String.leb b c = true -> String.leb a c = true.
Proof.
  unfold String.leb. revert b c.
  induction a as [|x a IH]; intros [|y b] [|z c]; simpl; try easy.
  destruct (Ascii.compare x y) eqn:Exy; try easy;
    destruct (Ascii.compare y z) eqn:Eyz; try easy; intros H1 H2.
  - rewrite (ascii_compare_trans _ _ _ _ Exy Eyz). now apply (IH b c).
  - apply Ascii.compare_eq_iff in Exy. subst y. now rewrite Eyz.
  - apply Ascii.compare_eq_iff in Eyz. subst z. now rewrite Exy.
  - now rewrite (ascii_compare_trans _ _ _ _ Exy Eyz).
Qed.

Lemma string_leb_false (a b : string) :
  String.leb a b = false -> String.leb b a = true /\ a <> b.
Proof.
  intros H. split.
  - destruct (String.leb_total a b) as [E|E]; congruence.
  - intros ->. unfold String.leb in H.
    destruct (String.compare b b) eqn:E; try discriminate.
    pose proof (String.compare_antisym b b) as Ha.
    rewrite E in Ha. discriminate Ha.
Qed.

Lemma dict_get_set_same (k : string) (v : json) (m : dict) :
  dict_get k (dict_set k v m) = Some v.
Proof.
  induction m as [|[k' v'] m IH]; simpl.
  - now rewrite String.eqb_refl.
  - destruct (String.eqb k' k) eqn:E; simpl.
    + now rewrite String.eqb_refl.
    + now rewrite E.
Qed.

Lemma dict_get_set_other (k k' : string) (v : json) (m : dict) :
  k' <> k -> dict_get k' (dict_set k v m) = dict_get k' m.
Proof.
  intros Hne. induction m as [|[k0 v0] m IH]; simpl.
  - apply String.eqb_neq in Hne. rewrite String.eqb_sym. now rewrite Hne.
  - destruct (String.eqb k0 k) eqn:E; simpl.
    + apply String.eqb_eq in E. subst k0.
      assert (String.eqb k k' = false) as ->; [|reflexivity].
      apply String.eqb_neq. congruence.
    + now rewrite IH.
Qed.

Lemma nth_error_list_set_same {A : Type} (i : nat) (x : A) (l : list A) :
  i < List.length l -> nth_error (list_set i x l) i = Some x.
Proof.
  revert i. induction l as [|y l IH]; intros [|i] H; simpl in *; try lia; auto.
  apply IH. lia.
Qed.

Lemma nth_error_list_set_other {A : Type} (i j : nat) (x : A) (l : list A) :
  i <> j -> nth_error (list_set i x l) j = nth_error l j.
Proof.
  revert i j.
  induction l as [|y l IH]; intros [|i] [|j] H; simpl; auto;
    solve [congruence | apply IH; congruence].
Qed.

Lemma length_list_set {A : Type} (i : nat) (x : A) (l : list A) :
  List.length (list_set i x l) = List.length l.
Proof.
  revert i. induction l as [|y l IH]; intros [|i]; simpl; auto.
Qed.

(* ================================================================== *)
(** * The stable sort *)

Section Sorting.

Variable A : Type.

Implicit Types (x y : string * A) (l : list (string * A)).

Lemma insert_by_key_perm x l : Permutation (x :: l) (insert_by_key x l).
Proof.
  induction l as [|y l IH]; simpl; [reflexivity|].
  destruct (String.leb (fst x) (fst y)); [reflexivity|].
  rewrite perm_swap. now constructor.
Qed.

Lemma sort_by_key_perm l : Permutation l (sort_by_key l).
Proof.
  induction l as [|x l IH]; simpl; [constructor|].
  rewrite <- insert_by_key_perm. now constructor.
Qed.

Lemma insert_by_key_sorted x l :
  StronglySorted fst_le l -> StronglySorted fst_le (insert_by_key x l).
Proof.
  induction 1 as [|y l Hs IH Hall]; simpl.
  - repeat constructor.
  - destruct (String.leb (fst x) (fst y)) eqn:E.
    + constructor; [now constructor|].
      constructor; [exact E|].
      eapply Forall_impl; [|exact Hall].
      intros z Hz. unfold fst_le in *. eapply string_leb_trans; eauto.
    + constructor; [exact IH|].
      apply (Permutation_Forall (insert_by_key_perm x l)).
      constructor; [|exact Hall].
      now apply string_leb_false in E.
Qed.

Lemma sort_by_key_sorted l : StronglySorted fst_le (sort_by_key l).
Proof.
  induction l as [|x l IH]; simpl; [constructor|].
  now apply insert_by_key_sorted.
Qed.

Lemma insert_by_key_stable k x l :
  filter (has_key k) (insert_by_key x l) = filter (has_key k) (x :: l).
Proof.
  induction l as [|y l IH]; simpl; [reflexivity|].
  destruct (String.leb (fst x) (fst y)) eqn:E; [reflexivity|].
  simpl in *. rewrite IH.
  destruct (has_key k x) eqn:Hx, (has_key k y) eqn:Hy; try reflexivity.
  unfold has_key in *.
  apply String.eqb_eq in Hx, Hy.
  apply string_leb_false in E. destruct E as [_ E].
  congruence.
Qed.

Lemma sort_by_key_stable k l :
  filter (has_key k) (sort_by_key l) = filter (has_key k) l.
Proof.
  induction l as [|x l IH]; simpl; [reflexivity|].
  rewrite insert_by_key_stable. simpl. now rewrite IH.
Qed.

End Sorting.

(* ================================================================== *)
(** * Loading *)

Lemma document_of_app (docs ds : list json) (it : item) (doc : json) :
  document_of docs it = Some doc -> document_of (docs ++ ds) it = Some doc.
Proof.
  unfold document_of. intros H.
  rewrite nth_error_app1; [exact H|].
  apply nth_error_Some. congruence.
Qed.

Lemma profile_of_app (docs ds : list json) (it : item) (p : json) :
  profile_of docs it = Some p -> profile_of (docs ++ ds) it = Some p.
Proof.
  unfold profile_of.
  destruct (document_of docs it) as [doc|] eqn:E; [|discriminate].
  now rewrite (document_of_app _ ds _ _ E).
Qed.

Lemma map_snd_entries_of (id : Z) (d i : nat) (l : list json) :
  map snd (entries_of id d i l) = l.
Proof.
  revert i. induction l as [|p l IH]; intros i; simpl; [reflexivity|].
  now rewrite IH.
Qed.

Lemma entries_of_point (id : Z) (d : nat) (pre l : list json) :
  Forall (fun x => db_row_id (fst x) = id /\ entire_json (fst x) = d /\
                   nth_error (pre ++ l) (profile (fst x)) = Some (snd x))
         (entries_of id d (List.length pre) l).
Proof.
  revert pre. induction l as [|p l IH]; intros pre; simpl; constructor.
  - simpl. repeat split. now rewrite nth_error_app2, Nat.sub_diag.
  - specialize (IH (pre ++ [p])).
    rewrite <- app_assoc, length_app, Nat.add_1_r in IH. exact IH.
Qed.

Lemma row_entries_document (id : Z) (d : nat) (doc : json) :
  is_document doc = true ->
  row_entries id d doc = Ok (entries_of id d 0 (profiles_in doc)).
Proof.
  destruct doc as [| | | | | |top]; try discriminate. intros _.
  unfold row_entries, profiles_in, apps_list_of, dict_get_default.
  destruct (dict_get "applications" top) as [[| | | | | |sec]|]; try reflexivity.
  destruct (dict_get "applications" sec) as [[]|]; reflexivity.
Qed.

Lemma row_entries_raise (id : Z) (d : nat) (doc : json) :
  is_document doc = false -> row_entries id d doc = Raise AttributeError.
Proof. destruct doc; simpl; congruence. Qed.

Lemma row_entries_exn (id : Z) (d : nat) (doc : json) (e : exn) :
  row_entries id d doc = Raise e -> e = AttributeError.
Proof.
  destruct (is_document doc) eqn:E.
  - rewrite (row_entries_document _ _ _ E). discriminate.
  - rewrite (row_entries_raise _ _ _ E). congruence.
Qed.

Lemma entries_of_profile_of (id : Z) (docs : list json) (doc : json) :
  Forall (fun x => profile_of (docs ++ [doc]) (fst x) = Some (snd x))
         (entries_of id (List.length docs) 0 (profiles_in doc)).
Proof.
  pose proof (entries_of_point id (List.length docs) [] (profiles_in doc)) as H.
  simpl in H. eapply Forall_impl; [|exact H].
  intros [it p] (_ & Hd & Hp). simpl in *.
  unfold profile_of, document_of. rewrite Hd.
  rewrite nth_error_app2, Nat.sub_diag by lia. simpl.
  unfold profiles_in in Hp.
  destruct (apps_list_of doc); [exact Hp|].
  now destruct (profile it).
Qed.

Section Loading.

Context {RT : Runtime}.

Lemma load_rows_ok (rows : list row) :
  (forall r doc, In r rows -> row_document r = Some doc ->
                 is_document doc = true) ->
  forall docs acc, exists evs ds new,
    load_rows rows docs acc = (evs, Ok (docs ++ ds, acc ++ new)) /\
    map snd new = profiles_in_rows rows /\
    Forall (fun x => profile_of (docs ++ ds) (fst x) = Some (snd x)) new.
Proof.
  induction rows as [|r rows IH]; intros Hdoc docs acc.
  - exists [], [], []. simpl. rewrite !app_nil_r. auto.
  - assert (Hrest : forall r' doc, In r' rows -> row_document r' = Some doc ->
                                   is_document doc = true)
      by (intros; eapply Hdoc; [right|]; eassumption).
    specialize (Hdoc r). simpl. unfold row_document in *.
    destruct (row_FILE r) as [[|b bs]|].
    + apply (IH Hrest).
    + destruct (json_loads (b :: bs)) as [doc|].
      * rewrite (row_entries_document _ _ doc) by (apply Hdoc; [now left|reflexivity]).
        destruct (IH Hrest (docs ++ [doc])
                     (acc ++ entries_of (row_id r) (List.length docs) 0
                                        (profiles_in doc)))
          as (evs & ds & new & E & Hmap & Hall).
        exists evs, (doc :: ds),
          (entries_of (row_id r) (List.length docs) 0 (profiles_in doc) ++ new).
        rewrite E. repeat split.
        -- f_equal. f_equal. now rewrite <- !app_assoc.
        -- now rewrite map_app, map_snd_entries_of, Hmap.
        -- replace (docs ++ doc :: ds) with ((docs ++ [doc]) ++ ds)
             by now rewrite <- app_assoc.
           apply Forall_app. split; [|exact Hall].
           eapply Forall_impl; [|apply entries_of_profile_of].
           intros x Hx. now apply profile_of_app.
      * destruct (IH Hrest docs acc) as (evs & ds & new & E & Hmap & Hall).
        rewrite E. eauto 8.
    + apply (IH Hrest).
Qed.

End Loading.

Lemma sort_key_well_formed (p : json) :
  well_formed_profile p = true -> sort_key p = Ok (name_key p).
Proof.
  destruct p as [| | | | | |fields]; try discriminate.
  unfold well_formed_profile, sort_key, name_key, dict_get_default.
  destruct (dict_get "name" fields) as [[]|]; intros H;
    try discriminate H; reflexivity.
Qed.

Lemma sort_key_ill_formed (p : json) :
  well_formed_profile p = false -> sort_key p = Raise AttributeError.
Proof.
  destruct p as [| | | | | |fields]; try reflexivity.
  unfold well_formed_profile, sort_key, dict_get_default.
  destruct (dict_get "name" fields) as [[]|]; intros H;
    try discriminate H; reflexivity.
Qed.

Lemma keyed_well_formed {A : Type} (f : A -> json) (l : list A) :
  Forall (fun x => well_formed_profile (f x) = true) l ->
  keyed (fun x => sort_key (f x)) l = Ok (map (fun x => (name_key (f x), x)) l).
Proof.
  induction 1 as [|x l Hx _ IH]; simpl; [reflexivity|].
  now rewrite (sort_key_well_formed _ Hx), IH.
Qed.

Lemma keyed_ill_formed {A : Type} (f : A -> json) (l : list A) :
  Exists (fun x => well_formed_profile (f x) = false) l ->
  keyed (fun x => sort_key (f x)) l = Raise AttributeError.
Proof.
  induction 1 as [x l Hx|x l _ IH]; simpl.
  - now rewrite (sort_key_ill_formed _ Hx).
  - rewrite IH. destruct (sort_key (f x)) as [k|e] eqn:E; [reflexivity|].
    destruct (well_formed_profile (f x)) eqn:W.
    + rewrite (sort_key_well_formed _ W) in E. discriminate.
    + rewrite (sort_key_ill_formed _ W) in E. congruence.
Qed.

Lemma StronglySorted_map_in {A B : Type} (R : A -> A -> Prop)
    (R' : B -> B -> Prop) (g : A -> B) (l : list A) :
  (forall a b, In a l -> In b l -> R a b -> R' (g a) (g b)) ->
  StronglySorted R l -> StronglySorted R' (map g l).
Proof.
  intros Himp Hs. induction Hs as [|a l Hs IH Hall]; simpl; constructor.
  - apply IH. intros x y Hx Hy. apply Himp; now right.
  - apply Forall_map. rewrite Forall_forall in *.
    intros b Hb. apply Himp; [now left|now right|now apply Hall].
Qed.

Lemma row_documents_in `{RT : Runtime} (rows : list row) (r : row) (doc : json) :
  In r rows -> row_document r = Some doc -> In doc (row_documents rows).
Proof.
  intros Hin Hdoc. unfold row_documents. apply in_flat_map.
  exists r. split; [exact Hin|]. rewrite Hdoc. now left.
Qed.

(** C1.  Whenever every row that holds a document holds a JSON object and
    every profile entry of these documents is well formed, loading returns
    one entry per profile entry of the rows (so as many entries as there
    are profile entries), each entry referring to its profile, ordered by
    the lower-cased name with the empty string for a missing name; the sort
    is stable.  A database that cannot be queried has no rows and yields no
    entry. *)
Theorem load_returns_every_profile_sorted `{RT : Runtime} (db : database) :
  forallb is_document (row_documents (rows_of db)) = true ->
  forallb well_formed_profile (profiles_in_rows (rows_of db)) = true ->
  exists ld ps,
    snd (load_profiles_from_db db) = Ok ld /\
    shown ld = map Some ps /\
    List.length (entries ld) = List.length (profiles_in_rows (rows_of db)) /\
    Permutation (profiles_in_rows (rows_of db)) ps /\
    StronglySorted key_le ps /\
    forall k, filter (fun p => String.eqb (name_key p) k) ps =
              filter (fun p => String.eqb (name_key p) k)
                     (profiles_in_rows (rows_of db)).
Proof.
  intros Hdocs Hwf. destruct db as [rows|]; simpl in *.
  - rewrite forallb_forall in Hdocs, Hwf.
    destruct (load_rows_ok rows) with (docs := @nil json)
                                      (acc := @nil (item * json))
      as (evs & ds & new & E & Hmap & Hall).
    { intros r doc Hin Hdoc. apply Hdocs. eapply row_documents_in; eauto. }
    simpl in E. rewrite E. unfold list_sort.
    rewrite (keyed_well_formed snd).
    2:{ apply Forall_forall. intros x Hx. apply Hwf. rewrite <- Hmap.
        now apply in_map. }
    set (kl := map (fun x => (name_key (snd x), x)) new).
    pose proof (sort_by_key_perm _ kl) as Hperm.
    assert (Hinv : Forall (fun kx => fst kx = name_key (snd (snd kx)) /\
                             profile_of ds (fst (snd kx)) = Some (snd (snd kx)))
                          (sort_by_key kl)).
    { apply (Permutation_Forall Hperm). unfold kl. apply Forall_map.
      eapply Forall_impl; [|exact Hall]. intros x Hx. simpl. auto. }
    rewrite Forall_forall in Hinv.
    assert (Hps : map (fun kx => snd (snd kx)) kl = profiles_in_rows rows).
    { unfold kl. rewrite map_map. simpl. exact Hmap. }
    exists {| documents := ds; entries := map fst (map snd (sort_by_key kl)) |},
           (map (fun kx => snd (snd kx)) (sort_by_key kl)).
    simpl. repeat split.
    + unfold shown. simpl. rewrite !map_map. apply map_ext_in.
      intros kx Hkx. apply (Hinv kx Hkx).
    + rewrite !length_map, <- (Permutation_length Hperm), <- Hps.
      now rewrite length_map.
    + rewrite <- Hps. now apply Permutation_map.
    + apply (StronglySorted_map_in (@fst_le (item * json))).
      * intros a b Ha Hb Hab. unfold key_le, fst_le in *.
        destruct (Hinv a Ha) as [<- _], (Hinv b Hb) as [<- _]. exact Hab.
      * apply sort_by_key_sorted.
    + intros k. rewrite <- Hps, !filter_map_swap. 
      rewrite (filter_ext_in _ (has_key k) (sort_by_key kl)).
      2:{ intros kx Hkx. unfold has_key.
          now destruct (Hinv kx Hkx) as [<- _]. }
      rewrite (filter_ext_in _ (has_key k) kl).
      2:{ intros kx Hkx. unfold has_key.
          apply (Permutation_in _ Hperm), Hinv in Hkx.
          now destruct Hkx as [<- _]. }
      now rewrite sort_by_key_stable.
  - exists {| documents := []; entries := [] |}, [].
    repeat split; constructor.
Qed.

Lemma load_returns_every_profile_sorted_witness :
  exists ld ps,
    snd (load_profiles_from_db (RT := Demo.rt) (Some Demo.table)) = Ok ld /\
    shown ld = map Some ps /\
    List.length (entries ld) = 4 /\
    Permutation (profiles_in_rows (RT := Demo.rt) Demo.table) ps /\
    StronglySorted key_le ps /\
    forall k, filter (fun p => String.eqb (name_key p) k) ps =
              filter (fun p => String.eqb (name_key p) k)
                     (profiles_in_rows (RT := Demo.rt) Demo.table).
Proof.
  exact (load_returns_every_profile_sorted (RT := Demo.rt)
           (Some Demo.table) eq_refl eq_refl).
Defined.

(* ------------------------------------------------------------------ *)
(** ** Rows that are passed over *)

Section Skipping.

Context {RT : Runtime}.

Lemma load_rows_skip (rows : list row) :
  forall docs acc,
    snd (load_rows rows docs acc) =
    snd (load_rows (filter (fun r => negb (skipped r)) rows) docs acc).
Proof.
  induction rows as [|r rows IH]; intros docs acc; [reflexivity|].
  simpl. unfold skipped, row_document.
  destruct (row_FILE r) as [[|b bs]|] eqn:EF; simpl; auto.
  destruct (json_loads (b :: bs)) as [doc|] eqn:EL; simpl.
  - rewrite EF, EL.
    destruct (row_entries (row_id r) (List.length docs) doc); [apply IH|reflexivity].
  - specialize (IH docs acc).
    destruct (load_rows rows docs acc). exact IH.
Qed.

Lemma load_rows_log (rows : list row) :
  forall docs acc,
    match snd (load_rows rows docs acc) with
    | Ok _ =>
        fst (load_rows rows docs acc) = map parse_warning (filter undecodable rows)
    | Raise e => e = AttributeError
    end.
Proof.
  induction rows as [|r rows IH]; intros docs acc; [reflexivity|].
  simpl. unfold undecodable, skipped, row_document.
  destruct (row_FILE r) as [[|b bs]|] eqn:EF; simpl; try apply IH.
  destruct (json_loads (b :: bs)) as [doc|] eqn:EL; simpl.
  - destruct (row_entries (row_id r) (List.length docs) doc) as [new|e] eqn:ER.
    + apply IH.
    + simpl. now apply row_entries_exn in ER.
  - specialize (IH docs acc).
    destruct (load_rows rows docs acc) as [evs [x|e]]; simpl in *;
      [now rewrite IH|exact IH].
Qed.

End Skipping.

Example skipped_rows_example :
  fst (load_profiles_from_db (RT := Demo.rt) (Some Demo.table)) =
  [Log DEBUG Loading_profiles_from_DB;
   Log WARNING (Failed_to_parse_JSON_row 3);
   Log INFO (Loaded_profiles 4)] /\
  map row_id (filter (fun r => negb (skipped (RT := Demo.rt) r))
                          Demo.table) = [1; 4; 6]%Z.
Proof. split; reflexivity. Qed.

(* ------------------------------------------------------------------ *)
(** ** Entries that are not objects *)

Lemma Exists_not_object_ill_formed {A : Type} (f : A -> json) (l : list A) :
  existsb (fun p => negb (is_document p)) (map f l) = true ->
  Exists (fun x => well_formed_profile (f x) = false) l.
Proof.
  rewrite existsb_exists. intros (p & Hin & Hp).
  apply in_map_iff in Hin. destruct Hin as (x & <- & Hx).
  apply Exists_exists. exists x. split; [exact Hx|].
  destruct (f x); simpl in *; congruence.
Qed.

(** C10.  When every row that holds a document holds a JSON object but one
    element of an applications list is not an object, the loop over the
    rows ends normally with every element collected, the sort raises
    [AttributeError] on computing the keys, and the exception leaves
    [load_profiles_from_db]: no profile of any row is returned. *)
Theorem non_object_entry_fails_whole_load `{RT : Runtime} (rows : list row) :
  forallb is_document (row_documents rows) = true ->
  existsb (fun p => negb (is_document p)) (profiles_in_rows rows) = true ->
  (exists evs ds all,
     load_rows rows [] [] = (evs, Ok (ds, all)) /\
     map snd all = profiles_in_rows rows /\
     list_sort (fun p => sort_key (snd p)) all = Raise AttributeError) /\
  snd (load_profiles_from_db (Some rows)) = Raise AttributeError.
Proof.
  intros Hdocs Hbad. rewrite forallb_forall in Hdocs.
  destruct (load_rows_ok rows) with (docs := @nil json)
                                    (acc := @nil (item * json))
    as (evs & ds & all & E & Hmap & _).
  { intros r doc Hin Hdoc. apply Hdocs. eapply row_documents_in; eauto. }
  simpl in E.
  assert (Hsort : list_sort (fun p => sort_key (snd p)) all
                  = Raise AttributeError).
  { unfold list_sort. rewrite (keyed_ill_formed snd); [reflexivity|].
    apply Exists_not_object_ill_formed. now rewrite Hmap. }
  split.
  - exists evs, ds, all. auto.
  - unfold load_profiles_from_db. rewrite E, Hsort. reflexivity.
Qed.

Lemma non_object_entry_fails_whole_load_witness :
  snd (load_profiles_from_db (RT := Demo.rt) (Some Demo.table_d))
  = Raise AttributeError.
Proof.
  exact (proj2 (non_object_entry_fails_whole_load (RT := Demo.rt)
                  Demo.table_d eq_refl eq_refl)).
Defined.

(* ================================================================== *)
(** * Methods that do not save *)

Lemma saves_app (evs evs' : list event) :
  saves (evs ++ evs') = saves evs ++ saves evs'.
Proof.
  induction evs as [|[] evs IH]; simpl; auto. now rewrite IH.
Qed.

Lemma quiet_refl (s : state) : quiet s s.
Proof. now split. Qed.

Lemma quiet_trans (s1 s2 s3 : state) :
  quiet s1 s2 -> quiet s2 s3 -> quiet s1 s3.
Proof. unfold quiet. intros [] []. split; congruence. Qed.

Lemma quiet_add_events (evs : list event) (s : state) :
  saves evs = [] -> quiet s (add_events evs s).
Proof.
  intros H. split; [reflexivity|]. simpl.
  now rewrite saves_app, H, app_nil_r.
Qed.

Lemma silent_ret {A : Type} (a : A) : silent (ret a).
Proof. intros s. apply quiet_refl. Qed.

Lemma silent_raise {A : Type} (e : exn) : silent (@raise A e).
Proof. intros s. apply quiet_refl. Qed.

Lemma silent_get : silent get.
Proof. intros s. apply quiet_refl. Qed.

Lemma silent_bind {A B : Type} (m : M A) (k : A -> M B) :
  silent m -> (forall a, silent (k a)) -> silent (bind m k).
Proof.
  intros Hm Hk s. unfold bind. specialize (Hm s).
  destruct (m s) as [[a|e] s']; simpl in *; [|exact Hm].
  eapply quiet_trans; [exact Hm|apply Hk].
Qed.

Lemma silent_modify (f : state -> state) :
  (forall s, quiet s (f s)) -> silent (modify f).
Proof. intros H s. apply H. Qed.

Lemma silent_emit (evs : list event) : saves evs = [] -> silent (emit evs).
Proof. intros H s. now apply quiet_add_events. Qed.

Lemma silent_or_raise {A : Type} (e : exn) (o : option A) :
  silent (or_raise e o).
Proof. destruct o; [apply silent_ret|apply silent_raise]. Qed.

Lemma silent_as_dict (x : json) : silent (as_dict x).
Proof. destruct x; first [apply silent_ret|apply silent_raise]. Qed.

Lemma silent_as_str (x : json) : silent (as_str x).
Proof. destruct x; first [apply silent_ret|apply silent_raise]. Qed.

Lemma silent_setitem (k : string) (v prof : json) : silent (setitem k v prof).
Proof. destruct prof; first [apply silent_ret|apply silent_raise]. Qed.

Create HintDb silent.

#[export] Hint Resolve silent_ret silent_raise silent_get silent_or_raise
  silent_as_dict silent_as_str silent_setitem : silent.

#[export] Hint Extern 1 (silent (bind _ _)) =>
  apply silent_bind; [|intro] : silent.

#[export] Hint Extern 1 (silent (modify _)) =>
  apply silent_modify; intro; apply quiet_refl : silent.

#[export] Hint Extern 1 (silent (emit _)) =>
  apply silent_emit; reflexivity : silent.

Lemma silent_item_at (idx : nat) : silent (item_at idx).
Proof. unfold item_at. auto 10 with silent. Qed.

Lemma silent_store_profile (it : item) (prof : json) :
  silent (store_profile it prof).
Proof. unfold store_profile. auto 10 with silent. Qed.

#[export] Hint Resolve silent_item_at silent_store_profile : silent.

Section Silent.

Context {RT : Runtime}.

Lemma load_rows_saves (rows : list row) :
  forall docs acc, saves (fst (load_rows rows docs acc)) = [].
Proof.
  induction rows as [|r rows IH]; intros docs acc; simpl; [reflexivity|].
  destruct (row_FILE r) as [[|b bs]|]; auto.
  destruct (json_loads (b :: bs)) as [doc|].
  - destruct (row_entries _ _ doc); auto.
  - specialize (IH docs acc). now destruct (load_rows rows docs acc).
Qed.

Lemma load_profiles_from_db_saves (db : database) :
  saves (fst (load_profiles_from_db db)) = [].
Proof.
  destruct db as [rows|]; simpl; [|reflexivity].
  pose proof (load_rows_saves rows [] []) as H.
  destruct (load_rows rows [] []) as [evs [[ds all]|e]]; simpl in *; auto.
  destruct (list_sort _ all); simpl; auto.
  now rewrite saves_app, H.
Qed.

Lemma silent_reload : silent reload.
Proof.
  intros s. unfold reload.
  pose proof (load_profiles_from_db_saves (DATA s)) as H.
  destruct (load_profiles_from_db (DATA s)) as [evs [ld|e]]; simpl in *.
  - split; [reflexivity|]. simpl. now rewrite saves_app, H, app_nil_r.
  - now apply quiet_add_events.
Qed.

Lemma silent_on_profile_select (sel : option nat) :
  silent (on_profile_select sel).
Proof. destruct sel; simpl; auto 20 with silent. Qed.

Lemma silent_index_of_name (ds : list json) (name : string) (l : list item) :
  forall i, silent (index_of_name ds name i l).
Proof.
  induction l as [|it l IH]; intros i; simpl; auto with silent.
  apply silent_bind; [auto with silent|intros prof].
  apply silent_bind; [auto with silent|intros fields].
  destruct (py_eq _ _); auto with silent.
Qed.

Lemma silent_select_by_name (name : string) : silent (select_by_name name).
Proof.
  unfold select_by_name. apply silent_bind; [auto with silent|intros s].
  apply silent_bind; [apply silent_index_of_name|intros [i|]].
  - apply silent_on_profile_select.
  - auto with silent.
Qed.

Lemma silent_clear_icon : silent clear_icon.
Proof.
  unfold clear_icon. apply silent_bind; [auto with silent|intros s].
  destruct (selected_profile_index s); [|auto with silent].
  apply silent_bind; [auto with silent|intros [[it doc] prof]].
  auto 10 with silent.
Qed.

Lemma silent_browse_icon (path : string) (opened saved : bool) :
  silent (browse_icon path opened saved).
Proof.
  unfold browse_icon. apply silent_bind; [auto with silent|intros s].
  destruct (selected_profile_index s); [|auto with silent].
  destruct (negb (PyStr.truthy path)); [auto with silent|].
  destruct (negb opened); [auto with silent|].
  apply silent_bind; [auto with silent|intros [[it doc] prof]].
  apply silent_bind; [auto with silent|intros fields].
  apply silent_bind; [auto with silent|intros poster].
  apply silent_bind; [auto with silent|intros name].
  destruct (negb saved); auto 10 with silent.
Qed.

End Silent.

(* ================================================================== *)
(** * Stepping through a method *)

Lemma bind_ok {A B : Type} (m : M A) (k : A -> M B) (s s' : state) (a : A) :
  m s = (Ok a, s') -> bind m k s = k a s'.
Proof. unfold bind. now intros ->. Qed.

Lemma points_apps_list_of ds it top sec l p :
  points ds it top sec l p -> apps_list_of (JObj top) = Some l.
Proof. intros (_ & Ht & Hs & _). simpl. now rewrite Ht, Hs. Qed.

Lemma points_profile_of ds it top sec l p :
  points ds it top sec l p -> profile_of ds it = Some p.
Proof.
  intros H. pose proof (points_apps_list_of _ _ _ _ _ _ H) as Hl.
  destruct H as (Hd & _ & _ & Hp). unfold profile_of. now rewrite Hd, Hl.
Qed.

Lemma put_apps_list_points ds it top sec l p (l' : list json) :
  points ds it top sec l p ->
  put_apps_list (JObj top) l' = with_apps_list top sec l'.
Proof. intros (_ & Ht & _). simpl. now rewrite Ht. Qed.

Lemma item_at_ok (s : state) idx it top sec l p :
  nth_error (profiles s) idx = Some it ->
  points (docs s) it top sec l p ->
  item_at idx s = (Ok (it, JObj top, p), s).
Proof.
  intros Hit H. unfold item_at, bind, get, or_raise. rewrite Hit. simpl.
  rewrite (points_profile_of _ _ _ _ _ _ H).
  destruct H as (-> & _). reflexivity.
Qed.

Lemma store_profile_ok (s : state) it top sec l p (p' : json) :
  points (docs s) it top sec l p ->
  store_profile it p' s =
  (Ok tt, set_docs (list_set (entire_json it)
                      (with_apps_list top sec (list_set (profile it) p' l))
                      (docs s)) s).
Proof.
  intros H.
  pose proof (points_apps_list_of _ _ _ _ _ _ H) as Hl.
  pose proof (put_apps_list_points _ _ _ _ _ _ (list_set (profile it) p' l) H)
    as Hput.
  destruct H as (Hd & _).
  unfold store_profile, bind, get. rewrite Hd.
  unfold or_raise, ret. rewrite Hl, Hput. reflexivity.
Qed.

(** After a profile was changed in place, its entry refers to the changed
    profile inside the changed document. *)
Lemma points_stored ds it top sec l p (p' : json) :
  points ds it top sec l p ->
  points (list_set (entire_json it)
            (with_apps_list top sec (list_set (profile it) p' l)) ds)
         it
         (dict_set "applications"
            (JObj (dict_set "applications"
                     (JArr (list_set (profile it) p' l)) sec)) top)
         (dict_set "applications" (JArr (list_set (profile it) p' l)) sec)
         (list_set (profile it) p' l)
         p'.
Proof.
  intros (Hd & Ht & Hs & Hp). unfold points, document_of in *.
  repeat split.
  - apply nth_error_list_set_same. apply nth_error_Some. congruence.
  - apply dict_get_set_same.
  - apply dict_get_set_same.
  - apply nth_error_list_set_same. apply nth_error_Some. congruence.
Qed.

Section Saving.

Context {RT : Runtime}.

Lemma save_profile_to_db_saves (db : database) (id : Z) (doc : json) :
  saves (fst (save_profile_to_db db id doc)) = [(id, doc)].
Proof.
  unfold save_profile_to_db.
  destruct (json_dumps doc); [destruct db|]; reflexivity.
Qed.

Lemma call_save_profile_to_db_saves (id : Z) (doc : json) (s : state) :
  fst (call_save_profile_to_db id doc s) = Ok tt /\
  saves (events (snd (call_save_profile_to_db id doc s)))
  = saves (events s) ++ [(id, doc)].
Proof.
  unfold call_save_profile_to_db.
  pose proof (save_profile_to_db_saves (DATA s) id doc) as H.
  destruct (save_profile_to_db (DATA s) id doc) as [evs db]. simpl in *.
  now rewrite saves_app, H.
Qed.

(** A save followed by steps that do not save: exactly one row was saved. *)
Lemma saved_then_silent {A : Type} (id : Z) (doc : json) (k : M A) (s : state) :
  silent k ->
  saves (events (snd (bind (call_save_profile_to_db id doc) (fun _ => k) s)))
  = saves (events s) ++ [(id, doc)].
Proof.
  intros Hk. unfold bind.
  destruct (call_save_profile_to_db_saves id doc s) as [Hok Hsaves].
  destruct (call_save_profile_to_db id doc s) as [[[]|e] s']; simpl in *;
    [|discriminate].
  destruct (Hk s') as [_ ->]. exact Hsaves.
Qed.

Lemma save_changes_saves (s : state) idx it top sec l fields :
  selected_profile_index s = Some idx ->
  nth_error (profiles s) idx = Some it ->
  points (docs s) it top sec l (JObj fields) ->
  saves (events (snd (save_changes s))) =
  saves (events s) ++
  [(db_row_id it,
    with_apps_list top sec
      (list_set (profile it)
         (JObj (edited (name_entry_var s) (app_path_var s) (icon_path_var s)
                       fields)) l))].
Proof.
  intros Hsel Hit H. unfold save_changes.
  rewrite (bind_ok get _ s s s eq_refl), Hsel.
  rewrite (bind_ok _ _ _ _ _ (item_at_ok s idx it top sec l _ Hit H)).
  rewrite (bind_ok _ _ _ _ _ (store_profile_ok s it top sec l _ _ H)).
  set (s1 := set_docs _ s).
  rewrite (bind_ok get _ s1 s1 s1 eq_refl).
  destruct (points_stored _ _ _ _ _ _
              (JObj (edited (name_entry_var s) (app_path_var s)
                            (icon_path_var s) fields)) H) as (Hd & _).
  unfold s1 at 1. simpl docs. rewrite Hd. simpl or_raise.
  rewrite (bind_ok (ret _) _ s1 s1 _ eq_refl).
  rewrite saved_then_silent; [reflexivity|].
  apply silent_bind; [apply silent_reload|intros _].
  apply silent_bind; [apply silent_select_by_name|intros _].
  auto with silent.
Qed.

End Saving.

(* ================================================================== *)
(** * Saving changes *)

(** C2.  Saving the changes of the selected entry calls
    [save_profile_to_db] once, for the row of the entry, with the entry's
    document in which the profile has the three typed values as its name,
    applicationPath and posterPath; every other field of that profile,
    every other element of the list, every other field of the applications
    object and every other top-level field of the document are as they
    were. *)
Theorem save_changes_touches_three_fields `{RT : Runtime}
    (s : state) idx it top sec l fields :
  selected_profile_index s = Some idx ->
  nth_error (profiles s) idx = Some it ->
  points (docs s) it top sec l (JObj fields) ->
  exists top' sec' l' fields',
    saves (events (snd (save_changes s))) =
      saves (events s) ++ [(db_row_id it, JObj top')] /\
    dict_get "applications" top' = Some (JObj sec') /\
    dict_get "applications" sec' = Some (JArr l') /\
    nth_error l' (profile it) = Some (JObj fields') /\
    dict_get "name" fields' = Some (JStr (name_entry_var s)) /\
    dict_get "applicationPath" fields' = Some (JStr (app_path_var s)) /\
    dict_get "posterPath" fields' = Some (JStr (icon_path_var s)) /\
    (forall k, k <> "name" -> k <> "applicationPath" -> k <> "posterPath" ->
               dict_get k fields' = dict_get k fields) /\
    List.length l' = List.length l /\
    (forall j, j <> profile it -> nth_error l' j = nth_error l j) /\
    (forall k, k <> "applications" -> dict_get k sec' = dict_get k sec) /\
    (forall k, k <> "applications" -> dict_get k top' = dict_get k top).
Proof.
  intros Hsel Hit H.
  set (fields' := edited (name_entry_var s) (app_path_var s) (icon_path_var s)
                         fields).
  destruct (points_stored _ _ _ _ _ _ (JObj fields') H) as (_ & Ht & Hs & Hp).
  eexists _, _, _, fields'.
  split; [exact (save_changes_saves s idx it top sec l fields Hsel Hit H)|].
  split; [exact Ht|]. split; [exact Hs|]. split; [exact Hp|].
  unfold fields', edited. repeat split.
  - rewrite !dict_get_set_other by discriminate. apply dict_get_set_same.
  - rewrite dict_get_set_other by discriminate. apply dict_get_set_same.
  - apply dict_get_set_same.
  - intros k Hn Ha Hp'. now rewrite !dict_get_set_other.
  - apply length_list_set.
  - intros j Hj. apply nth_error_list_set_other. congruence.
  - intros k Hk. now apply dict_get_set_other.
  - intros k Hk. now apply dict_get_set_other.
Qed.

Lemma save_changes_touches_three_fields_witness :
  exists top' sec' l' fields',
    saves (events (snd (save_changes (RT := Demo.rt) Demo.s1))) =
      saves (events Demo.s1) ++ [(1%Z, JObj top')] /\
    dict_get "applications" top' = Some (JObj sec') /\
    dict_get "applications" sec' = Some (JArr l') /\
    nth_error l' 1 = Some (JObj fields') /\
    dict_get "name" fields' = Some (JStr "Renamed") /\
    dict_get "applicationId" fields' = Some (JStr "id-1") /\
    nth_error l' 0 = nth_error (profiles_in Demo.doc_a) 0 /\
    dict_get "shown" sec' = Some (JBool true) /\
    dict_get "version" top' = Some (JInt 3).
Proof.
  destruct (save_changes_touches_three_fields (RT := Demo.rt)
              Demo.s1 1
              {| db_row_id := 1; entire_json := 0; profile := 1 |}
              _ _ _ _ eq_refl eq_refl
              (conj eq_refl (conj eq_refl (conj eq_refl eq_refl))))
    as (top' & sec' & l' & fields' & Hsave & Ht & Hs & Hp & Hname & _ & _
        & Hfields & _ & Hl & Hsec & Htop).
  exists top', sec', l', fields'.
  split; [exact Hsave|]. split; [exact Ht|]. split; [exact Hs|].
  split; [exact Hp|]. split; [exact Hname|].
  split; [rewrite Hfields by discriminate; reflexivity|].
  split; [rewrite Hl by discriminate; reflexivity|].
  split; [rewrite Hsec by discriminate; reflexivity|].
  rewrite Htop by discriminate; reflexivity.
Defined.

(* ================================================================== *)
(** * Python equality is reflexive on values with distinct keys *)

Lemma json_ind_nested (P : json -> Prop) :
  P JNull -> (forall b, P (JBool b)) -> (forall z, P (JInt z)) ->
  (forall f, P (JFloat f)) -> (forall s, P (JStr s)) ->
  (forall l, Forall P l -> P (JArr l)) ->
  (forall m, Forall (fun kv => P (snd kv)) m -> P (JObj m)) ->
  forall j, P j.
Proof.
  intros Hnull Hbool Hint Hfloat Hstr Harr Hobj.
  fix IH 1.
  intros [| b | z | f | s | l | m];
    [exact Hnull|apply Hbool|apply Hint|apply Hfloat|apply Hstr| | ].
  - apply Harr. induction l as [|x l IHl]; constructor; [apply IH|exact IHl].
  - apply Hobj. induction m as [|[k v] m IHm]; constructor;
      [apply IH|exact IHm].
Qed.

Lemma number_eqb_refl (n : number) : number_eqb n n = true.
Proof.
  destruct n as [z|f]; simpl; [apply Z.eqb_refl|].
  destruct f as [s|s| |s m e]; simpl; auto.
  - now destruct s.
  - apply Z.eqb_refl.
Qed.

Lemma dict_get_distinct (m : dict) (k : string) (v : json) :
  distinct (map fst m) = true -> In (k, v) m -> dict_get k m = Some v.
Proof.
  induction m as [|[k' v'] m IH]; simpl; [easy|].
  intros Hd Hin. apply andb_prop in Hd. destruct Hd as [Hk Hd].
  destruct Hin as [E|Hin].
  - injection E as -> ->. now rewrite String.eqb_refl.
  - destruct (String.eqb k' k) eqn:E; [|now apply IH].
    apply String.eqb_eq in E. subst k'.
    apply negb_true_iff in Hk.
    assert (existsb (String.eqb k) (map fst m) = true); [|congruence].
    apply existsb_exists. exists k. split; [|apply String.eqb_refl].
    apply in_map_iff. now exists (k, v).
Qed.

Lemma forall2b_refl {A : Type} (f : A -> A -> bool) (l : list A) :
  Forall (fun x => f x x = true) l -> forall2b f l l = true.
Proof. induction 1 as [|x l Hx _ IH]; simpl; [reflexivity|now rewrite Hx]. Qed.

Lemma py_eq_refl (j : json) : distinct_keys j = true -> py_eq j j = true.
Proof.
  induction j as [| b | z | f | s | l IH | m IH] using json_ind_nested;
    simpl; intros Hwf.
  - reflexivity.
  - now destruct b.
  - apply Z.eqb_refl.
  - apply (number_eqb_refl (NFloat f)).
  - apply String.eqb_refl.
  - apply forall2b_refl. rewrite forallb_forall in Hwf.
    rewrite Forall_forall in *. auto.
  - rewrite Nat.eqb_refl. simpl.
    apply andb_prop in Hwf. destruct Hwf as [Hd Hall].
    rewrite forallb_forall in *. rewrite Forall_forall in IH.
    intros [k v] Hin. simpl.
    rewrite (dict_get_distinct m k v Hd Hin).
    apply (IH (k, v) Hin), (Hall (k, v) Hin).
Qed.

Lemma same_or_equal_py_eq (pos : nat) (x : json) (l : list json) :
  nth_error l pos = Some x -> distinct_keys x = true ->
  forall i y, nth_error l i = Some y -> same_or_equal pos x i y = py_eq y x.
Proof.
  intros Hx Hwf i y Hy. unfold same_or_equal.
  destruct (Nat.eqb i pos) eqn:E; [|reflexivity].
  apply Nat.eqb_eq in E. subst i.
  assert (y = x) as -> by congruence.
  now rewrite (py_eq_refl x Hwf).
Qed.

Example py_eq_bool_int : py_eq (JBool true) (JInt 1) = true.
Proof. reflexivity. Qed.

Example py_eq_key_order :
  py_eq (JObj [("name", JStr "dup"); ("isCustom", JBool true)])
        (JObj [("isCustom", JInt 1); ("name", JStr "dup")]) = true.
Proof. reflexivity. Qed.

(* ================================================================== *)
(** * Deleting *)

Lemma list_index_from_spec (pos : nat) (x : json) (l : list json) :
  forall i0,
    match list_index_from pos x i0 l with
    | Some i =>
        exists before y after,
          l = before ++ y :: after /\ i = i0 + List.length before /\
          same_or_equal pos x i y = true /\
          (forall j z, nth_error before j = Some z ->
                       same_or_equal pos x (i0 + j) z = false) /\
          remove_at (List.length before) l = before ++ after
    | None =>
        forall j z, nth_error l j = Some z ->
                    same_or_equal pos x (i0 + j) z = false
    end.
Proof.
  induction l as [|y l IH]; intros i0; simpl.
  - intros [|j] z H; discriminate H.
  - destruct (same_or_equal pos x i0 y) eqn:E.
    + exists [], y, l. simpl. rewrite Nat.add_0_r.
      repeat split; auto. intros [|j] z H; discriminate H.
    + specialize (IH (S i0)).
      destruct (list_index_from pos x (S i0) l) as [i|].
      * destruct IH as (before & y' & after & -> & -> & Hy & Hb & Hr).
        exists (y :: before), y', after. simpl.
        rewrite Nat.add_succ_r. repeat split; auto.
        -- intros [|j] z H; simpl in H.
           ++ injection H as <-. now rewrite Nat.add_0_r.
           ++ rewrite Nat.add_succ_r. now apply Hb.
        -- now rewrite Hr.
      * intros [|j] z H; simpl in H.
        -- injection H as <-. now rewrite Nat.add_0_r.
        -- rewrite Nat.add_succ_r. now apply IH.
Qed.

(** The object at position [pos] is found by [in], at [pos] or before. *)
Lemma list_index_from_found (pos : nat) (x : json) (l : list json) :
  nth_error l pos = Some x ->
  exists i, list_index_from pos x 0 l = Some i /\ i <= pos.
Proof.
  intros H. pose proof (list_index_from_spec pos x l 0) as S.
  destruct (list_index_from pos x 0 l) as [i|].
  - exists i. split; [reflexivity|].
    destruct S as (before & y & after & -> & -> & _ & Hb & _). simpl.
    destruct (Nat.le_gt_cases (List.length before) pos) as [Hle|Hgt]; auto.
    destruct (nth_error before pos) as [z|] eqn:Ez.
    + specialize (Hb pos z Ez). simpl in Hb. unfold same_or_equal in Hb.
      now rewrite Nat.eqb_refl in Hb.
    + apply nth_error_None in Ez. lia.
  - specialize (S pos x H). simpl in S. unfold same_or_equal in S.
    now rewrite Nat.eqb_refl in S.
Qed.

Section Deleting.

Context {RT : Runtime}.

Lemma delete_entry_saves (s : state) idx it top sec l p :
  selected_profile_index s = Some idx ->
  nth_error (profiles s) idx = Some it ->
  points (docs s) it top sec l p ->
  saves (events (snd (delete_entry true s))) =
  saves (events s) ++
  [(db_row_id it, with_apps_list top sec (remove_if_in (profile it) p l))].
Proof.
  intros Hsel Hit H. unfold delete_entry.
  rewrite (bind_ok get _ s s s eq_refl), Hsel.
  change (negb true) with false. cbv iota.
  rewrite (bind_ok _ _ _ _ _ (item_at_ok s idx it top sec l _ Hit H)).
  rewrite (points_apps_list_of _ _ _ _ _ _ H). simpl or_raise.
  rewrite (bind_ok (ret _) _ s s _ eq_refl).
  rewrite (put_apps_list_points _ _ _ _ _ _ _ H).
  rewrite (bind_ok (modify _) _ s _ tt eq_refl).
  rewrite saved_then_silent; [reflexivity|].
  apply silent_bind; [apply silent_reload|intros _].
  auto 10 with silent.
Qed.

End Deleting.

(** C3.  [if x in l: l.remove(x)] removes the first element of the list
    that is the record [x] itself or compares equal to it, and nothing
    else; when no element matches, the list is left as it is.  For a record
    of the list whose dicts have distinct keys, being the record itself or
    comparing equal to it is the same as comparing equal to it.  Deleting the
    selected entry re-embeds the list so obtained from the entry's record
    and the list of its document, and calls [save_profile_to_db] once, for
    the row of the entry, with that document. *)
Theorem delete_entry_removes_first_match `{RT : Runtime} :
  (forall pos x l,
     match list_index_from pos x 0 l with
     | Some i =>
         exists before y after,
           l = before ++ y :: after /\ List.length before = i /\
           same_or_equal pos x i y = true /\
           (forall j z, nth_error before j = Some z ->
                        same_or_equal pos x j z = false) /\
           remove_if_in pos x l = before ++ after
     | None =>
         (forall j z, nth_error l j = Some z ->
                      same_or_equal pos x j z = false) /\
         remove_if_in pos x l = l
     end) /\
  (forall pos x l,
     nth_error l pos = Some x -> distinct_keys x = true ->
     forall i y, nth_error l i = Some y ->
                 same_or_equal pos x i y = py_eq y x) /\
  (forall s idx it top sec l p,
     selected_profile_index s = Some idx ->
     nth_error (profiles s) idx = Some it ->
     points (docs s) it top sec l p ->
     saves (events (snd (delete_entry true s))) =
       saves (events s) ++
       [(db_row_id it,
         with_apps_list top sec (remove_if_in (profile it) p l))] /\
     apps_list_of (with_apps_list top sec (remove_if_in (profile it) p l))
       = Some (remove_if_in (profile it) p l)).
Proof.
  split.
  - intros pos x l. pose proof (list_index_from_spec pos x l 0) as S.
    unfold remove_if_in.
    destruct (list_index_from pos x 0 l) as [i|]; simpl in S.
    + destruct S as (before & y & after & Hl & -> & Hy & Hb & Hr).
      exists before, y, after. auto.
    + auto.
  - split; [exact same_or_equal_py_eq|].
    intros s idx it top sec l p Hsel Hit H. split.
    + now apply delete_entry_saves with (idx := idx).
    + unfold with_apps_list, apps_list_of.
      now rewrite !dict_get_set_same.
Qed.

Lemma delete_entry_removes_first_match_witness :
  exists doc',
    saves (events (snd (delete_entry (RT := Demo.rt) true
                          (Demo.s_e_selected 3)))) =
      saves (events (Demo.s_e_selected 3)) ++ [(7%Z, doc')] /\
    apps_list_of doc' =
      Some [JObj [("name", JStr ""); ("posterPath", JStr "")];
            JObj [("name", JStr "a_b")];
            JObj [("isCustom", JInt 1); ("name", JStr "dup")]].
Proof.
  destruct (proj2 (proj2 (delete_entry_removes_first_match
                            (RT := Demo.rt)))
              (Demo.s_e_selected 3) 3
              {| db_row_id := 7; entire_json := 0; profile := 3 |}
              _ _ _ _ eq_refl eq_refl
              (conj eq_refl (conj eq_refl (conj eq_refl eq_refl))))
    as [Hsave Hlist].
  eexists. split; [exact Hsave|exact Hlist].
Defined.

(* ================================================================== *)
(** * Adding *)

Section Adding.

Context {RT : Runtime}.

Lemma add_entry_no_profiles (s : state) :
  profiles s = [] ->
  add_entry s = (Ok tt, add_events [MessageBox showinfo "No DB Rows"] s).
Proof.
  intros H. unfold add_entry.
  rewrite (bind_ok get _ s s s eq_refl), H. reflexivity.
Qed.

Lemma add_entry_saves (s : state) it rest top sec l :
  profiles s = it :: rest ->
  document_of (docs s) it = Some (JObj top) ->
  dict_get_default "applications" (JObj []) top = JObj sec ->
  dict_get_default "applications" (JArr []) sec = JArr l ->
  saves (events (snd (add_entry s))) =
  saves (events s) ++
  [(db_row_id it, with_apps_list top sec (l ++ [new_profile]))].
Proof.
  intros Hp Hd Hs Hl. unfold add_entry.
  rewrite (bind_ok get _ s s s eq_refl), Hp, Hd. simpl or_raise.
  rewrite (bind_ok (ret _) _ s s _ eq_refl). simpl as_dict.
  rewrite (bind_ok (ret _) _ s s _ eq_refl), Hs. simpl as_dict.
  rewrite (bind_ok (ret _) _ s s _ eq_refl), Hl.
  rewrite (bind_ok (modify _) _ s _ tt eq_refl).
  rewrite saved_then_silent; [reflexivity|].
  apply silent_bind; [apply silent_reload|intros _].
  apply silent_select_by_name.
Qed.

End Adding.

(** C4, at a table of two rows none of which holds a profile: the
    application has read both rows, and [add_entry] shows "No DB Rows",
    saves nothing and leaves the table as it is. *)
Theorem add_entry_refuses_rows_without_profiles :
  List.length (rows_of (DATA Demo.s_c)) = 2 /\
  profiles Demo.s_c = [] /\
  add_entry (RT := Demo.rt) Demo.s_c =
    (Ok tt, add_events [MessageBox showinfo "No DB Rows"] Demo.s_c).
Proof. repeat split. Qed.

(** C5 as stated fails: on [Demo.table] the first row read is row 1,
    which holds two profiles, and [add_entry] saves row 4, the row of the
    first line of the sorted list. *)
Lemma add_entry_not_the_first_row :
  map row_id (firstn 1 (rows_of (DATA Demo.s0))) = [1%Z] /\
  map fst (saves (events (snd (add_entry (RT := Demo.rt) Demo.s0))))
    = [4%Z] /\
  map fst (saves (events (snd (add_entry (RT := Demo.rt) Demo.s0))))
    <> map row_id (firstn 1 (rows_of (DATA Demo.s0))).
Proof.
  assert (H : map fst (saves (events (snd (add_entry (RT := Demo.rt)
                                            Demo.s0)))) = [4%Z])
    by (vm_compute; reflexivity).
  split; [reflexivity|]. split; [exact H|]. rewrite H. discriminate.
Qed.

(** C5, amended.  Whenever the loaded list has a first entry, [add_entry]
    appends the new profile to the applications list of the document of
    that entry (an empty object and an empty list standing for an absent
    applications object or list), puts list and object back into the
    document, and calls [save_profile_to_db] once, for the row of that
    entry, with that document; the other fields of the document and of
    its applications object are as they were. *)
Theorem add_entry_appends_to_row_of_first_entry `{RT : Runtime}
    (s : state) it rest top sec l :
  profiles s = it :: rest ->
  document_of (docs s) it = Some (JObj top) ->
  dict_get_default "applications" (JObj []) top = JObj sec ->
  dict_get_default "applications" (JArr []) sec = JArr l ->
  exists top' sec',
    saves (events (snd (add_entry s))) =
      saves (events s) ++ [(db_row_id it, JObj top')] /\
    dict_get "applications" top' = Some (JObj sec') /\
    dict_get "applications" sec' = Some (JArr (l ++ [new_profile])) /\
    (forall k, k <> "applications" -> dict_get k sec' = dict_get k sec) /\
    (forall k, k <> "applications" -> dict_get k top' = dict_get k top).
Proof.
  intros Hp Hd Hs Hl.
  set (sec' := dict_set "applications" (JArr (l ++ [new_profile])) sec).
  exists (dict_set "applications" (JObj sec') top), sec'.
  split; [exact (add_entry_saves s it rest top sec l Hp Hd Hs Hl)|].
  repeat split.
  - apply dict_get_set_same.
  - apply dict_get_set_same.
  - intros k Hk. now apply dict_get_set_other.
  - intros k Hk. now apply dict_get_set_other.
Qed.

Lemma add_entry_appends_to_row_of_first_entry_witness :
  exists top' sec',
    saves (events (snd (add_entry (RT := Demo.rt) Demo.s0))) =
      saves (events Demo.s0) ++ [(4%Z, JObj top')] /\
    dict_get "applications" top' = Some (JObj sec') /\
    dict_get "applications" sec' =
      Some (JArr (profiles_in Demo.doc_b ++ [new_profile])).
Proof.
  destruct (add_entry_appends_to_row_of_first_entry (RT := Demo.rt)
              Demo.s0
              {| db_row_id := 4; entire_json := 1; profile := 0 |}
              _ _ _ _ eq_refl eq_refl eq_refl eq_refl)
    as (top' & sec' & Hsave & Ht & Hs & _).
  exists top', sec'.
  split; [exact Hsave|]. split; [exact Ht|exact Hs].
Defined.

(* ================================================================== *)
(** * Writing a row *)

Lemma sql_update_no_match (new_blob : bytes) (id : Z) (rows : list row) :
  matches_no_row rows id = true -> sql_update new_blob id rows = rows.
Proof.
  unfold matches_no_row, sql_update. rewrite forallb_forall. intros H.
  rewrite <- (map_id rows) at 2. apply map_ext_in. intros r Hr.
  specialize (H r Hr). now destruct (Z.eqb (row_id r) id).
Qed.

Lemma sql_update_other (new_blob : bytes) (id : Z) (rows : list row) (r : row) :
  In r rows -> row_id r <> id -> In r (sql_update new_blob id rows).
Proof.
  intros Hin Hne. unfold sql_update. apply in_map_iff. exists r.
  split; [|exact Hin]. apply Z.eqb_neq in Hne. now rewrite Hne.
Qed.

(** C6 as stated fails: a write for an identifier that no row has changes
    nothing and is logged as done, not as a failure. *)
Lemma save_to_missing_row_is_logged_as_done :
  matches_no_row Demo.table 99 = true /\
  json_dumps (Runtime := Demo.rt) Demo.doc_c <> None /\
  save_profile_to_db (RT := Demo.rt) (Some Demo.table) 99 Demo.doc_c
  = ([SaveRow 99 Demo.doc_c; Log DEBUG (Row_updated_in_DB 99)],
     Some Demo.table) /\
  logs_failure
    (fst (save_profile_to_db (RT := Demo.rt) (Some Demo.table) 99
            Demo.doc_c)) = false.
Proof.
  split; [reflexivity|]. split; [discriminate|].
  split; vm_compute; reflexivity.
Qed.

(** C6, amended.  [save_profile_to_db] logs an error in exactly two cases:
    the document cannot be serialized, or the database operation raises.
    In every other case it runs the update and logs that the row was
    updated, without looking at the number of rows written: the rows with
    another identifier are kept, and when no row has the identifier the
    table is unchanged. *)
Theorem save_fails_on_encoding_or_database_error `{RT : Runtime}
    (db : database) (id : Z) (doc : json) :
  (logs_failure (fst (save_profile_to_db db id doc)) = true <->
   json_dumps doc = None \/ db = None) /\
  match json_dumps doc, db with
  | None, _ =>
      save_profile_to_db db id doc =
      ([SaveRow id doc; Log ERROR Could_not_encode_updated_JSON], db)
  | Some _, None =>
      save_profile_to_db db id doc =
      ([SaveRow id doc; Log ERROR DB_update_failed], db)
  | Some new_blob, Some rows =>
      save_profile_to_db db id doc =
      ([SaveRow id doc; Log DEBUG (Row_updated_in_DB id)],
       Some (sql_update new_blob id rows)) /\
      (forall r, In r rows -> row_id r <> id ->
                 In r (sql_update new_blob id rows)) /\
      (matches_no_row rows id = true -> sql_update new_blob id rows = rows)
  end.
Proof.
  unfold save_profile_to_db.
  destruct (json_dumps doc) as [new_blob|], db as [rows|]; simpl.
  - split; [split; [discriminate|intros [H|H]; discriminate H]|].
    split; [reflexivity|]. split.
    + intros r. apply sql_update_other.
    + apply sql_update_no_match.
  - split; [split; auto|reflexivity].
  - split; [split; auto|reflexivity].
  - split; [split; auto|reflexivity].
Qed.

Lemma save_fails_on_encoding_or_database_error_witness :
  logs_failure
    (fst (save_profile_to_db (RT := Demo.rt) None 1 Demo.doc_c)) = true.
Proof.
  apply (proj1 (save_fails_on_encoding_or_database_error
                  (RT := Demo.rt) None 1 Demo.doc_c)).
  right. reflexivity.
Defined.

(* ================================================================== *)
(** * Icons *)

Lemma all_chars_re_sub_outside (class : ascii -> bool) (t : string) :
  PyStr.all_chars class (PyStr.re_sub_outside class t) = true.
Proof.
  induction t as [|c t IH]; simpl; [reflexivity|].
  destruct (class c) eqn:E; simpl; [now rewrite E|exact IH].
Qed.

Lemma all_chars_lstrip (p : ascii -> bool) (t : string) :
  PyStr.all_chars p t = true -> PyStr.all_chars p (PyStr.lstrip t) = true.
Proof.
  induction t as [|c t IH]; simpl; [reflexivity|].
  intros H. apply andb_prop in H. destruct H as [Hc Ht].
  destruct (PyStr.isspace c); [now apply IH|].
  simpl. now rewrite Hc, Ht.
Qed.

Lemma all_chars_rstrip (p : ascii -> bool) (t : string) :
  PyStr.all_chars p t = true -> PyStr.all_chars p (PyStr.rstrip t) = true.
Proof.
  induction t as [|c t IH]; simpl; [reflexivity|].
  intros H. apply andb_prop in H. destruct H as [Hc Ht].
  specialize (IH Ht). destruct (PyStr.rstrip t) as [|c' r].
  - destruct (PyStr.isspace c); simpl; [reflexivity|now rewrite Hc].
  - simpl in *. now rewrite Hc, IH.
Qed.

Lemma all_chars_replace (p q : ascii -> bool) (old new : ascii) (t : string) :
  (forall c, p c = true -> q (if Ascii.eqb c old then new else c) = true) ->
  PyStr.all_chars p t = true ->
  PyStr.all_chars q (PyStr.replace old new t) = true.
Proof.
  intros Hpq. induction t as [|c t IH]; simpl; [reflexivity|].
  intros H. apply andb_prop in H. destruct H as [Hc Ht].
  now rewrite (Hpq c Hc), IH.
Qed.

Lemma or_else_not_empty (a b : string) : b <> "" -> PyStr.or_else a b <> "".
Proof. intros Hb. unfold PyStr.or_else. now destruct a. Qed.

Lemma all_chars_or_else (p : ascii -> bool) (a b : string) :
  PyStr.all_chars p a = true -> PyStr.all_chars p b = true ->
  PyStr.all_chars p (PyStr.or_else a b) = true.
Proof. intros Ha Hb. unfold PyStr.or_else. now destruct (PyStr.truthy a). Qed.

Lemma safe_name_of_not_empty (name : string) : safe_name_of name <> "".
Proof. apply or_else_not_empty. discriminate. Qed.

Lemma safe_name_of_chars (name : string) :
  PyStr.all_chars file_name_char (safe_name_of name) = true.
Proof.
  unfold safe_name_of. apply all_chars_or_else; [|reflexivity].
  eapply all_chars_replace;
    [|apply all_chars_rstrip, all_chars_lstrip, all_chars_re_sub_outside].
  intros c Hc. unfold file_name_char.
  destruct (Ascii.eqb c " ") eqn:E; [reflexivity|].
  rewrite E. cbv beta in Hc.
  destruct (PyStr.is_word c), (PyStr.isspace c), (Ascii.eqb c "-");
    simpl in *; congruence.
Qed.

Lemma safe_name_of_blank (name : string) :
  PyStr.strip name = "" -> safe_name_of name = "app_unknown".
Proof. intros H. unfold safe_name_of. now rewrite H. Qed.

Section Icons.

Context {RT : Runtime}.

Lemma browse_icon_ok (s : state) idx it top sec l fields poster name path :
  selected_profile_index s = Some idx ->
  nth_error (profiles s) idx = Some it ->
  points (docs s) it top sec l (JObj fields) ->
  PyStr.truthy path = true ->
  dict_get_default "posterPath" (JStr "") fields = JStr poster ->
  dict_get_default "name" (JStr "") fields = JStr name ->
  forall final_path,
    final_path =
      (if PyStr.truthy (PyStr.strip poster)
       then (fst (os_path_splitext (PyStr.strip poster)) ++ ".bmp")%string
       else os_path_join (icon_cache_folder s)
                         (safe_name_of name ++ ".bmp")%string) ->
    browse_icon path true true s =
    (Ok tt,
     set_icon_path_var final_path
       (set_docs
          (list_set (entire_json it)
             (with_apps_list top sec
                (list_set (profile it)
                   (JObj (dict_set "posterPath" (JStr final_path) fields)) l))
             (docs s))
          (add_events [ImgSave final_path] s))).
Proof.
  intros Hsel Hit H Hpath Hposter Hname final_path ->. unfold browse_icon.
  rewrite (bind_ok get _ s s s eq_refl), Hsel, Hpath.
  change (negb true) with false. cbv iota.
  rewrite (bind_ok _ _ _ _ _ (item_at_ok s idx it top sec l _ Hit H)).
  simpl as_dict. rewrite (bind_ok (ret _) _ s s _ eq_refl), Hposter.
  simpl as_str. rewrite (bind_ok (ret _) _ s s _ eq_refl), Hname.
  simpl as_str. rewrite (bind_ok (ret _) _ s s _ eq_refl).
  set (final_path := if PyStr.truthy (PyStr.strip poster) then _ else _).
  rewrite (bind_ok (emit _) _ s _ tt eq_refl).
  simpl setitem. rewrite (bind_ok (ret _) _ _ _ _ eq_refl).
  rewrite (bind_ok _ _ _ _ _
             (store_profile_ok (add_events [ImgSave final_path] s)
                it top sec l _ _ H)).
  reflexivity.
Qed.

Lemma clear_icon_ok (s : state) idx it top sec l fields :
  selected_profile_index s = Some idx ->
  nth_error (profiles s) idx = Some it ->
  points (docs s) it top sec l (JObj fields) ->
  clear_icon s =
  (Ok tt,
   add_events [Log INFO Icon_cleared]
     (set_icon_path_var ""
        (set_docs
           (list_set (entire_json it)
              (with_apps_list top sec
                 (list_set (profile it)
                    (JObj (dict_set "posterPath" (JStr "") fields)) l))
              (docs s))
           s))).
Proof.
  intros Hsel Hit H. unfold clear_icon.
  rewrite (bind_ok get _ s s s eq_refl), Hsel.
  rewrite (bind_ok _ _ _ _ _ (item_at_ok s idx it top sec l _ Hit H)).
  simpl setitem. rewrite (bind_ok (ret _) _ _ _ _ eq_refl).
  rewrite (bind_ok _ _ _ _ _ (store_profile_ok s it top sec l _ _ H)).
  reflexivity.
Qed.

End Icons.

Example safe_name_of_My_App : safe_name_of "My App!!" = "My_App".
Proof. reflexivity. Qed.

Example safe_name_of_keeps_underscore :
  safe_name_of "a_b" = "a_b" /\ claimed_base_name "a_b" = "ab".
Proof. split; reflexivity. Qed.

(** C7 as stated fails: for a profile whose name is empty and which has no
    icon, the bitmap goes to [app_unknown.bmp] in the cache folder, not to
    [icon.bmp]. *)
Lemma browse_icon_unnamed_profile_is_app_unknown :
  field "name" (JObj [("name", JStr ""); ("posterPath", JStr "")])
    = Some (JStr "") /\
  profile_of (docs (Demo.s_e_selected 0))
             {| db_row_id := 7; entire_json := 0; profile := 0 |}
    = Some (JObj [("name", JStr ""); ("posterPath", JStr "")]) /\
  events (snd (browse_icon (RT := Demo.rt) "/tmp/picture.png" true true
                 (Demo.s_e_selected 0)))
    = events (Demo.s_e_selected 0) ++ [ImgSave "/cache/app_unknown.bmp"] /\
  os_path_join (Runtime := Demo.rt) "/cache"
               (claimed_base_name "" ++ ".bmp")%string = "/cache/icon.bmp" /\
  "/cache/app_unknown.bmp" <> "/cache/icon.bmp".
Proof.
  split; [reflexivity|]. split; [reflexivity|].
  split; [vm_compute; reflexivity|]. split; [reflexivity|discriminate].
Qed.

(** C7, amended.  For the selected profile, when its posterPath is absent,
    empty or blank, a file was chosen and the image was read and written,
    [browse_icon] writes the bitmap to the cache folder joined with
    [safe_name + ".bmp"] and shows that path, where [safe_name] comes from
    the profile name stripped of surrounding whitespace, or from
    "app_unknown" when nothing is left of it or the name is absent: the
    characters other than letters, digits, underscore, whitespace and
    hyphen are removed, the result is stripped again, every space becomes
    an underscore, and "icon" is taken when that leaves nothing.  The name
    is never empty and is made of letters, digits, underscores, hyphens
    and whitespace other than the space. *)
Theorem browse_icon_writes_named_bitmap `{RT : Runtime}
    (s : state) idx it top sec l fields poster name path :
  selected_profile_index s = Some idx ->
  nth_error (profiles s) idx = Some it ->
  points (docs s) it top sec l (JObj fields) ->
  PyStr.truthy path = true ->
  dict_get_default "posterPath" (JStr "") fields = JStr poster ->
  PyStr.strip poster = "" ->
  dict_get_default "name" (JStr "") fields = JStr name ->
  events (snd (browse_icon path true true s)) =
    events s ++
    [ImgSave (os_path_join (icon_cache_folder s)
                           (safe_name_of name ++ ".bmp")%string)] /\
  icon_path_var (snd (browse_icon path true true s)) =
    os_path_join (icon_cache_folder s) (safe_name_of name ++ ".bmp")%string /\
  safe_name_of name =
    PyStr.or_else
      (PyStr.replace " " "_"
         (PyStr.strip
            (PyStr.re_sub_outside
               (fun c => (PyStr.is_word c || PyStr.isspace c
                          || Ascii.eqb c "-")%bool)
               (PyStr.or_else (PyStr.strip name) "app_unknown"))))
      "icon" /\
  safe_name_of name <> "" /\
  PyStr.all_chars file_name_char (safe_name_of name) = true /\
  (PyStr.strip name = "" -> safe_name_of name = "app_unknown").
Proof.
  intros Hsel Hit H Hpath Hposter Hblank Hname.
  rewrite (browse_icon_ok s idx it top sec l fields poster name path
             Hsel Hit H Hpath Hposter Hname _ eq_refl).
  rewrite Hblank. simpl.
  repeat split.
  - apply safe_name_of_not_empty.
  - apply safe_name_of_chars.
  - apply safe_name_of_blank.
Qed.

Lemma browse_icon_writes_named_bitmap_witness :
  events (snd (browse_icon (RT := Demo.rt) "/tmp/picture.png" true true
                 (Demo.s_e_selected 1)))
    = events (Demo.s_e_selected 1) ++ [ImgSave "/cache/a_b.bmp"].
Proof.
  exact (proj1 (browse_icon_writes_named_bitmap (RT := Demo.rt)
                  (Demo.s_e_selected 1) 1
                  {| db_row_id := 7; entire_json := 0; profile := 2 |}
                  _ _ _ _ "" "a_b" "/tmp/picture.png"
                  eq_refl eq_refl
                  (conj eq_refl (conj eq_refl (conj eq_refl eq_refl)))
                  eq_refl eq_refl eq_refl eq_refl)).
Defined.

(* ------------------------------------------------------------------ *)
(** ** Icon changes and the database *)

Section IconsAndSaving.

Context {RT : Runtime}.

(** What [save_changes] saves carries the shown icon path as posterPath
    of the selected profile. *)
Lemma save_changes_saves_icon_path (s : state) idx it top sec l fields :
  selected_profile_index s = Some idx ->
  nth_error (profiles s) idx = Some it ->
  points (docs s) it top sec l (JObj fields) ->
  exists doc',
    saves (events (snd (save_changes s))) =
      saves (events s) ++ [(db_row_id it, doc')] /\
    option_map (field "posterPath")
               (nth_error (profiles_in doc') (profile it))
    = Some (Some (JStr (icon_path_var s))).
Proof.
  intros Hsel Hit H. eexists. split.
  - exact (save_changes_saves s idx it top sec l fields Hsel Hit H).
  - unfold profiles_in, with_apps_list, apps_list_of.
    rewrite !dict_get_set_same.
    destruct H as (_ & _ & _ & Hp).
    rewrite nth_error_list_set_same
      by (apply nth_error_Some; congruence).
    simpl. unfold edited. now rewrite dict_get_set_same.
Qed.

End IconsAndSaving.

(** C8 as stated fails: clearing the icon of the selected profile calls
    [save_profile_to_db] for no row and leaves the table as it is; the
    profile in memory has an empty posterPath while the document in the
    table still has the old one. *)
Lemma clear_icon_saves_nothing :
  saves (events (snd (clear_icon Demo.s1)))
    = saves (events Demo.s1) /\
  saves (events Demo.s1) = [] /\
  DATA (snd (clear_icon Demo.s1)) = DATA Demo.s1 /\
  option_map (field "posterPath")
    (profile_of (docs (snd (clear_icon Demo.s1)))
                {| db_row_id := 1; entire_json := 0; profile := 1 |})
    = Some (Some (JStr "")) /\
  map (field "posterPath")
    (profiles_in_rows (RT := Demo.rt)
       (rows_of (DATA (snd (clear_icon Demo.s1)))))
    = [Some (JStr ""); Some (JStr "/x/old.png"); None; None].
Proof. repeat split; vm_compute; reflexivity. Qed.

(** C8, amended.  [browse_icon] and [clear_icon] never call
    [save_profile_to_db] and never write the table, whatever the state and
    the outcome of the dialog and of the image functions.  For the selected
    profile they change the binding in memory only: the posterPath of the
    profile and the shown icon path become the empty string, respectively
    the path of the bitmap just written.  The row is written when
    [save_changes] runs afterwards, and the document saved then carries
    that binding. *)
Theorem icon_changes_reach_the_table_on_save_changes `{RT : Runtime} :
  (forall s path opened saved,
     quiet s (snd (browse_icon path opened saved s))) /\
  (forall s, quiet s (snd (clear_icon s))) /\
  (forall s idx it top sec l fields,
     selected_profile_index s = Some idx ->
     nth_error (profiles s) idx = Some it ->
     points (docs s) it top sec l (JObj fields) ->
     (option_map (field "posterPath")
                 (profile_of (docs (snd (clear_icon s))) it)
        = Some (Some (JStr "")) /\
      icon_path_var (snd (clear_icon s)) = "" /\
      exists doc',
        saves (events (snd (save_changes (snd (clear_icon s))))) =
          saves (events s) ++ [(db_row_id it, doc')] /\
        option_map (field "posterPath")
                   (nth_error (profiles_in doc') (profile it))
        = Some (Some (JStr ""))) /\
     (forall path poster name final_path,
        PyStr.truthy path = true ->
        dict_get_default "posterPath" (JStr "") fields = JStr poster ->
        dict_get_default "name" (JStr "") fields = JStr name ->
        final_path =
          (if PyStr.truthy (PyStr.strip poster)
           then (fst (os_path_splitext (PyStr.strip poster)) ++ ".bmp")%string
           else os_path_join (icon_cache_folder s)
                             (safe_name_of name ++ ".bmp")%string) ->
        option_map (field "posterPath")
                   (profile_of (docs (snd (browse_icon path true true s))) it)
          = Some (Some (JStr final_path)) /\
        icon_path_var (snd (browse_icon path true true s)) = final_path /\
        exists doc',
          saves (events (snd (save_changes
                                (snd (browse_icon path true true s))))) =
            saves (events s) ++ [(db_row_id it, doc')] /\
          option_map (field "posterPath")
                     (nth_error (profiles_in doc') (profile it))
          = Some (Some (JStr final_path)))).
Proof.
  split; [intros; apply silent_browse_icon|].
  split; [intros; apply silent_clear_icon|].
  intros s idx it top sec l fields Hsel Hit H. split.
  - rewrite (clear_icon_ok s idx it top sec l fields Hsel Hit H).
    pose proof (points_stored _ _ _ _ _ _
                  (JObj (dict_set "posterPath" (JStr "") fields)) H) as H'.
    cbn [snd]. split; [|split; [reflexivity|]].
    + simpl docs. rewrite (points_profile_of _ _ _ _ _ _ H').
      simpl. now rewrite dict_get_set_same.
    + match goal with |- context [save_changes ?s1] =>
        destruct (save_changes_saves_icon_path s1 idx it _ _ _ _ Hsel Hit H')
          as (doc' & Hsave & Hfield)
      end.
      exists doc'. split; [|exact Hfield].
      rewrite Hsave. simpl. now rewrite saves_app, app_nil_r.
  - intros path poster name final_path Hpath Hposter Hname Hfinal.
    rewrite (browse_icon_ok s idx it top sec l fields poster name path
               Hsel Hit H Hpath Hposter Hname final_path Hfinal).
    pose proof (points_stored _ _ _ _ _ _
                  (JObj (dict_set "posterPath" (JStr final_path) fields)) H)
      as H'.
    cbn [snd]. split; [|split; [reflexivity|]].
    + simpl docs. rewrite (points_profile_of _ _ _ _ _ _ H').
      simpl. now rewrite dict_get_set_same.
    + match goal with |- context [save_changes ?s1] =>
        destruct (save_changes_saves_icon_path s1 idx it _ _ _ _ Hsel Hit H')
          as (doc' & Hsave & Hfield)
      end.
      exists doc'. split; [|exact Hfield].
      rewrite Hsave. simpl. now rewrite saves_app, app_nil_r.
Qed.

Lemma icon_changes_reach_the_table_on_save_changes_witness :
  option_map (field "posterPath")
    (profile_of (docs (snd (clear_icon Demo.s1)))
                {| db_row_id := 1; entire_json := 0; profile := 1 |})
    = Some (Some (JStr "")) /\
  icon_path_var (snd (clear_icon Demo.s1)) = "" /\
  exists doc',
    saves (events (snd (save_changes (RT := Demo.rt)
                          (snd (clear_icon Demo.s1))))) =
      saves (events Demo.s1) ++ [(1%Z, doc')] /\
    option_map (field "posterPath") (nth_error (profiles_in doc') 1)
    = Some (Some (JStr "")).
Proof.
  exact (proj1 (proj2 (proj2 (icon_changes_reach_the_table_on_save_changes
                                (RT := Demo.rt)))
                  Demo.s1 1
                  {| db_row_id := 1; entire_json := 0; profile := 1 |}
                  _ _ _ _ eq_refl eq_refl
                  (conj eq_refl (conj eq_refl (conj eq_refl eq_refl))))).
Defined.

(* ================================================================== *)
(** * More about loading *)

Section MoreLoading.

Context {RT : Runtime}.

Lemma row_documents_cons (r : row) (rows : list row) :
  row_documents (r :: rows) =
  match row_document r with Some doc => [doc] | None => [] end
  ++ row_documents rows.
Proof. reflexivity. Qed.

Lemma profiles_in_rows_cons (r : row) (rows : list row) :
  profiles_in_rows (r :: rows) =
  match row_document r with Some doc => profiles_in doc | None => [] end
  ++ profiles_in_rows rows.
Proof. reflexivity. Qed.

(** One step of the loop, by what the row holds. *)
Lemma load_rows_cons (r : row) (rows : list row) docs acc :
  load_rows (r :: rows) docs acc =
  match row_document r with
  | Some doc =>
      match row_entries (row_id r) (List.length docs) doc with
      | Ok new => load_rows rows (docs ++ [doc]) (acc ++ new)
      | Raise e => ([], Raise e)
      end
  | None =>
      if undecodable r
      then (parse_warning r :: fst (load_rows rows docs acc),
            snd (load_rows rows docs acc))
      else load_rows rows docs acc
  end.
Proof.
  simpl. unfold row_document, undecodable, skipped, row_document.
  destruct (row_FILE r) as [[|b bs]|]; simpl; try reflexivity.
  destruct (json_loads (b :: bs)); simpl; [reflexivity|].
  now destruct (load_rows rows docs acc).
Qed.

Lemma load_rows_raises (rows : list row) :
  forallb is_document (row_documents rows) = false ->
  forall docs acc, snd (load_rows rows docs acc) = Raise AttributeError.
Proof.
  induction rows as [|r rows IH]; intros H docs acc; [discriminate H|].
  rewrite load_rows_cons. rewrite row_documents_cons in H.
  destruct (row_document r) as [doc|]; simpl in H.
  - destruct (is_document doc) eqn:E.
    + rewrite (row_entries_document _ _ _ E). now apply IH.
    + now rewrite (row_entries_raise _ _ _ E).
  - destruct (undecodable r); simpl; now apply IH.
Qed.

Lemma load_rows_origin (rows : list row) :
  forallb is_document (row_documents rows) = true ->
  forall docs acc, exists evs new,
    load_rows rows docs acc
      = (evs, Ok (docs ++ row_documents rows, acc ++ new)) /\
    map snd new = profiles_in_rows rows /\
    Forall (fun x => entry_from_row rows (docs ++ row_documents rows)
                                    (fst x) (snd x)) new.
Proof.
  induction rows as [|r rows IH]; intros H docs acc.
  - exists [], []. simpl. rewrite !app_nil_r. auto.
  - rewrite load_rows_cons, row_documents_cons, profiles_in_rows_cons.
    rewrite row_documents_cons in H.
    destruct (row_document r) as [doc|] eqn:Er; simpl in H.
    + apply andb_prop in H. destruct H as [Hdoc H].
      rewrite (row_entries_document _ _ _ Hdoc).
      destruct (IH H (docs ++ [doc])
                   (acc ++ entries_of (row_id r) (List.length docs) 0
                                      (profiles_in doc)))
        as (evs & new & E & Hmap & Hall).
      exists evs,
        (entries_of (row_id r) (List.length docs) 0 (profiles_in doc) ++ new).
      rewrite E. simpl. rewrite <- !app_assoc. simpl.
      split; [reflexivity|]. split.
      * now rewrite map_app, map_snd_entries_of, Hmap.
      * apply Forall_app. split.
        -- pose proof (entries_of_point (row_id r) (List.length docs) []
                         (profiles_in doc)) as Hp. simpl in Hp.
           eapply Forall_impl; [|exact Hp].
           intros [it p] (Hid & Hd & Hn). simpl in *.
           exists r, doc. repeat split; auto; [now left|].
           unfold document_of. rewrite Hd.
           now rewrite nth_error_app2, Nat.sub_diag by lia.
        -- eapply Forall_impl; [|exact Hall].
           intros [it p] (r' & doc' & Hin & Hid & Hrow & Hd & Hn).
           simpl in *. rewrite <- app_assoc in Hd. simpl in Hd.
           exists r', doc'. repeat split; auto. now right.
    + destruct (IH H docs acc) as (evs & new & E & Hmap & Hall).
      assert (Hall' : Forall (fun x => entry_from_row (r :: rows)
                                 (docs ++ row_documents rows)
                                 (fst x) (snd x)) new).
      { eapply Forall_impl; [|exact Hall].
        intros [it p] (r' & doc' & Hin & Hrest). exists r', doc'.
        split; [now right|exact Hrest]. }
      destruct (undecodable r); rewrite E; simpl; eauto.
Qed.

Lemma entry_from_row_profile_of (rows : list row) ds it p :
  entry_from_row rows ds it p -> profile_of ds it = Some p.
Proof.
  intros (r & doc & _ & _ & _ & Hd & Hn). unfold profile_of. rewrite Hd.
  unfold profiles_in in Hn.
  destruct (apps_list_of doc); [exact Hn|now destruct (profile it)].
Qed.

(** What a load that returns is made of. *)
Lemma load_ok_inv (rows : list row) (ld : loaded) :
  snd (load_profiles_from_db (Some rows)) = Ok ld ->
  exists new,
    documents ld = row_documents rows /\
    map snd new = profiles_in_rows rows /\
    Forall (fun x => entry_from_row rows (row_documents rows)
                                    (fst x) (snd x)) new /\
    Forall (fun x => well_formed_profile (snd x) = true) new /\
    entries ld =
      map fst (map snd (sort_by_key
                          (map (fun x => (name_key (snd x), x)) new))).
Proof.
  unfold load_profiles_from_db. intros Hld.
  destruct (forallb is_document (row_documents rows)) eqn:Hdocs.
  - destruct (load_rows_origin rows Hdocs [] [])
      as (evs & new & E & Hmap & Hall).
    simpl in E. rewrite E in Hld. unfold list_sort in Hld.
    assert (Hwf : Forall (fun x => well_formed_profile (snd x) = true) new).
    { apply Forall_forall. intros x Hx.
      destruct (well_formed_profile (snd x)) eqn:Ex; [reflexivity|].
      rewrite (keyed_ill_formed snd) in Hld; [discriminate Hld|].
      apply Exists_exists. eauto. }
    rewrite (keyed_well_formed snd _ Hwf) in Hld. simpl in Hld.
    injection Hld as <-. exists new. simpl. auto.
  - pose proof (load_rows_raises rows Hdocs [] []) as H.
    destruct (load_rows rows [] []) as [evs res]. simpl in H. subst res.
    discriminate Hld.
Qed.

End MoreLoading.

(** X1.  Loading a table returns exactly when every row that holds a
    document holds a JSON object and every element of the applications
    lists is an object whose name, if present, is a string; it then keeps
    the documents of the rows in the order of the rows.  In every other case
    it raises [AttributeError]. *)
Theorem load_returns_exactly_when_well_formed `{RT : Runtime}
    (rows : list row) :
  match snd (load_profiles_from_db (Some rows)) with
  | Ok ld =>
      forallb is_document (row_documents rows) = true /\
      forallb well_formed_profile (profiles_in_rows rows) = true /\
      documents ld = row_documents rows
  | Raise e =>
      e = AttributeError /\
      (forallb is_document (row_documents rows)
       && forallb well_formed_profile (profiles_in_rows rows))%bool = false
  end.
Proof.
  unfold load_profiles_from_db.
  destruct (forallb is_document (row_documents rows)) eqn:Hdocs.
  - destruct (load_rows_origin rows Hdocs [] [])
      as (evs & new & E & Hmap & _).
    simpl in E. rewrite E. unfold list_sort.
    destruct (forallb well_formed_profile (profiles_in_rows rows)) eqn:Hwf.
    + rewrite (keyed_well_formed snd); [simpl; auto|].
      rewrite forallb_forall in Hwf. apply Forall_forall.
      intros x Hx. apply Hwf. rewrite <- Hmap. now apply in_map.
    + rewrite (keyed_ill_formed snd); [simpl; auto|].
      rewrite <- Hmap in Hwf. clear -Hwf.
      induction new as [|x new IH]; [discriminate Hwf|]. simpl in Hwf.
      destruct (well_formed_profile (snd x)) eqn:Ex.
      * right. now apply IH.
      * now left.
  - pose proof (load_rows_raises rows Hdocs [] []) as H.
    destruct (load_rows rows [] []) as [evs res]. simpl in H. subst res.
    simpl. auto.
Qed.

(** X2.  Every entry that loading returns comes from a row of the table:
    it carries the identifier of that row, shares the document parsed from
    it, and refers to an element of that document's list that is an object
    whose name, if present, is a string. *)
Theorem loaded_entries_come_from_rows `{RT : Runtime}
    (rows : list row) (ld : loaded) :
  snd (load_profiles_from_db (Some rows)) = Ok ld ->
  Forall (fun it => exists prof,
            entry_from_row rows (documents ld) it prof /\
            profile_of (documents ld) it = Some prof /\
            well_formed_profile prof = true)
         (entries ld).
Proof.
  intros Hld.
  destruct (load_ok_inv rows ld Hld) as (new & -> & _ & Hfrom & Hwf & ->).
  set (kl := map (fun x => (name_key (snd x), x)) new).
  rewrite map_map. apply Forall_map.
  apply (Permutation_Forall (sort_by_key_perm _ kl)).
  unfold kl. apply Forall_map. simpl.
  rewrite Forall_forall in *. intros [it p] Hin.
  exists p. simpl. split; [exact (Hfrom _ Hin)|]. split.
  - exact (entry_from_row_profile_of _ _ _ _ (Hfrom _ Hin)).
  - exact (Hwf _ Hin).
Qed.

Lemma loaded_entries_come_from_rows_witness :
  Forall (fun it => exists prof,
            entry_from_row (RT := Demo.rt) Demo.table (docs Demo.s0) it prof /\
            profile_of (docs Demo.s0) it = Some prof /\
            well_formed_profile prof = true)
         (profiles Demo.s0).
Proof.
  exact (loaded_entries_come_from_rows (RT := Demo.rt) Demo.table
           {| documents := docs Demo.s0; entries := profiles Demo.s0 |}
           eq_refl).
Defined.

(* ================================================================== *)
(** * Steps that leave the loaded documents alone *)

Lemma same_store_refl (s : state) : same_store s s.
Proof. repeat split. Qed.

Lemma same_store_trans (s1 s2 s3 : state) :
  same_store s1 s2 -> same_store s2 s3 -> same_store s1 s3.
Proof.
  unfold same_store. intros (? & ? & ? & ?) (? & ? & ? & ?).
  repeat split; congruence.
Qed.

Lemma stores_nothing_ret {A : Type} (a : A) : stores_nothing (ret a).
Proof. intros s. apply same_store_refl. Qed.

Lemma stores_nothing_raise {A : Type} (e : exn) : stores_nothing (@raise A e).
Proof. intros s. apply same_store_refl. Qed.

Lemma stores_nothing_get : stores_nothing get.
Proof. intros s. apply same_store_refl. Qed.

Lemma stores_nothing_bind {A B : Type} (m : M A) (k : A -> M B) :
  stores_nothing m -> (forall a, stores_nothing (k a)) ->
  stores_nothing (bind m k).
Proof.
  intros Hm Hk s. unfold bind. specialize (Hm s).
  destruct (m s) as [[a|e] s']; simpl in *; [|exact Hm].
  eapply same_store_trans; [exact Hm|apply Hk].
Qed.

Lemma stores_nothing_emit (evs : list event) : stores_nothing (emit evs).
Proof. intros s. repeat split. Qed.

Lemma stores_nothing_or_raise {A : Type} (e : exn) (o : option A) :
  stores_nothing (or_raise e o).
Proof. destruct o; [apply stores_nothing_ret|apply stores_nothing_raise]. Qed.

Lemma stores_nothing_as_dict (x : json) : stores_nothing (as_dict x).
Proof.
  destruct x; first [apply stores_nothing_ret|apply stores_nothing_raise].
Qed.

Create HintDb stores.

#[export] Hint Resolve stores_nothing_ret stores_nothing_raise
  stores_nothing_get stores_nothing_or_raise stores_nothing_as_dict
  stores_nothing_emit : stores.

#[export] Hint Extern 1 (stores_nothing (bind _ _)) =>
  apply stores_nothing_bind; [|intro] : stores.

#[export] Hint Extern 1 (stores_nothing (modify _)) =>
  intro; repeat split : stores.

Lemma stores_nothing_item_at (idx : nat) : stores_nothing (item_at idx).
Proof. unfold item_at. auto 10 with stores. Qed.

#[export] Hint Resolve stores_nothing_item_at : stores.

Section StoresNothing.

Context {RT : Runtime}.

Lemma stores_nothing_on_profile_select (sel : option nat) :
  stores_nothing (on_profile_select sel).
Proof. destruct sel; simpl; auto 20 with stores. Qed.

Lemma stores_nothing_index_of_name (ds : list json) (name : string)
    (l : list item) :
  forall i, stores_nothing (index_of_name ds name i l).
Proof.
  induction l as [|it l IH]; intros i; simpl; auto with stores.
  apply stores_nothing_bind; [auto with stores|intros prof].
  apply stores_nothing_bind; [auto with stores|intros fields].
  destruct (py_eq _ _); auto with stores.
Qed.

Lemma stores_nothing_select_by_name (name : string) :
  stores_nothing (select_by_name name).
Proof.
  unfold select_by_name.
  apply stores_nothing_bind; [auto with stores|intros s].
  apply stores_nothing_bind; [apply stores_nothing_index_of_name|intros [i|]].
  - apply stores_nothing_on_profile_select.
  - auto with stores.
Qed.

Lemma in_sync_same_store (s s' : state) :
  same_store s s' -> in_sync s -> in_sync s'.
Proof. unfold in_sync. intros (-> & -> & -> & _). auto. Qed.

End StoresNothing.

Lemma state_ok_same_store (s s' : state) :
  same_store s s' -> state_ok s = true -> state_ok s' = true.
Proof. unfold state_ok. intros (_ & -> & -> & _). auto. Qed.

(* ================================================================== *)
(** * States whose entries are in order *)

Lemma entry_ok_points (ds : list json) (it : item) :
  entry_ok ds it = true ->
  exists top sec l fields,
    points ds it top sec l (JObj fields) /\
    well_formed_profile (JObj fields) = true.
Proof.
  unfold entry_ok, profile_of, points.
  destruct (document_of ds it) as [doc|] eqn:Ed; [|discriminate].
  unfold apps_list_of.
  destruct doc as [| | | | | |top]; try discriminate.
  destruct (dict_get "applications" top) as [[| | | | | |sec]|] eqn:Et;
    try discriminate.
  destruct (dict_get "applications" sec) as [[| | | | |l|]|] eqn:Es;
    try discriminate.
  destruct (nth_error l (profile it)) as [[| | | | | |fields]|] eqn:Ep;
    try discriminate.
  intros H. exists top, sec, l, fields. repeat split; auto.
Qed.

Lemma points_entry_ok (ds : list json) it top sec l p :
  points ds it top sec l p -> well_formed_profile p = true ->
  entry_ok ds it = true.
Proof.
  intros H Hwf. unfold entry_ok.
  now rewrite (points_profile_of _ _ _ _ _ _ H).
Qed.

Lemma state_ok_nth (s : state) (idx : nat) (it : item) :
  state_ok s = true -> nth_error (profiles s) idx = Some it ->
  entry_ok (docs s) it = true.
Proof.
  unfold state_ok. rewrite forallb_forall. intros H Hit.
  apply H. eapply nth_error_In. exact Hit.
Qed.

(** The profile an entry refers to after the profile of [it] was replaced
    by [p'] in place. *)
Lemma profile_of_stored ds it top sec l p (p' : json) (it' : item) :
  points ds it top sec l p ->
  profile_of (list_set (entire_json it)
                (with_apps_list top sec (list_set (profile it) p' l)) ds)
             it' =
  if (Nat.eqb (entire_json it') (entire_json it)
      && Nat.eqb (profile it') (profile it))%bool
  then Some p' else profile_of ds it'.
Proof.
  intros (Hd & Ht & Hs & Hp). unfold profile_of, document_of in *.
  assert (Hlen : entire_json it < List.length ds)
    by (apply nth_error_Some; congruence).
  assert (Hpos : profile it < List.length l)
    by (apply nth_error_Some; congruence).
  destruct (Nat.eqb (entire_json it') (entire_json it)) eqn:Ed; simpl.
  - apply Nat.eqb_eq in Ed. rewrite Ed.
    rewrite nth_error_list_set_same by exact Hlen.
    unfold with_apps_list, apps_list_of. rewrite !dict_get_set_same.
    rewrite Hd. simpl. rewrite Ht, Hs.
    destruct (Nat.eqb (profile it') (profile it)) eqn:Ep.
    + apply Nat.eqb_eq in Ep. rewrite Ep.
      now apply nth_error_list_set_same.
    + apply Nat.eqb_neq in Ep. apply nth_error_list_set_other. congruence.
  - apply Nat.eqb_neq in Ed.
    rewrite nth_error_list_set_other by congruence. reflexivity.
Qed.

Lemma forallb_entry_ok_stored ds it top sec l p (p' : json)
    (entries : list item) :
  points ds it top sec l p -> well_formed_profile p' = true ->
  forallb (entry_ok ds) entries = true ->
  forallb (entry_ok (list_set (entire_json it)
                       (with_apps_list top sec (list_set (profile it) p' l))
                       ds)) entries = true.
Proof.
  intros H Hwf. rewrite !forallb_forall. intros Hall it' Hin.
  unfold entry_ok. rewrite (profile_of_stored _ _ _ _ _ _ p' it' H).
  destruct (_ && _)%bool; [exact Hwf|exact (Hall it' Hin)].
Qed.

Lemma well_formed_set_other (k : string) (v : json) (fields : dict) :
  k <> "name" ->
  well_formed_profile (JObj (dict_set k v fields))
  = well_formed_profile (JObj fields).
Proof.
  intros Hk. simpl. rewrite dict_get_set_other by congruence. reflexivity.
Qed.

Lemma well_formed_edited (name app_path icon_path : string) (fields : dict) :
  well_formed_profile (JObj (edited name app_path icon_path fields)) = true.
Proof.
  unfold edited. rewrite !well_formed_set_other by discriminate.
  simpl. now rewrite dict_get_set_same.
Qed.

Lemma well_formed_name (fields : dict) :
  well_formed_profile (JObj fields) = true ->
  exists name, dict_get_default "name" (JStr "") fields = JStr name.
Proof.
  simpl. unfold dict_get_default.
  destruct (dict_get "name" fields) as [[]|]; try discriminate; eauto.
Qed.

Section OkStates.

Context {RT : Runtime}.

Lemma load_state_ok (db : database) (ld : loaded) :
  snd (load_profiles_from_db db) = Ok ld ->
  forallb (entry_ok (documents ld)) (entries ld) = true.
Proof.
  destruct db as [rows|].
  - intros Hld.
    destruct (load_ok_inv rows ld Hld) as (new & -> & _ & Hfrom & Hwf & ->).
    apply forallb_forall. intros it Hin.
    rewrite map_map in Hin. apply in_map_iff in Hin.
    destruct Hin as ([k [it' p]] & <- & Hin). simpl.
    apply (Permutation_in _ (Permutation_sym (sort_by_key_perm _ _))) in Hin.
    apply in_map_iff in Hin. destruct Hin as (x & E & Hin).
    injection E as _ ->. rewrite Forall_forall in Hfrom, Hwf.
    unfold entry_ok.
    pose proof (entry_from_row_profile_of _ _ _ _ (Hfrom _ Hin)) as Hp.
    simpl in Hp. rewrite Hp. exact (Hwf _ Hin).
  - simpl. intros E. injection E as <-. reflexivity.
Qed.

Lemma load_raises_attribute_error (db : database) (e : exn) :
  snd (load_profiles_from_db db) = Raise e -> e = AttributeError.
Proof.
  destruct db as [rows|]; [|discriminate].
  unfold load_profiles_from_db.
  pose proof (load_rows_log rows [] []) as H.
  destruct (load_rows rows [] []) as [evs [[ds all]|e']]; simpl in *.
  - unfold list_sort.
    destruct (keyed (fun p => sort_key (snd p)) all) as [kl|e'] eqn:Ek;
      simpl; [discriminate|].
    intros E. injection E as <-.
    clear -Ek. revert Ek. induction all as [|x all IH]; simpl; [discriminate|].
    destruct (sort_key (snd x)) as [k|e0] eqn:Ex.
    + destruct (keyed _ all); [discriminate|]. intros E. injection E as ->.
      now apply IH.
    + intros E. injection E as ->.
      destruct (well_formed_profile (snd x)) eqn:W.
      * rewrite (sort_key_well_formed _ W) in Ex. discriminate.
      * rewrite (sort_key_ill_formed _ W) in Ex. congruence.
  - intros E. injection E as <-. exact H.
Qed.

(** The two outcomes of a reload. *)
Lemma reload_cases (s : state) :
  (exists evs ld,
     load_profiles_from_db (DATA s) = (evs, Ok ld) /\
     reload s = (Ok tt, set_profiles ld (add_events evs s))) \/
  (exists evs,
     load_profiles_from_db (DATA s) = (evs, Raise AttributeError) /\
     reload s = (Raise AttributeError, add_events evs s)).
Proof.
  unfold reload.
  pose proof (load_raises_attribute_error (DATA s)) as H.
  destruct (load_profiles_from_db (DATA s)) as [evs [ld|e]]; simpl in *.
  - left. eauto.
  - right. rewrite (H e eq_refl). eauto.
Qed.

End OkStates.

(* ================================================================== *)
(** * Selecting *)

Lemma bind_raise {A B : Type} (m : M A) (k : A -> M B) (s s' : state)
    (e : exn) :
  m s = (Raise e, s') -> bind m k s = (Raise e, s').
Proof. unfold bind. now intros ->. Qed.

Lemma py_eq_str (x : json) (t : string) :
  py_eq x (JStr t) = match x with JStr u => String.eqb u t | _ => false end.
Proof. destruct x as [| [] | | | | |]; reflexivity. Qed.

Lemma named_points ds it top sec l fields (name : string) :
  points ds it top sec l (JObj fields) ->
  named name ds it = py_eq (dict_get_default "name" JNull fields) (JStr name).
Proof.
  intros H. unfold named. rewrite (points_profile_of _ _ _ _ _ _ H).
  rewrite py_eq_str. simpl. unfold dict_get_default.
  destruct (dict_get "name" fields) as [[]|]; reflexivity.
Qed.

Lemma first_named_spec (name : string) (ds : list json) (l : list item) :
  forall i0,
    match first_named name ds i0 l with
    | Some i =>
        exists it, i0 <= i /\ nth_error l (i - i0) = Some it /\
                   named name ds it = true /\
                   forall j it', j < i - i0 -> nth_error l j = Some it' ->
                                 named name ds it' = false
    | None => forall it, In it l -> named name ds it = false
    end.
Proof.
  induction l as [|it l IH]; intros i0; simpl; [tauto|].
  destruct (named name ds it) eqn:E.
  - exists it. rewrite Nat.sub_diag. repeat split; auto. intros j it' Hj. lia.
  - specialize (IH (S i0)).
    destruct (first_named name ds (S i0) l) as [i|].
    + destruct IH as (it0 & Hle & Hn & Hnamed & Hbefore).
      exists it0. split; [lia|].
      replace (i - i0) with (S (i - S i0)) by lia. simpl.
      repeat split; auto.
      intros [|j] it' Hj Hj'; simpl in Hj'.
      * now injection Hj' as <-.
      * apply (Hbefore j); [lia|exact Hj'].
    + intros it' [<-|Hin]; auto.
Qed.

Section Selecting.

Context {RT : Runtime}.

Lemma index_of_name_ok (ds : list json) (name : string) (l : list item)
    (s : state) :
  forallb (entry_ok ds) l = true ->
  forall i, index_of_name ds name i l s = (Ok (first_named name ds i l), s).
Proof.
  induction l as [|it l IH]; intros Hok i; [reflexivity|].
  simpl in Hok. apply andb_prop in Hok. destruct Hok as [Hit Hl].
  destruct (entry_ok_points _ _ Hit) as (top & sec & l0 & fields & H & _).
  simpl. rewrite (points_profile_of _ _ _ _ _ _ H). simpl or_raise.
  rewrite (bind_ok (ret _) _ s s _ eq_refl). simpl as_dict.
  rewrite (bind_ok (ret _) _ s s _ eq_refl).
  rewrite (named_points _ _ _ _ _ _ name H).
  destruct (py_eq _ _); [reflexivity|now apply IH].
Qed.

Lemma on_profile_select_ok (s : state) idx it top sec l fields :
  nth_error (profiles s) idx = Some it ->
  points (docs s) it top sec l (JObj fields) ->
  on_profile_select (Some idx) s =
  (Ok tt,
   set_icon_path_var
     (var_text (dict_get_default "posterPath" (JStr "") fields))
     (set_app_path_var
        (var_text (dict_get_default "applicationPath" (JStr "") fields))
        (set_name_entry_var
           (var_text (dict_get_default "name" (JStr "") fields))
           (set_selected (Some idx) s)))).
Proof.
  intros Hit H. unfold on_profile_select.
  rewrite (bind_ok (modify _) _ s _ tt eq_refl).
  rewrite (bind_ok _ _ _ _ _
             (item_at_ok (set_selected (Some idx) s) idx it top sec l _
                         Hit H)).
  simpl as_dict. rewrite (bind_ok (ret _) _ _ _ _ eq_refl).
  reflexivity.
Qed.

(** In a state whose entries are in order, selecting by name returns: the
    selection goes to the first entry with that name, whose fields fill
    the form, or nothing changes when no entry has the name. *)
Lemma select_by_name_ok (s : state) (name : string) :
  state_ok s = true ->
  match first_named name (docs s) 0 (profiles s) with
  | Some i =>
      exists s',
        select_by_name name s = (Ok tt, s') /\
        same_store s s' /\ events s' = events s /\
        selected_profile_index s' = Some i /\ name_entry_var s' = name
  | None => select_by_name name s = (Ok tt, s)
  end.
Proof.
  intros Hok. unfold select_by_name.
  rewrite (bind_ok get _ s s s eq_refl).
  rewrite (bind_ok _ _ _ _ _ (index_of_name_ok _ name _ s Hok 0)).
  pose proof (first_named_spec name (docs s) (profiles s) 0) as Hf.
  destruct (first_named name (docs s) 0 (profiles s)) as [i|];
    [|reflexivity].
  destruct Hf as (it & _ & Hit & Hnamed & _). rewrite Nat.sub_0_r in Hit.
  destruct (entry_ok_points _ _ (state_ok_nth _ _ _ Hok Hit))
    as (top & sec & l & fields & H & _).
  rewrite (on_profile_select_ok s i it top sec l fields Hit H).
  eexists. split; [reflexivity|]. repeat split.
  simpl. rewrite (named_points _ _ _ _ _ _ name H), py_eq_str in Hnamed.
  unfold dict_get_default in *.
  destruct (dict_get "name" fields) as [[]|]; try discriminate.
  simpl. now apply String.eqb_eq.
Qed.

End Selecting.

(* ================================================================== *)
(** * Saving, then loading again *)

Lemma settles_bind (m k : M unit) :
  settles m -> settles k -> settles (bind m (fun _ => k)).
Proof.
  intros Hm Hk s Hok. destruct (Hm s Hok) as (s1 & E1 & H1).
  destruct (Hk s1 (state_ok_same_store _ _ H1 Hok)) as (s2 & E2 & H2).
  exists s2. split.
  - now rewrite (bind_ok _ _ _ _ _ E1).
  - eapply same_store_trans; eassumption.
Qed.

Lemma settles_modify (f : state -> state) :
  (forall s, same_store s (f s)) -> settles (modify f).
Proof. intros H s _. exists (f s). split; [reflexivity|apply H]. Qed.

Lemma settles_emit (evs : list event) : settles (emit evs).
Proof. apply settles_modify. intros s. repeat split. Qed.

Section SaveAndReload.

Context {RT : Runtime}.

Lemma settles_select_by_name (name : string) : settles (select_by_name name).
Proof.
  intros s Hok. pose proof (select_by_name_ok s name Hok) as H.
  destruct (first_named name (docs s) 0 (profiles s)).
  - destruct H as (s' & E & Hs & _). eauto.
  - exists s. split; [exact H|apply same_store_refl].
Qed.

(** The state in which the reload that follows a save leaves the
    application: the table as the save left it, and the documents and
    entries that loading it gives; or, when loading raises, the documents
    and entries as they were. *)
Lemma save_reload_run (id : Z) (doc : json) (k : M unit) (s1 : state) :
  match load_profiles_from_db
          (snd (save_profile_to_db (DATA s1) id doc)) with
  | (evs, Ok ld) =>
      bind (call_save_profile_to_db id doc)
           (fun _ => bind reload (fun _ => k)) s1
      = k (set_profiles ld
             (add_events evs
                (set_DATA (snd (save_profile_to_db (DATA s1) id doc))
                   (add_events (fst (save_profile_to_db (DATA s1) id doc))
                               s1))))
  | (evs, Raise e) =>
      e = AttributeError /\
      bind (call_save_profile_to_db id doc)
           (fun _ => bind reload (fun _ => k)) s1
      = (Raise AttributeError,
         add_events evs
           (set_DATA (snd (save_profile_to_db (DATA s1) id doc))
              (add_events (fst (save_profile_to_db (DATA s1) id doc)) s1)))
  end.
Proof.
  unfold bind, call_save_profile_to_db, reload. cbv beta.
  destruct (save_profile_to_db (DATA s1) id doc) as [evs0 db'].
  cbn [fst snd DATA set_DATA add_events].
  pose proof (load_raises_attribute_error db') as Hexn.
  destruct (load_profiles_from_db db') as [evs [ld|e]]; simpl in *.
  - reflexivity.
  - specialize (Hexn e eq_refl). subst e. split; reflexivity.
Qed.

Lemma save_changes_run (s : state) :
  state_ok s = true ->
  match selected_profile_index s with
  | None =>
      save_changes s =
      (Ok tt, add_events [MessageBox showwarning "No Profile"] s)
  | Some idx =>
      match nth_error (profiles s) idx with
      | None => save_changes s = (Raise IndexError, s)
      | Some it =>
          exists top sec l fields,
            points (docs s) it top sec l (JObj fields) /\
            well_formed_profile (JObj fields) = true /\
            save_changes s =
            bind (call_save_profile_to_db (db_row_id it)
                    (with_apps_list top sec
                       (list_set (profile it)
                          (JObj (edited (name_entry_var s) (app_path_var s)
                                        (icon_path_var s) fields)) l)))
                 (fun _ =>
                    bind reload (fun _ =>
                    bind (select_by_name (name_entry_var s)) (fun _ =>
                    emit [Log INFO (Changes_saved (name_entry_var s)
                                                  (db_row_id it));
                          MessageBox showinfo "Saved"])))
                 (set_docs
                    (list_set (entire_json it)
                       (with_apps_list top sec
                          (list_set (profile it)
                             (JObj (edited (name_entry_var s) (app_path_var s)
                                           (icon_path_var s) fields)) l))
                       (docs s)) s)
      end
  end.
Proof.
  intros Hok. unfold save_changes.
  rewrite (bind_ok get _ s s s eq_refl).
  destruct (selected_profile_index s) as [idx|]; [|reflexivity].
  destruct (nth_error (profiles s) idx) as [it|] eqn:Hit.
  - destruct (entry_ok_points _ _ (state_ok_nth _ _ _ Hok Hit))
      as (top & sec & l & fields & H & Hwf).
    exists top, sec, l, fields. split; [exact H|]. split; [exact Hwf|].
    rewrite (bind_ok _ _ _ _ _ (item_at_ok s idx it top sec l _ Hit H)).
    rewrite (bind_ok _ _ _ _ _ (store_profile_ok s it top sec l _ _ H)).
    set (s1 := set_docs _ s).
    rewrite (bind_ok get _ s1 s1 s1 eq_refl).
    destruct (points_stored _ _ _ _ _ _
                (JObj (edited (name_entry_var s) (app_path_var s)
                              (icon_path_var s) fields)) H) as (Hd & _).
    unfold s1 at 1. simpl docs. rewrite Hd. simpl or_raise.
    now rewrite (bind_ok (ret _) _ s1 s1 _ eq_refl).
  - apply bind_raise. unfold item_at.
    rewrite (bind_ok get _ s s s eq_refl), Hit. reflexivity.
Qed.

Lemma delete_entry_run (s : state) :
  state_ok s = true ->
  match selected_profile_index s with
  | None =>
      delete_entry true s =
      (Ok tt, add_events [MessageBox showwarning "No selection"] s)
  | Some idx =>
      match nth_error (profiles s) idx with
      | None => delete_entry true s = (Raise IndexError, s)
      | Some it =>
          exists top sec l fields,
            points (docs s) it top sec l (JObj fields) /\
            well_formed_profile (JObj fields) = true /\
            delete_entry true s =
            bind (call_save_profile_to_db (db_row_id it)
                    (with_apps_list top sec
                       (remove_if_in (profile it) (JObj fields) l)))
                 (fun _ =>
                    bind reload (fun _ =>
                    bind (modify (set_selected None)) (fun _ =>
                    bind (modify (set_name_entry_var "")) (fun _ =>
                    bind (modify (set_app_path_var "")) (fun _ =>
                    modify (set_icon_path_var ""))))))
                 (set_docs
                    (list_set (entire_json it)
                       (with_apps_list top sec
                          (remove_if_in (profile it) (JObj fields) l))
                       (docs s)) s)
      end
  end.
Proof.
  intros Hok. unfold delete_entry.
  rewrite (bind_ok get _ s s s eq_refl).
  destruct (selected_profile_index s) as [idx|]; [|reflexivity].
  change (negb true) with false. cbv iota.
  destruct (nth_error (profiles s) idx) as [it|] eqn:Hit.
  - destruct (entry_ok_points _ _ (state_ok_nth _ _ _ Hok Hit))
      as (top & sec & l & fields & H & Hwf).
    exists top, sec, l, fields. split; [exact H|]. split; [exact Hwf|].
    rewrite (bind_ok _ _ _ _ _ (item_at_ok s idx it top sec l _ Hit H)).
    rewrite (points_apps_list_of _ _ _ _ _ _ H). simpl or_raise.
    rewrite (bind_ok (ret _) _ s s _ eq_refl).
    rewrite (put_apps_list_points _ _ _ _ _ _ _ H).
    now rewrite (bind_ok (modify _) _ s _ tt eq_refl).
  - apply bind_raise. unfold item_at.
    rewrite (bind_ok get _ s s s eq_refl), Hit. reflexivity.
Qed.

Lemma add_entry_run (s : state) :
  state_ok s = true ->
  match profiles s with
  | [] =>
      add_entry s = (Ok tt, add_events [MessageBox showinfo "No DB Rows"] s)
  | it :: _ =>
      exists top sec l fields,
        points (docs s) it top sec l (JObj fields) /\
        add_entry s =
        bind (call_save_profile_to_db (db_row_id it)
                (with_apps_list top sec (l ++ [new_profile])))
             (fun _ => bind reload (fun _ => select_by_name "New Entry"))
             (set_docs
                (list_set (entire_json it)
                   (with_apps_list top sec (l ++ [new_profile]))
                   (docs s)) s)
  end.
Proof.
  intros Hok. destruct (profiles s) as [|it rest] eqn:Hp.
  - now apply add_entry_no_profiles.
  - assert (Hit : nth_error (profiles s) 0 = Some it) by now rewrite Hp.
    destruct (entry_ok_points _ _ (state_ok_nth _ _ _ Hok Hit))
      as (top & sec & l & fields & H & _).
    exists top, sec, l, fields. split; [exact H|].
    destruct H as (Hd & Ht & Hs & _).
    unfold add_entry. rewrite (bind_ok get _ s s s eq_refl), Hp, Hd.
    simpl or_raise. rewrite (bind_ok (ret _) _ s s _ eq_refl).
    simpl as_dict. rewrite (bind_ok (ret _) _ s s _ eq_refl).
    unfold dict_get_default. rewrite Ht. simpl as_dict.
    rewrite (bind_ok (ret _) _ s s _ eq_refl), Hs.
    now rewrite (bind_ok (modify _) _ s _ tt eq_refl).
Qed.

End SaveAndReload.

(* ================================================================== *)
(** * What the methods keep *)

Lemma entry_ok_appended ds it top sec l p (extra : list json) (it' : item) :
  points ds it top sec l p ->
  entry_ok ds it' = true ->
  entry_ok (list_set (entire_json it) (with_apps_list top sec (l ++ extra)) ds)
           it' = true.
Proof.
  intros (Hd & Ht & Hs & Hp). unfold entry_ok, profile_of, document_of in *.
  assert (Hlen : entire_json it < List.length ds)
    by (apply nth_error_Some; congruence).
  destruct (Nat.eq_dec (entire_json it') (entire_json it)) as [E|E].
  - rewrite E, Hd. rewrite nth_error_list_set_same by exact Hlen.
    unfold with_apps_list, apps_list_of. rewrite !dict_get_set_same.
    simpl. rewrite Ht, Hs.
    destruct (nth_error l (profile it')) as [p'|] eqn:Ep; [|discriminate].
    rewrite nth_error_app1 by (apply nth_error_Some; congruence).
    now rewrite Ep.
  - now rewrite nth_error_list_set_other by congruence.
Qed.

Lemma settles_clear_form :
  settles (bind (modify (set_selected None)) (fun _ =>
           bind (modify (set_name_entry_var "")) (fun _ =>
           bind (modify (set_app_path_var "")) (fun _ =>
           modify (set_icon_path_var ""))))).
Proof.
  repeat apply settles_bind; apply settles_modify; intros s; repeat split.
Qed.

Section Keeping.

Context {RT : Runtime}.

Lemma settles_select_and_report (name : string) (evs : list event) :
  settles (bind (select_by_name name) (fun _ => emit evs)).
Proof.
  apply settles_bind; [apply settles_select_by_name|apply settles_emit].
Qed.

(** After a save and the reload that follows it, in every case. *)
Lemma tail_establishes_ok (id : Z) (doc : json) (k : M unit) (s1 : state) :
  settles k ->
  expected (fst (bind (call_save_profile_to_db id doc)
                      (fun _ => bind reload (fun _ => k)) s1)) /\
  (fst (bind (call_save_profile_to_db id doc)
             (fun _ => bind reload (fun _ => k)) s1) = Ok tt ->
   state_ok (snd (bind (call_save_profile_to_db id doc)
                       (fun _ => bind reload (fun _ => k)) s1)) = true /\
   in_sync (snd (bind (call_save_profile_to_db id doc)
                      (fun _ => bind reload (fun _ => k)) s1))) /\
  (state_ok s1 = true ->
   state_ok (snd (bind (call_save_profile_to_db id doc)
                       (fun _ => bind reload (fun _ => k)) s1)) = true).
Proof.
  intros Hk. pose proof (save_reload_run id doc k s1) as Hrun.
  destruct (load_profiles_from_db
              (snd (save_profile_to_db (DATA s1) id doc)))
    as [evs [ld|e]] eqn:El.
  - rewrite Hrun.
    match goal with |- context [k ?s] => set (s3 := s) end.
    assert (Hok3 : state_ok s3 = true).
    { unfold state_ok, s3. simpl.
      apply (load_state_ok (snd (save_profile_to_db (DATA s1) id doc))).
      now rewrite El. }
    assert (Hsync3 : in_sync s3).
    { unfold in_sync, s3. simpl. rewrite El. simpl. now destruct ld. }
    destruct (Hk s3 Hok3) as (s4 & E & Hsame). rewrite E. simpl.
    assert (state_ok s4 = true) by exact (state_ok_same_store _ _ Hsame Hok3).
    repeat split; auto.
    exact (in_sync_same_store _ _ Hsame Hsync3).
  - destruct Hrun as [-> Hrun]. rewrite Hrun. simpl.
    repeat split; auto; discriminate.
Qed.

Lemma on_profile_select_keeps (s : state) (sel : option nat) :
  state_ok s = true ->
  state_ok (snd (on_profile_select sel s)) = true /\
  expected (fst (on_profile_select sel s)).
Proof.
  intros Hok.
  pose proof (stores_nothing_on_profile_select sel s) as Hsame.
  split; [exact (state_ok_same_store _ _ Hsame Hok)|].
  destruct sel as [idx|]; [|exact I].
  destruct (nth_error (profiles s) idx) as [it|] eqn:Hit.
  - destruct (entry_ok_points _ _ (state_ok_nth _ _ _ Hok Hit))
      as (top & sec & l & fields & H & _).
    now rewrite (on_profile_select_ok s idx it top sec l fields Hit H).
  - unfold on_profile_select.
    rewrite (bind_ok (modify _) _ s _ tt eq_refl).
    erewrite bind_raise; [left; reflexivity|].
    unfold item_at. rewrite (bind_ok get _ _ _ _ eq_refl).
    simpl profiles. rewrite Hit. reflexivity.
Qed.

Lemma clear_icon_keeps (s : state) :
  state_ok s = true ->
  state_ok (snd (clear_icon s)) = true /\ expected (fst (clear_icon s)).
Proof.
  intros Hok. destruct (selected_profile_index s) as [idx|] eqn:Hsel.
  - destruct (nth_error (profiles s) idx) as [it|] eqn:Hit.
    + destruct (entry_ok_points _ _ (state_ok_nth _ _ _ Hok Hit))
        as (top & sec & l & fields & H & Hwf).
      rewrite (clear_icon_ok s idx it top sec l fields Hsel Hit H).
      split; [|exact I]. unfold state_ok. simpl.
      apply (forallb_entry_ok_stored _ _ _ _ _ _ _ _ H); [|exact Hok].
      now rewrite well_formed_set_other.
    + unfold clear_icon. rewrite (bind_ok get _ s s s eq_refl), Hsel.
      erewrite bind_raise; [split; [exact Hok|left; reflexivity]|].
      unfold item_at. rewrite (bind_ok get _ _ _ _ eq_refl), Hit.
      reflexivity.
  - unfold clear_icon. rewrite (bind_ok get _ s s s eq_refl), Hsel.
    split; [exact Hok|exact I].
Qed.

Lemma browse_icon_keeps (s : state) (path : string) (opened saved : bool) :
  state_ok s = true ->
  state_ok (snd (browse_icon path opened saved s)) = true /\
  expected (fst (browse_icon path opened saved s)).
Proof.
  intros Hok. unfold browse_icon. rewrite (bind_ok get _ s s s eq_refl).
  destruct (selected_profile_index s) as [idx|] eqn:Hsel;
    [|split; [exact Hok|exact I]].
  destruct (PyStr.truthy path); cbn [negb]; cbv iota;
    [|split; [exact Hok|exact I]].
  destruct opened; cbn [negb]; cbv iota; [|split; [exact Hok|exact I]].
  destruct (nth_error (profiles s) idx) as [it|] eqn:Hit.
  - destruct (entry_ok_points _ _ (state_ok_nth _ _ _ Hok Hit))
      as (top & sec & l & fields & H & Hwf).
    rewrite (bind_ok _ _ _ _ _ (item_at_ok s idx it top sec l _ Hit H)).
    simpl as_dict. rewrite (bind_ok (ret _) _ s s _ eq_refl).
    destruct (dict_get_default "posterPath" (JStr "") fields)
      as [| | | |poster| |] eqn:Hposter;
      try (split; [exact Hok|right; reflexivity]).
    simpl as_str. rewrite (bind_ok (ret _) _ s s _ eq_refl).
    destruct (well_formed_name _ Hwf) as (name & Hname). rewrite Hname.
    simpl as_str. rewrite (bind_ok (ret _) _ s s _ eq_refl).
    destruct saved; cbn [negb]; cbv iota; [|split; [exact Hok|exact I]].
    set (final_path := if PyStr.truthy (PyStr.strip poster) then _ else _).
    rewrite (bind_ok (emit _) _ s _ tt eq_refl).
    simpl setitem. rewrite (bind_ok (ret _) _ _ _ _ eq_refl).
    rewrite (bind_ok _ _ _ _ _
               (store_profile_ok (add_events [ImgSave final_path] s)
                  it top sec l _ _ H)).
    split; [|exact I]. unfold state_ok. simpl.
    apply (forallb_entry_ok_stored _ _ _ _ _ _ _ _ H); [|exact Hok].
    now rewrite well_formed_set_other.
  - erewrite bind_raise; [split; [exact Hok|left; reflexivity]|].
    unfold item_at. rewrite (bind_ok get _ _ _ _ eq_refl), Hit.
    reflexivity.
Qed.

Lemma save_changes_keeps (s : state) :
  state_ok s = true ->
  state_ok (snd (save_changes s)) = true /\ expected (fst (save_changes s)).
Proof.
  intros Hok. pose proof (save_changes_run s Hok) as Hrun.
  destruct (selected_profile_index s) as [idx|].
  - destruct (nth_error (profiles s) idx) as [it|].
    + destruct Hrun as (top & sec & l & fields & H & Hwf & ->).
      match goal with |- context [bind _ _ ?s1] =>
        assert (Hok1 : state_ok s1 = true)
      end.
      { unfold state_ok. simpl.
        apply (forallb_entry_ok_stored _ _ _ _ _ _ _ _ H); [|exact Hok].
        apply well_formed_edited. }
      match goal with |- context [bind (call_save_profile_to_db ?id ?doc)
                                       (fun _ => bind reload (fun _ => ?k))
                                       ?s1] =>
        destruct (tail_establishes_ok id doc k s1) as (Hexp & _ & Hkeep)
      end.
      { apply settles_select_and_report. }
      split; [exact (Hkeep Hok1)|exact Hexp].
    + rewrite Hrun. split; [exact Hok|left; reflexivity].
  - rewrite Hrun. split; [exact Hok|exact I].
Qed.

Lemma add_entry_keeps (s : state) :
  state_ok s = true ->
  state_ok (snd (add_entry s)) = true /\ expected (fst (add_entry s)).
Proof.
  intros Hok. pose proof (add_entry_run s Hok) as Hrun.
  destruct (profiles s) as [|it rest] eqn:Hp.
  - rewrite Hrun. split; [|exact I].
    unfold state_ok in *. simpl. now rewrite Hp.
  - destruct Hrun as (top & sec & l & fields & H & ->).
    match goal with |- context [bind _ _ ?s1] =>
      assert (Hok1 : state_ok s1 = true)
    end.
    { unfold state_ok in *. simpl. rewrite forallb_forall in *.
      intros it' Hin. eapply entry_ok_appended; [exact H|now apply Hok]. }
    match goal with |- context [bind (call_save_profile_to_db ?id ?doc)
                                     (fun _ => bind reload (fun _ => ?k))
                                     ?s1] =>
      destruct (tail_establishes_ok id doc k s1) as (Hexp & _ & Hkeep)
    end.
    { apply settles_select_by_name. }
    split; [exact (Hkeep Hok1)|exact Hexp].
Qed.

Lemma delete_entry_keeps (s : state) (askyesno : bool) :
  state_ok s = true ->
  expected (fst (delete_entry askyesno s)) /\
  (fst (delete_entry askyesno s) = Ok tt ->
   state_ok (snd (delete_entry askyesno s)) = true).
Proof.
  intros Hok. destruct askyesno.
  - pose proof (delete_entry_run s Hok) as Hrun.
    destruct (selected_profile_index s) as [idx|].
    + destruct (nth_error (profiles s) idx) as [it|].
      * destruct Hrun as (top & sec & l & fields & H & Hwf & ->).
        match goal with |- context [bind (call_save_profile_to_db ?id ?doc)
                                         (fun _ => bind reload (fun _ => ?k))
                                         ?s1] =>
          destruct (tail_establishes_ok id doc k s1) as (Hexp & Hret & _)
        end.
        { apply settles_clear_form. }
        split; [exact Hexp|]. intros E. now apply Hret.
      * rewrite Hrun. split; [left; reflexivity|discriminate].
    + rewrite Hrun. split; [exact I|]. intros _. exact Hok.
  - unfold delete_entry. rewrite (bind_ok get _ s s s eq_refl).
    destruct (selected_profile_index s); simpl; auto.
Qed.

Lemma init_keeps (db : database) (folder : string) :
  state_ok (snd (init db folder)) = true /\
  (fst (init db folder) = Ok tt \/
   fst (init db folder) = Raise AttributeError).
Proof.
  unfold init.
  match goal with |- context [reload ?s] =>
    destruct (reload_cases s) as [(evs & ld & El & ->)|(evs & El & ->)]
  end; simpl in *.
  - split; [|left; reflexivity]. unfold state_ok. simpl.
    apply (load_state_ok db). now rewrite El.
  - split; [reflexivity|right; reflexivity].
Qed.

End Keeping.

(** X3.  After start-up every entry refers to a profile of its document
    that is an object whose name, if present, is a string, and every method
    keeps it so: selecting, adding, browsing for an icon, clearing the icon
    and saving changes in all cases, deleting whenever it returns.  From
    such a state a method ends normally, with [IndexError] (the selection
    is past the end of the list) or with [AttributeError] (the reload met a
    malformed document, or the posterPath is not a string); start-up ends
    normally or with [AttributeError]. *)
Theorem entries_stay_in_order `{RT : Runtime} :
  (forall db folder,
     state_ok (snd (init db folder)) = true /\
     (fst (init db folder) = Ok tt \/
      fst (init db folder) = Raise AttributeError)) /\
  (forall s,
     state_ok s = true ->
     (forall sel,
        state_ok (snd (on_profile_select sel s)) = true /\
        expected (fst (on_profile_select sel s))) /\
     (state_ok (snd (add_entry s)) = true /\ expected (fst (add_entry s))) /\
     (forall path opened saved,
        state_ok (snd (browse_icon path opened saved s)) = true /\
        expected (fst (browse_icon path opened saved s))) /\
     (state_ok (snd (clear_icon s)) = true /\ expected (fst (clear_icon s))) /\
     (state_ok (snd (save_changes s)) = true /\
      expected (fst (save_changes s))) /\
     (forall askyesno,
        expected (fst (delete_entry askyesno s)) /\
        (fst (delete_entry askyesno s) = Ok tt ->
         state_ok (snd (delete_entry askyesno s)) = true))).
Proof.
  split; [exact init_keeps|]. intros s Hok.
  split; [intros sel; now apply on_profile_select_keeps|].
  split; [now apply add_entry_keeps|].
  split; [intros path opened saved; now apply browse_icon_keeps|].
  split; [now apply clear_icon_keeps|].
  split; [now apply save_changes_keeps|].
  intros askyesno. now apply delete_entry_keeps.
Qed.

Lemma entries_stay_in_order_witness :
  state_ok (snd (save_changes (RT := Demo.rt) Demo.s1)) = true /\
  expected (fst (save_changes (RT := Demo.rt) Demo.s1)).
Proof.
  assert (Hok : state_ok Demo.s1 = true) by reflexivity.
  destruct (proj2 (entries_stay_in_order (RT := Demo.rt)) Demo.s1 Hok)
    as (_ & _ & _ & _ & Hsave & _).
  exact Hsave.
Defined.

Section Sync.

Context {RT : Runtime}.

Lemma in_sync_state_ok (s : state) : in_sync s -> state_ok s = true.
Proof.
  intros H. exact (load_state_ok (DATA s) _ H).
Qed.

Lemma in_sync_add_events (evs : list event) (s : state) :
  in_sync s -> in_sync (add_events evs s).
Proof. apply in_sync_same_store. repeat split. Qed.

End Sync.

(** X4.  Memory follows the table: after start-up that returns, and after
    an add, a delete or a save of changes that returns from a state in
    which the loaded documents and entries are what loading the table
    gives, they are again what loading the table, as the method left it,
    gives.  Selecting keeps this as well. *)
Theorem memory_is_what_loading_gives `{RT : Runtime} :
  (forall db folder,
     fst (init db folder) = Ok tt -> in_sync (snd (init db folder))) /\
  (forall s,
     in_sync s ->
     (forall sel, in_sync (snd (on_profile_select sel s))) /\
     (fst (add_entry s) = Ok tt -> in_sync (snd (add_entry s))) /\
     (forall askyesno,
        fst (delete_entry askyesno s) = Ok tt ->
        in_sync (snd (delete_entry askyesno s))) /\
     (fst (save_changes s) = Ok tt -> in_sync (snd (save_changes s)))).
Proof.
  split.
  - intros db folder. unfold init.
    match goal with |- context [reload ?s] =>
      destruct (reload_cases s) as [(evs & ld & El & ->)|(evs & El & ->)]
    end; simpl in *; [|discriminate].
    intros _. unfold in_sync. simpl. rewrite El. simpl. now destruct ld.
  - intros s Hsync. pose proof (in_sync_state_ok s Hsync) as Hok.
    split; [|split; [|split]].
    + intros sel.
      exact (in_sync_same_store _ _
               (stores_nothing_on_profile_select sel s) Hsync).
    + pose proof (add_entry_run s Hok) as Hrun.
      destruct (profiles s) as [|it rest].
      * rewrite Hrun. intros _. now apply in_sync_add_events.
      * destruct Hrun as (top & sec & l & fields & H & ->).
        match goal with |- context [bind (call_save_profile_to_db ?id ?doc)
                                         (fun _ => bind reload (fun _ => ?k))
                                         ?s1] =>
          destruct (tail_establishes_ok id doc k s1) as (_ & Hret & _)
        end.
        { apply settles_select_by_name. }
        intros E. now apply Hret.
    + intros [|].
      * pose proof (delete_entry_run s Hok) as Hrun.
        destruct (selected_profile_index s) as [idx|].
        -- destruct (nth_error (profiles s) idx) as [it|].
           ++ destruct Hrun as (top & sec & l & fields & H & Hwf & ->).
              match goal with
              | |- context [bind (call_save_profile_to_db ?id ?doc)
                                 (fun _ => bind reload (fun _ => ?k)) ?s1] =>
                  destruct (tail_establishes_ok id doc k s1) as (_ & Hret & _)
              end.
              { apply settles_clear_form. }
              intros E. now apply Hret.
           ++ rewrite Hrun. discriminate.
        -- rewrite Hrun. intros _. now apply in_sync_add_events.
      * unfold delete_entry. rewrite (bind_ok get _ s s s eq_refl).
        destruct (selected_profile_index s); simpl; intros _;
          [exact Hsync|now apply in_sync_add_events].
    + pose proof (save_changes_run s Hok) as Hrun.
      destruct (selected_profile_index s) as [idx|].
      * destruct (nth_error (profiles s) idx) as [it|].
        -- destruct Hrun as (top & sec & l & fields & H & Hwf & ->).
           match goal with
           | |- context [bind (call_save_profile_to_db ?id ?doc)
                              (fun _ => bind reload (fun _ => ?k)) ?s1] =>
               destruct (tail_establishes_ok id doc k s1) as (_ & Hret & _)
           end.
           { apply settles_select_and_report. }
           intros E. now apply Hret.
        -- rewrite Hrun. discriminate.
      * rewrite Hrun. intros _. now apply in_sync_add_events.
Qed.

Lemma memory_is_what_loading_gives_witness :
  in_sync (RT := Demo.rt) (snd (add_entry (RT := Demo.rt) Demo.s0)).
Proof.
  assert (Hsync : in_sync (RT := Demo.rt) Demo.s0)
    by (vm_compute; reflexivity).
  assert (Hret : fst (add_entry (RT := Demo.rt) Demo.s0) = Ok tt)
    by (vm_compute; reflexivity).
  destruct (proj2 (memory_is_what_loading_gives (RT := Demo.rt))
              Demo.s0 Hsync) as (_ & Hadd & _).
  exact (Hadd Hret).
Defined.

(* ================================================================== *)
(** * The table after a save *)

Lemma sql_update_app (new_blob : bytes) (id : Z) (rows rows' : list row) :
  sql_update new_blob id (rows ++ rows')
  = sql_update new_blob id rows ++ sql_update new_blob id rows'.
Proof. apply map_app. Qed.

Lemma NoDup_matches_no_row (rows : list row) (id : Z) :
  ~ In id (map row_id rows) -> matches_no_row rows id = true.
Proof.
  intros H. apply forallb_forall. intros r Hr.
  apply negb_true_iff, Z.eqb_neq. intros E. apply H.
  rewrite <- E. now apply in_map.
Qed.

(** With distinct identifiers, the update changes the one row that has the
    identifier and nothing else. *)
Lemma sql_update_one_row (new_blob : bytes) (rows : list row) (r0 : row) :
  NoDup (map row_id rows) -> In r0 rows ->
  exists pre post,
    rows = pre ++ r0 :: post /\
    sql_update new_blob (row_id r0) rows
    = pre ++ {| row_id := row_id r0; row_FILE := Some new_blob |} :: post.
Proof.
  intros Hnd Hin. apply in_split in Hin. destruct Hin as (pre & post & ->).
  exists pre, post. split; [reflexivity|].
  rewrite map_app in Hnd. simpl in Hnd.
  pose proof (NoDup_remove_2 _ _ _ Hnd) as Hnot.
  rewrite sql_update_app. simpl. rewrite Z.eqb_refl.
  rewrite !sql_update_no_match; [reflexivity| |];
    apply NoDup_matches_no_row; intros H; apply Hnot, in_or_app; auto.
Qed.

Section TableAfterSave.

Context {RT : Runtime}.

Lemma profiles_in_rows_app (rows rows' : list row) :
  profiles_in_rows (rows ++ rows')
  = profiles_in_rows rows ++ profiles_in_rows rows'.
Proof. apply flat_map_app. Qed.

Lemma row_documents_app (rows rows' : list row) :
  row_documents (rows ++ rows') = row_documents rows ++ row_documents rows'.
Proof. apply flat_map_app. Qed.

Lemma row_document_written (id : Z) (new_blob : bytes) (doc : json) :
  new_blob <> [] -> json_loads new_blob = Some doc ->
  row_document {| row_id := id; row_FILE := Some new_blob |} = Some doc.
Proof.
  intros Hne Hl. unfold row_document. simpl.
  destruct new_blob; [contradiction|exact Hl].
Qed.

(** A table all of whose documents are objects and all of whose profile
    entries are well formed loads, with one entry per profile entry. *)
Lemma load_ok_intro (rows : list row) :
  forallb is_document (row_documents rows) = true ->
  forallb well_formed_profile (profiles_in_rows rows) = true ->
  exists evs ld,
    load_profiles_from_db (Some rows) = (evs, Ok ld) /\
    List.length (entries ld) = List.length (profiles_in_rows rows) /\
    Permutation (map Some (profiles_in_rows rows))
                (map (profile_of (documents ld)) (entries ld)).
Proof.
  intros Hdocs Hwf. unfold load_profiles_from_db.
  destruct (load_rows_origin rows Hdocs [] []) as (evs & new & E & Hmap & Hall).
  simpl in E. rewrite E. unfold list_sort.
  rewrite (keyed_well_formed snd).
  2:{ rewrite forallb_forall in Hwf. apply Forall_forall.
      intros x Hx. apply Hwf. rewrite <- Hmap. now apply in_map. }
  set (kl := map (fun x => (name_key (snd x), x)) new).
  eexists _, _. split; [reflexivity|]. simpl.
  pose proof (sort_by_key_perm _ kl) as Hperm. split.
  - rewrite !length_map, <- (Permutation_length Hperm). unfold kl.
    now rewrite length_map, <- Hmap, length_map.
  - rewrite <- Hmap, !map_map.
    transitivity (map (fun kx => profile_of (row_documents rows)
                                            (fst (snd kx))) kl).
    + unfold kl. rewrite map_map. simpl.
      rewrite Forall_forall in Hall.
      erewrite map_ext_in; [reflexivity|].
      intros x Hx. symmetry.
      exact (entry_from_row_profile_of _ _ _ _ (Hall x Hx)).
    + now apply Permutation_map.
Qed.

(** What a load that returns says of the table. *)
Lemma load_ok_elim (rows : list row) (ld : loaded) :
  snd (load_profiles_from_db (Some rows)) = Ok ld ->
  forallb is_document (row_documents rows) = true /\
  forallb well_formed_profile (profiles_in_rows rows) = true /\
  List.length (entries ld) = List.length (profiles_in_rows rows).
Proof.
  intros Hld.
  destruct (forallb is_document (row_documents rows)) eqn:Hdocs.
  - destruct (load_ok_inv rows ld Hld) as (new & _ & Hmap & _ & Hwf & ->).
    split; [reflexivity|]. split.
    + rewrite <- Hmap. apply forallb_forall. intros p Hp.
      apply in_map_iff in Hp. destruct Hp as (x & <- & Hx).
      rewrite Forall_forall in Hwf. now apply Hwf.
    + rewrite !length_map,
        <- (Permutation_length (sort_by_key_perm _ _)), length_map.
      now rewrite <- Hmap, length_map.
  - unfold load_profiles_from_db in Hld.
    pose proof (load_rows_raises rows Hdocs [] []) as H.
    destruct (load_rows rows [] []) as [evs res]. simpl in H. subst res.
    discriminate Hld.
Qed.

End TableAfterSave.

(* ================================================================== *)
(** * Rows that are passed over do not stop the others *)

Section SkippedRows.

Context {RT : Runtime}.

(** The loop collects, for every row that holds a document, an entry for
    every element of that document's list, under the row's identifier. *)
Lemma load_rows_covers (rows : list row) :
  forallb is_document (row_documents rows) = true ->
  forall docs acc, exists evs new,
    load_rows rows docs acc
      = (evs, Ok (docs ++ row_documents rows, acc ++ new)) /\
    forall r doc p,
      In r rows -> row_document r = Some doc -> In p (profiles_in doc) ->
      exists it, In (it, p) new /\ db_row_id it = row_id r.
Proof.
  induction rows as [|r rows IH]; intros H docs acc.
  - exists [], []. simpl. rewrite !app_nil_r. split; [reflexivity|].
    intros r doc p [].
  - rewrite load_rows_cons, row_documents_cons.
    rewrite row_documents_cons in H.
    destruct (row_document r) as [doc|] eqn:Er; simpl in H.
    + apply andb_prop in H. destruct H as [Hdoc H].
      rewrite (row_entries_document _ _ _ Hdoc).
      destruct (IH H (docs ++ [doc])
                   (acc ++ entries_of (row_id r) (List.length docs) 0
                                      (profiles_in doc)))
        as (evs & new & E & Hcov).
      exists evs,
        (entries_of (row_id r) (List.length docs) 0 (profiles_in doc) ++ new).
      rewrite E. simpl. rewrite <- !app_assoc. simpl.
      split; [reflexivity|].
      intros r0 doc0 p [<-|Hin] Hdoc0 Hp.
      * rewrite Er in Hdoc0. injection Hdoc0 as <-.
        rewrite <- (map_snd_entries_of (row_id r) (List.length docs) 0
                                       (profiles_in doc)) in Hp.
        apply in_map_iff in Hp. destruct Hp as ([it q] & Hq & Hx).
        simpl in Hq. subst q. exists it. split; [now apply in_or_app; left|].
        pose proof (entries_of_point (row_id r) (List.length docs) []
                      (profiles_in doc)) as Hpt.
        simpl in Hpt. rewrite Forall_forall in Hpt.
        exact (proj1 (Hpt _ Hx)).
      * destruct (Hcov r0 doc0 p Hin Hdoc0 Hp) as (it & Hit & Hid).
        exists it. split; [now apply in_or_app; right|exact Hid].
    + destruct (IH H docs acc) as (evs & new & E & Hcov).
      assert (Hcov' : forall r0 doc p,
                 In r0 (r :: rows) -> row_document r0 = Some doc ->
                 In p (profiles_in doc) ->
                 exists it, In (it, p) new /\ db_row_id it = row_id r0).
      { intros r0 doc p [<-|Hin] Hdoc Hp; [congruence|eauto]. }
      destruct (undecodable r); rewrite E; simpl; eauto.
Qed.

(** When loading returns, every profile of every row that holds a document
    has its entry, under the identifier of its row. *)
Lemma load_ok_covers (rows : list row) (ld : loaded) :
  snd (load_profiles_from_db (Some rows)) = Ok ld ->
  forall r doc p,
    In r rows -> row_document r = Some doc -> In p (profiles_in doc) ->
    exists it,
      In it (entries ld) /\ db_row_id it = row_id r /\
      profile_of (documents ld) it = Some p.
Proof.
  intros Hld r doc p Hin Hdoc Hp.
  destruct (load_ok_elim rows ld Hld) as (Hdocs & Hwf & _).
  destruct (load_rows_origin rows Hdocs [] [])
    as (evs & new & E & Hmap & Hfrom).
  destruct (load_rows_covers rows Hdocs [] [])
    as (evs' & new' & E' & Hcov).
  rewrite E in E'. simpl in E'. injection E' as _ <-.
  unfold load_profiles_from_db in Hld. simpl in E. rewrite E in Hld.
  unfold list_sort in Hld.
  rewrite (keyed_well_formed snd) in Hld.
  2:{ rewrite forallb_forall in Hwf. apply Forall_forall.
      intros x Hx. apply Hwf. rewrite <- Hmap. now apply in_map. }
  simpl in Hld. injection Hld as <-. simpl.
  destruct (Hcov r doc p Hin Hdoc Hp) as (it & Hit & Hid).
  exists it. split; [|split; [exact Hid|]].
  - rewrite map_map. apply in_map_iff.
    exists (name_key p, (it, p)). split; [reflexivity|].
    apply (Permutation_in _ (sort_by_key_perm _ _)).
    apply in_map_iff. exists (it, p). split; [reflexivity|exact Hit].
  - rewrite Forall_forall in Hfrom.
    exact (entry_from_row_profile_of _ _ _ _ (Hfrom _ Hit)).
Qed.

End SkippedRows.

(** C9.  Rows whose blob is empty, absent or does not decode and parse are
    passed over, and the others are loaded all the same.  Loading a table
    gives the same result (the same entries, of the same documents, or the
    same exception) as loading the table without these rows.  When loading
    returns, its log is the opening line, one warning for each row whose
    blob did not decode or parse, in the order of the rows, and the closing
    count (nothing is logged for an empty or absent blob); the profiles
    among the entries are exactly the profiles of the rows that hold a
    document; and every profile of every such row has its entry, under the
    identifier of its row.  When loading raises, the exception is
    [AttributeError] and comes from a document that was decoded: one of
    them is not an object, or an element of a list is not an object whose
    name, if present, is a string. *)
Theorem skipped_rows_do_not_stop_loading `{RT : Runtime} (rows : list row) :
  snd (load_profiles_from_db (Some rows)) =
  snd (load_profiles_from_db
         (Some (filter (fun r => negb (skipped r)) rows))) /\
  match snd (load_profiles_from_db (Some rows)) with
  | Ok ld =>
      fst (load_profiles_from_db (Some rows)) =
      Log DEBUG Loading_profiles_from_DB
        :: map parse_warning (filter undecodable rows)
        ++ [Log INFO (Loaded_profiles (List.length (entries ld)))] /\
      Permutation (map Some (profiles_in_rows rows)) (shown ld) /\
      (forall r doc p,
         In r rows -> row_document r = Some doc -> In p (profiles_in doc) ->
         exists it,
           In it (entries ld) /\ db_row_id it = row_id r /\
           profile_of (documents ld) it = Some p)
  | Raise e =>
      e = AttributeError /\
      (forallb is_document (row_documents rows)
       && forallb well_formed_profile (profiles_in_rows rows))%bool = false
  end.
Proof.
  split.
  - unfold load_profiles_from_db.
    pose proof (load_rows_skip rows [] []) as H.
    destruct (load_rows rows [] []) as [evs res],
             (load_rows (filter _ rows) [] []) as [evs' res'].
    simpl in H. subst res'.
    destruct res as [[ds all]|e]; [|reflexivity].
    now destruct (list_sort _ all).
  - destruct (snd (load_profiles_from_db (Some rows))) as [ld|e] eqn:Hld.
    + split; [|split].
      * unfold load_profiles_from_db in *.
        pose proof (load_rows_log rows [] []) as H.
        destruct (load_rows rows [] []) as [evs [[ds all]|e]];
          simpl in *; [|discriminate Hld].
        destruct (list_sort _ all) as [sorted|e]; simpl in *;
          [|discriminate Hld].
        injection Hld as <-. simpl. now rewrite H, length_map.
      * destruct (load_ok_elim rows ld Hld) as (Hdocs & Hwf & _).
        destruct (load_ok_intro rows Hdocs Hwf) as (evs & ld' & E & _ & Hperm).
        rewrite E in Hld. simpl in Hld. injection Hld as ->. exact Hperm.
      * exact (load_ok_covers rows ld Hld).
    + split; [exact (load_raises_attribute_error _ _ Hld)|].
      destruct (forallb is_document (row_documents rows)) eqn:Hdocs;
        [|reflexivity].
      destruct (forallb well_formed_profile (profiles_in_rows rows)) eqn:Hwf;
        [|reflexivity].
      destruct (load_ok_intro rows Hdocs Hwf) as (evs & ld' & E & _).
      rewrite E in Hld. discriminate Hld.
Qed.

Lemma skipped_rows_do_not_stop_loading_witness :
  map row_id (filter (skipped (RT := Demo.rt)) Demo.table) = [2; 3; 5]%Z /\
  Permutation (map Some (profiles_in_rows (RT := Demo.rt) Demo.table))
              (map (profile_of (docs Demo.s0)) (profiles Demo.s0)) /\
  List.length (profiles Demo.s0) = 4 /\
  forall r doc p,
    In r Demo.table -> row_document (RT := Demo.rt) r = Some doc ->
    In p (profiles_in doc) ->
    exists it,
      In it (profiles Demo.s0) /\ db_row_id it = row_id r /\
      profile_of (docs Demo.s0) it = Some p.
Proof.
  split; [reflexivity|].
  assert (Hld : snd (load_profiles_from_db (RT := Demo.rt) (Some Demo.table))
                = Ok {| documents := docs Demo.s0;
                        entries := profiles Demo.s0 |})
    by (vm_compute; reflexivity).
  destruct (skipped_rows_do_not_stop_loading (RT := Demo.rt) Demo.table)
    as [_ H].
  rewrite Hld in H. destruct H as (_ & Hperm & Hall).
  split; [exact Hperm|]. split; [reflexivity|exact Hall].
Defined.

Section SaveThenReload.

Context {RT : Runtime}.

Lemma load_ok_entry (rows : list row) (ld : loaded) (it : item) :
  snd (load_profiles_from_db (Some rows)) = Ok ld ->
  In it (entries ld) ->
  exists prof, entry_from_row rows (documents ld) it prof.
Proof.
  intros Hld Hin.
  destruct (load_ok_inv rows ld Hld) as (new & -> & _ & Hfrom & _ & Hents).
  rewrite Hents, map_map in Hin. apply in_map_iff in Hin.
  destruct Hin as ([k [it' p]] & <- & Hin). simpl.
  apply (Permutation_in _ (Permutation_sym (sort_by_key_perm _ _))) in Hin.
  apply in_map_iff in Hin. destruct Hin as (x & E & Hin).
  injection E as _ ->. rewrite Forall_forall in Hfrom.
  exists p. exact (Hfrom _ Hin).
Qed.

(** The heart of add, delete and save: in a state that mirrors a table
    with distinct identifiers, saving the document of an entry with its
    list replaced by [l'] and loading again gives the entries of the table
    in which that one list was replaced, provided the saved document reads
    back as it was written. *)
Lemma save_then_reload (s : state) rows it top sec l p (l' : list json)
    (new_blob : bytes) (k : M unit) (s1 : state) :
  in_sync s -> DATA s = Some rows -> NoDup (map row_id rows) ->
  In it (profiles s) -> points (docs s) it top sec l p ->
  (forall q, In q l' -> In q l \/ well_formed_profile q = true) ->
  json_dumps (with_apps_list top sec l') = Some new_blob ->
  new_blob <> [] ->
  json_loads new_blob = Some (with_apps_list top sec l') ->
  DATA s1 = DATA s ->
  exists s3 before after,
    bind (call_save_profile_to_db (db_row_id it) (with_apps_list top sec l'))
         (fun _ => bind reload (fun _ => k)) s1 = k s3 /\
    state_ok s3 = true /\ in_sync s3 /\
    selected_profile_index s3 = selected_profile_index s1 /\
    Permutation (map Some (before ++ l ++ after))
                (map (profile_of (docs s)) (profiles s)) /\
    Permutation (map Some (before ++ l' ++ after))
                (map (profile_of (docs s3)) (profiles s3)).
Proof.
  intros Hsync Hdata Hnd Hin H Hl' Hdumps Hne Hloads Hdata1.
  unfold in_sync in Hsync. rewrite Hdata in Hsync.
  destruct (load_ok_entry rows _ it Hsync Hin) as (p0 & r0 & doc & Hr0 & Hid
                                                   & Hdoc & Hd & _).
  simpl in Hd. pose proof H as (Hd' & Ht & Hs & Hp).
  assert (doc = JObj top) as -> by congruence.
  destruct (sql_update_one_row new_blob rows r0 Hnd Hr0)
    as (pre & post & Hrows & Hupd).
  rewrite Hid in Hupd.
  destruct (load_ok_elim rows _ Hsync) as (Hdocs & Hwf & _).
  assert (Hpl : profiles_in (JObj top) = l).
  { unfold profiles_in. now rewrite (points_apps_list_of _ _ _ _ _ _ H). }
  assert (Hpl' : profiles_in (with_apps_list top sec l') = l').
  { unfold profiles_in, with_apps_list, apps_list_of.
    now rewrite !dict_get_set_same. }
  assert (Hold : profiles_in_rows rows
                 = profiles_in_rows pre ++ l ++ profiles_in_rows post).
  { rewrite Hrows, profiles_in_rows_app, profiles_in_rows_cons, Hdoc, Hpl.
    reflexivity. }
  set (rows' := sql_update new_blob (db_row_id it) rows) in *.
  assert (Hnew : profiles_in_rows rows'
                 = profiles_in_rows pre ++ l' ++ profiles_in_rows post).
  { rewrite Hupd, profiles_in_rows_app, profiles_in_rows_cons.
    rewrite (row_document_written _ _ _ Hne Hloads), Hpl'. reflexivity. }
  assert (Hdocs' : forallb is_document (row_documents rows') = true).
  { rewrite Hupd, row_documents_app, row_documents_cons.
    rewrite (row_document_written _ _ _ Hne Hloads).
    rewrite Hrows, row_documents_app, row_documents_cons, Hdoc in Hdocs.
    rewrite !forallb_app in *. simpl in *. exact Hdocs. }
  assert (Hwf' : forallb well_formed_profile (profiles_in_rows rows') = true).
  { rewrite Hnew. rewrite Hold in Hwf. rewrite !forallb_app in *.
    apply andb_prop in Hwf. destruct Hwf as [Hpre Hrest].
    apply andb_prop in Hrest. destruct Hrest as [Hwl Hpost].
    rewrite Hpre, Hpost, andb_true_r. simpl.
    apply forallb_forall. intros q Hq.
    destruct (Hl' q Hq) as [Hq'|Hq']; [|exact Hq'].
    rewrite forallb_forall in Hwl. now apply Hwl. }
  destruct (load_ok_intro rows' Hdocs' Hwf') as (evs & ld & El & _ & Hperm').
  destruct (load_ok_intro rows Hdocs Hwf) as (evs0 & ld0 & El0 & _ & Hperm0).
  rewrite El0 in Hsync. simpl in Hsync. injection Hsync as ->.
  simpl in Hperm0.
  pose proof (save_reload_run (db_row_id it) (with_apps_list top sec l')
                k s1) as Hrun.
  assert (Esave : snd (save_profile_to_db (DATA s1) (db_row_id it)
                         (with_apps_list top sec l')) = Some rows').
  { unfold save_profile_to_db. now rewrite Hdumps, Hdata1, Hdata. }
  rewrite Esave, El in Hrun.
  eexists _, (profiles_in_rows pre), (profiles_in_rows post).
  split; [exact Hrun|].
  split.
  { exact (load_state_ok (Some rows') ld (f_equal snd El)). }
  split.
  { unfold in_sync. cbn [DATA docs profiles set_profiles add_events set_DATA].
    rewrite El. simpl. now destruct ld. }
  split; [reflexivity|]. split.
  - now rewrite <- Hold.
  - simpl. now rewrite <- Hnew.
Qed.

End SaveThenReload.

(* ================================================================== *)
(** * Add, delete and save, followed by the reload *)

Lemma shown_has_entry (ds : list json) (ents : list item) (L : list json)
    (q : json) :
  Permutation (map Some L) (map (profile_of ds) ents) -> In q L ->
  exists it, In it ents /\ profile_of ds it = Some q.
Proof.
  intros Hperm Hq.
  assert (Hin : In (Some q) (map (profile_of ds) ents)).
  { apply (Permutation_in _ Hperm). now apply in_map. }
  apply in_map_iff in Hin. destruct Hin as (it & E & Hin). eauto.
Qed.

Lemma points_unique ds it top sec l p top' sec' l' p' :
  points ds it top sec l p -> points ds it top' sec' l' p' ->
  top' = top /\ sec' = sec /\ l' = l /\ p' = p.
Proof.
  intros (Hd & Ht & Hs & Hp) (Hd' & Ht' & Hs' & Hp').
  assert (top' = top) as -> by congruence.
  assert (sec' = sec) as -> by congruence.
  assert (l' = l) as -> by congruence.
  repeat split. congruence.
Qed.

(** X5.  Create, then load.  In a state that mirrors a table with distinct
    row identifiers and has at least one entry, when the document that
    [add_entry] saves reads back as it was written, [add_entry] returns,
    memory again mirrors the table, the profiles shown are the former ones
    and the new profile, so there is one entry more, and the selection is
    on the first entry named "New Entry", whose name fills the form. *)
Theorem add_entry_then_load_has_one_more `{RT : Runtime}
    (s : state) rows it rest top sec l new_blob :
  in_sync s -> DATA s = Some rows -> NoDup (map row_id rows) ->
  profiles s = it :: rest ->
  document_of (docs s) it = Some (JObj top) ->
  dict_get "applications" top = Some (JObj sec) ->
  dict_get "applications" sec = Some (JArr l) ->
  json_dumps (with_apps_list top sec (l ++ [new_profile])) = Some new_blob ->
  new_blob <> [] ->
  json_loads new_blob = Some (with_apps_list top sec (l ++ [new_profile])) ->
  exists before after i,
    fst (add_entry s) = Ok tt /\
    in_sync (snd (add_entry s)) /\
    Permutation (map Some (before ++ l ++ after))
                (map (profile_of (docs s)) (profiles s)) /\
    Permutation (map Some (before ++ (l ++ [new_profile]) ++ after))
                (map (profile_of (docs (snd (add_entry s))))
                     (profiles (snd (add_entry s)))) /\
    List.length (profiles (snd (add_entry s))) = S (List.length (profiles s)) /\
    selected_profile_index (snd (add_entry s)) = Some i /\
    first_named "New Entry" (docs (snd (add_entry s))) 0
                (profiles (snd (add_entry s))) = Some i /\
    name_entry_var (snd (add_entry s)) = "New Entry".
Proof.
  intros Hsync Hdata Hnd Hp Hd Ht Hs Hdumps Hne Hloads.
  pose proof (in_sync_state_ok s Hsync) as Hok.
  pose proof (add_entry_run s Hok) as Hrun. rewrite Hp in Hrun.
  destruct Hrun as (top' & sec' & l' & fields & H & Hrun).
  assert (top' = top) as -> by (destruct H as (Hd' & _); congruence).
  assert (sec' = sec) as -> by (destruct H as (_ & Ht' & _); congruence).
  assert (l' = l) as -> by (destruct H as (_ & _ & Hs' & _); congruence).
  rewrite Hrun.
  destruct (save_then_reload s rows it top sec l (JObj fields)
              (l ++ [new_profile]) new_blob (select_by_name "New Entry")
              (set_docs (list_set (entire_json it)
                           (with_apps_list top sec (l ++ [new_profile]))
                           (docs s)) s))
    as (s3 & before & after & -> & Hok3 & Hsync3 & _ & Hperm & Hperm3);
    auto.
  { rewrite Hp. now left. }
  { intros q Hq. apply in_app_or in Hq.
    destruct Hq as [Hq|[<-|[]]]; [left; exact Hq|right; reflexivity]. }
  pose proof (select_by_name_ok s3 "New Entry" Hok3) as Hsel.
  pose proof (first_named_spec "New Entry" (docs s3) (profiles s3) 0) as Hf.
  destruct (first_named "New Entry" (docs s3) 0 (profiles s3)) as [i|] eqn:Ei.
  - destruct Hsel as (s' & -> & Hsame & _ & Hsi & Hname).
    pose proof Hsame as (_ & Hdocs & Hprofs & _).
    exists before, after, i. simpl.
    rewrite Hdocs, Hprofs, Ei.
    split; [reflexivity|]. split.
    { exact (in_sync_same_store _ _ Hsame Hsync3). }
    split; [exact Hperm|]. split; [exact Hperm3|]. split; [|auto].
    apply Permutation_length in Hperm, Hperm3.
    rewrite !length_map, !length_app in *. simpl in *. lia.
  - exfalso.
    destruct (shown_has_entry _ _ _ new_profile Hperm3) as (it' & Hin & Hit').
    { apply in_or_app. right. apply in_or_app. left.
      apply in_or_app. right. now left. }
    specialize (Hf it' Hin). unfold named in Hf. rewrite Hit' in Hf.
    discriminate Hf.
Qed.

(** X6.  Delete, then load.  In a state that mirrors a table with distinct
    row identifiers, with an entry selected and the deletion confirmed,
    when the document that [delete_entry] saves reads back as it was
    written, [delete_entry] returns, memory again mirrors the table, the
    profiles shown are the former ones without one element of the entry's
    list (the first that is the entry's record or compares equal to it,
    at or before the record's position), so there is one entry less, and
    the selection and the form are cleared. *)
Theorem delete_entry_then_load_has_one_less `{RT : Runtime}
    (s : state) rows idx it top sec l p new_blob :
  in_sync s -> DATA s = Some rows -> NoDup (map row_id rows) ->
  selected_profile_index s = Some idx ->
  nth_error (profiles s) idx = Some it ->
  points (docs s) it top sec l p ->
  json_dumps (with_apps_list top sec (remove_if_in (profile it) p l))
    = Some new_blob ->
  new_blob <> [] ->
  json_loads new_blob
    = Some (with_apps_list top sec (remove_if_in (profile it) p l)) ->
  exists before after b y a,
    l = b ++ y :: a /\ List.length b <= profile it /\
    same_or_equal (profile it) p (List.length b) y = true /\
    (forall j z, nth_error b j = Some z ->
                 same_or_equal (profile it) p j z = false) /\
    fst (delete_entry true s) = Ok tt /\
    in_sync (snd (delete_entry true s)) /\
    Permutation (map Some (before ++ l ++ after))
                (map (profile_of (docs s)) (profiles s)) /\
    Permutation (map Some (before ++ (b ++ a) ++ after))
                (map (profile_of (docs (snd (delete_entry true s))))
                     (profiles (snd (delete_entry true s)))) /\
    S (List.length (profiles (snd (delete_entry true s))))
      = List.length (profiles s) /\
    selected_profile_index (snd (delete_entry true s)) = None /\
    name_entry_var (snd (delete_entry true s)) = "" /\
    app_path_var (snd (delete_entry true s)) = "" /\
    icon_path_var (snd (delete_entry true s)) = "".
Proof.
  intros Hsync Hdata Hnd Hsel Hit H Hdumps Hne Hloads.
  pose proof (in_sync_state_ok s Hsync) as Hok.
  pose proof (delete_entry_run s Hok) as Hrun. rewrite Hsel, Hit in Hrun.
  destruct Hrun as (top' & sec' & l' & fields & H' & _ & Hrun).
  destruct (points_unique _ _ _ _ _ _ _ _ _ _ H H') as (-> & -> & -> & <-).
  rewrite Hrun. clear Hrun H'.
  destruct (list_index_from_found (profile it) (JObj fields) l)
    as (i & Ei & Hle); [now destruct H as (_ & _ & _ & Hp)|].
  pose proof (list_index_from_spec (profile it) (JObj fields) l 0) as Hspec.
  rewrite Ei in Hspec.
  destruct Hspec as (b & y & a & Hl & Hi & Hy & Hb & Hr). simpl in Hi.
  assert (Erem : remove_if_in (profile it) (JObj fields) l = b ++ a).
  { unfold remove_if_in. rewrite Ei, Hi. exact Hr. }
  rewrite Erem in *.
  match goal with |- context [bind (call_save_profile_to_db _ _)
                                   (fun _ => bind reload (fun _ => ?k)) ?s1] =>
    destruct (save_then_reload s rows it top sec l (JObj fields)
                (b ++ a) new_blob k s1)
      as (s3 & before & after & -> & Hok3 & Hsync3 & _ & Hperm & Hperm3);
      auto
  end.
  { eapply nth_error_In. exact Hit. }
  { intros q Hq. left. rewrite Hl. apply in_app_or in Hq.
    apply in_or_app. destruct Hq; [now left|right; now right]. }
  exists before, after, b, y, a. simpl.
  split; [exact Hl|]. split; [lia|]. split; [now rewrite <- Hi|].
  split; [exact Hb|]. split; [reflexivity|]. split.
  { eapply in_sync_same_store; [|exact Hsync3]. repeat split. }
  split; [exact Hperm|]. split; [exact Hperm3|]. split; [|auto].
  apply Permutation_length in Hperm, Hperm3.
  rewrite !length_map, !length_app in *. rewrite Hl in Hperm.
  rewrite !length_app in Hperm. simpl in *. lia.
Qed.

(** X7.  Update, then load.  In a state that mirrors a table with distinct
    row identifiers, with an entry selected, when the document that
    [save_changes] saves reads back as it was written, [save_changes]
    returns, memory again mirrors the table, the profiles shown are the
    former ones with the selected profile carrying the three typed values,
    so the number of entries is the same, and the selection is on the
    first entry that has the typed name. *)
Theorem save_changes_then_load_keeps_selection `{RT : Runtime}
    (s : state) rows idx it top sec l fields new_blob :
  in_sync s -> DATA s = Some rows -> NoDup (map row_id rows) ->
  selected_profile_index s = Some idx ->
  nth_error (profiles s) idx = Some it ->
  points (docs s) it top sec l (JObj fields) ->
  json_dumps (with_apps_list top sec
                (list_set (profile it)
                   (JObj (edited (name_entry_var s) (app_path_var s)
                                 (icon_path_var s) fields)) l))
    = Some new_blob ->
  new_blob <> [] ->
  json_loads new_blob
    = Some (with_apps_list top sec
              (list_set (profile it)
                 (JObj (edited (name_entry_var s) (app_path_var s)
                               (icon_path_var s) fields)) l)) ->
  exists before after i,
    fst (save_changes s) = Ok tt /\
    in_sync (snd (save_changes s)) /\
    Permutation (map Some (before ++ l ++ after))
                (map (profile_of (docs s)) (profiles s)) /\
    Permutation
      (map Some
         (before ++
          list_set (profile it)
            (JObj (edited (name_entry_var s) (app_path_var s)
                          (icon_path_var s) fields)) l
          ++ after))
      (map (profile_of (docs (snd (save_changes s))))
           (profiles (snd (save_changes s)))) /\
    List.length (profiles (snd (save_changes s))) = List.length (profiles s) /\
    selected_profile_index (snd (save_changes s)) = Some i /\
    first_named (name_entry_var s) (docs (snd (save_changes s))) 0
                (profiles (snd (save_changes s))) = Some i /\
    name_entry_var (snd (save_changes s)) = name_entry_var s.
Proof.
  intros Hsync Hdata Hnd Hsel Hit H Hdumps Hne Hloads.
  pose proof (in_sync_state_ok s Hsync) as Hok.
  pose proof (save_changes_run s Hok) as Hrun. rewrite Hsel, Hit in Hrun.
  destruct Hrun as (top' & sec' & l' & fields' & H' & _ & Hrun).
  destruct (points_unique _ _ _ _ _ _ _ _ _ _ H H') as (-> & -> & -> & E).
  injection E as ->. rewrite Hrun. clear Hrun H'.
  set (p' := JObj (edited (name_entry_var s) (app_path_var s)
                          (icon_path_var s) fields)) in *.
  match goal with |- context [bind (call_save_profile_to_db _ _)
                                   (fun _ => bind reload (fun _ => ?k)) ?s1] =>
    destruct (save_then_reload s rows it top sec l (JObj fields)
                (list_set (profile it) p' l) new_blob k s1)
      as (s3 & before & after & -> & Hok3 & Hsync3 & _ & Hperm & Hperm3);
      auto
  end.
  { eapply nth_error_In. exact Hit. }
  { intros q Hq. apply In_nth_error in Hq. destruct Hq as (j & Hj).
    destruct (Nat.eq_dec (profile it) j) as [<-|Hne'].
    - right. destruct H as (_ & _ & _ & Hp).
      rewrite nth_error_list_set_same in Hj
        by (apply nth_error_Some; congruence).
      injection Hj as <-. apply well_formed_edited.
    - left. rewrite nth_error_list_set_other in Hj by exact Hne'.
      eapply nth_error_In. exact Hj. }
  pose proof (select_by_name_ok s3 (name_entry_var s) Hok3) as Hselect.
  pose proof (first_named_spec (name_entry_var s) (docs s3) (profiles s3) 0)
    as Hf.
  destruct (first_named (name_entry_var s) (docs s3) 0 (profiles s3))
    as [i|] eqn:Ei.
  - destruct Hselect as (s' & E & Hsame & _ & Hsi & Hname).
    pose proof Hsame as (_ & Hdocs & Hprofs & _).
    rewrite (bind_ok _ _ _ _ _ E).
    exists before, after, i. simpl.
    rewrite Hdocs, Hprofs, Ei.
    split; [reflexivity|]. split.
    { apply in_sync_add_events.
      exact (in_sync_same_store _ _ Hsame Hsync3). }
    split; [exact Hperm|]. split; [exact Hperm3|]. split; [|auto].
    apply Permutation_length in Hperm, Hperm3.
    rewrite !length_map, !length_app, ?length_list_set in *. lia.
  - exfalso.
    destruct (shown_has_entry _ _ _ p' Hperm3) as (it' & Hin & Hit').
    { apply in_or_app. right. apply in_or_app. left.
      destruct H as (_ & _ & _ & Hp).
      eapply nth_error_In.
      apply nth_error_list_set_same, nth_error_Some. congruence. }
    specialize (Hf it' Hin). unfold named in Hf. rewrite Hit' in Hf.
    unfold p', edited in Hf. simpl in Hf.
    rewrite !dict_get_set_other in Hf by discriminate.
    rewrite dict_get_set_same, String.eqb_refl in Hf. discriminate Hf.
Qed.

Lemma demo_table_ids : NoDup (map row_id Demo.table).
Proof. repeat constructor; simpl; intuition discriminate. Qed.

Lemma demo_table_e_ids : NoDup (map row_id Demo.table_e).
Proof. repeat constructor; simpl; intuition discriminate. Qed.

Lemma add_entry_then_load_has_one_more_witness :
  fst (add_entry (RT := Demo2.rt) Demo.s0) = Ok tt /\
  List.length (profiles (snd (add_entry (RT := Demo2.rt) Demo.s0))) = 5 /\
  name_entry_var (snd (add_entry (RT := Demo2.rt) Demo.s0)) = "New Entry".
Proof.
  assert (Hsync : in_sync (RT := Demo2.rt) Demo.s0)
    by (vm_compute; reflexivity).
  assert (Hdumps : json_dumps (Runtime := Demo2.rt)
                     (with_apps_list Demo2.top_b Demo2.sec_b
                        (Demo2.l_b ++ [new_profile]))
                   = Some Demo2.blob_b_added)
    by (vm_compute; reflexivity).
  assert (Hne : Demo2.blob_b_added <> []) by discriminate.
  assert (Hloads : json_loads (Runtime := Demo2.rt) Demo2.blob_b_added
                   = Some (with_apps_list Demo2.top_b Demo2.sec_b
                             (Demo2.l_b ++ [new_profile])))
    by (vm_compute; reflexivity).
  destruct (add_entry_then_load_has_one_more (RT := Demo2.rt)
              Demo.s0 Demo.table
              {| db_row_id := 4; entire_json := 1; profile := 0 |}
              (tl (profiles Demo.s0)) Demo2.top_b Demo2.sec_b Demo2.l_b
              Demo2.blob_b_added
              Hsync eq_refl demo_table_ids eq_refl eq_refl eq_refl eq_refl
              Hdumps Hne Hloads)
    as (before & after & i & Hret & _ & _ & _ & Hlen & _ & _ & Hname).
  split; [exact Hret|]. split; [exact Hlen|exact Hname].
Defined.

Lemma delete_entry_then_load_has_one_less_witness :
  fst (delete_entry (RT := Demo2.rt) true Demo2.s_e3) = Ok tt /\
  S (List.length (profiles (snd (delete_entry (RT := Demo2.rt) true
                                   Demo2.s_e3)))) = 4 /\
  selected_profile_index (snd (delete_entry (RT := Demo2.rt) true
                                 Demo2.s_e3)) = None.
Proof.
  assert (Hsync : in_sync (RT := Demo2.rt) Demo2.s_e3)
    by (vm_compute; reflexivity).
  assert (Hdumps : json_dumps (Runtime := Demo2.rt)
                     (with_apps_list Demo2.top_e Demo2.sec_e
                        (remove_if_in 3
                           (JObj [("isCustom", JInt 1); ("name", JStr "dup")])
                           Demo2.l_e))
                   = Some Demo2.blob_e_deleted)
    by (vm_compute; reflexivity).
  assert (Hne : Demo2.blob_e_deleted <> []) by discriminate.
  assert (Hloads : json_loads (Runtime := Demo2.rt) Demo2.blob_e_deleted
                   = Some (with_apps_list Demo2.top_e Demo2.sec_e
                             (remove_if_in 3
                                (JObj [("isCustom", JInt 1);
                                       ("name", JStr "dup")])
                                Demo2.l_e)))
    by (vm_compute; reflexivity).
  destruct (delete_entry_then_load_has_one_less (RT := Demo2.rt)
              Demo2.s_e3 Demo.table_e 3
              {| db_row_id := 7; entire_json := 0; profile := 3 |}
              Demo2.top_e Demo2.sec_e Demo2.l_e
              (JObj [("isCustom", JInt 1); ("name", JStr "dup")])
              Demo2.blob_e_deleted
              Hsync eq_refl demo_table_e_ids eq_refl eq_refl
              (conj eq_refl (conj eq_refl (conj eq_refl eq_refl)))
              Hdumps Hne Hloads)
    as (before & after & b & y & a & _ & _ & _ & _ & Hret & _ & _ & _ & Hlen
        & Hsel & _).
  split; [exact Hret|]. split; [exact Hlen|exact Hsel].
Defined.

Lemma save_changes_then_load_keeps_selection_witness :
  fst (save_changes (RT := Demo2.rt) Demo.s1) = Ok tt /\
  List.length (profiles (snd (save_changes (RT := Demo2.rt) Demo.s1))) = 4 /\
  name_entry_var (snd (save_changes (RT := Demo2.rt) Demo.s1)) = "Renamed".
Proof.
  assert (Hsync : in_sync (RT := Demo2.rt) Demo.s1)
    by (vm_compute; reflexivity).
  assert (Hdumps : json_dumps (Runtime := Demo2.rt)
                     (with_apps_list Demo2.top_a Demo2.sec_a
                        (list_set 1
                           (JObj (edited "Renamed" "D:/alpha.exe" "/x/new.bmp"
                                         Demo2.fields_alpha)) Demo2.l_a))
                   = Some Demo2.blob_a_saved)
    by (vm_compute; reflexivity).
  assert (Hne : Demo2.blob_a_saved <> []) by discriminate.
  assert (Hloads : json_loads (Runtime := Demo2.rt) Demo2.blob_a_saved
                   = Some (with_apps_list Demo2.top_a Demo2.sec_a
                             (list_set 1
                                (JObj (edited "Renamed" "D:/alpha.exe"
                                              "/x/new.bmp"
                                              Demo2.fields_alpha))
                                Demo2.l_a)))
    by (vm_compute; reflexivity).
  destruct (save_changes_then_load_keeps_selection (RT := Demo2.rt)
              Demo.s1 Demo.table 1
              {| db_row_id := 1; entire_json := 0; profile := 1 |}
              Demo2.top_a Demo2.sec_a Demo2.l_a Demo2.fields_alpha
              Demo2.blob_a_saved
              Hsync eq_refl demo_table_ids eq_refl eq_refl
              (conj eq_refl (conj eq_refl (conj eq_refl eq_refl)))
              Hdumps Hne Hloads)
    as (before & after & i & Hret & _ & _ & _ & Hlen & _ & _ & Hname).
  split; [exact Hret|]. split; [exact Hlen|exact Hname].
Defined.

(* ================================================================== *)
(** * The list box and the form *)

Lemma names_of_ok (ds : list json) (l : list item) (s : state) :
  forallb (entry_ok ds) l = true ->
  exists names,
    names_of ds l s = (Ok names, s) /\
    Forall2 (fun it line =>
               exists fields,
                 profile_of ds it = Some (JObj fields) /\
                 line = dict_get_default "name" (JStr "(Unnamed)") fields)
            l names.
Proof.
  induction l as [|it l IH]; intros Hok.
  - exists []. split; [reflexivity|constructor].
  - simpl in Hok. apply andb_prop in Hok. destruct Hok as [Hit Hl].
    destruct (IH Hl) as (names & E & Hall).
    destruct (entry_ok_points _ _ Hit) as (top & sec & l0 & fields & H & _).
    pose proof (points_profile_of _ _ _ _ _ _ H) as Hp.
    exists (dict_get_default "name" (JStr "(Unnamed)") fields :: names).
    split.
    + simpl. rewrite Hp. simpl or_raise.
      rewrite (bind_ok (ret _) _ s s _ eq_refl). simpl as_dict.
      rewrite (bind_ok (ret _) _ s s _ eq_refl).
      rewrite (bind_ok _ _ _ _ _ E). reflexivity.
    + constructor; [|exact Hall]. exists fields. auto.
Qed.

(** X8.  In a state whose entries are in order, [populate_list] returns
    one line per entry, in the order of the entries, and changes nothing.
    Selecting line [idx] returns and selects entry [idx]; the name field of
    the form then holds the text of that line, except for an entry without
    a name: its line reads "(Unnamed)" and the name field is empty. *)
Theorem list_lines_name_the_entries `{RT : Runtime} (s : state) :
  state_ok s = true ->
  exists names,
    populate_list s = (Ok names, s) /\
    List.length names = List.length (profiles s) /\
    forall idx line,
      nth_error names idx = Some line ->
      exists it fields s',
        nth_error (profiles s) idx = Some it /\
        profile_of (docs s) it = Some (JObj fields) /\
        on_profile_select (Some idx) s = (Ok tt, s') /\
        selected_profile_index s' = Some idx /\
        match dict_get "name" fields with
        | Some v => line = v /\ v = JStr (name_entry_var s')
        | None => line = JStr "(Unnamed)" /\ name_entry_var s' = ""
        end.
Proof.
  intros Hok.
  destruct (names_of_ok (docs s) (profiles s) s Hok) as (names & E & Hall).
  exists names. split; [|split].
  - unfold populate_list. now rewrite (bind_ok get _ s s s eq_refl).
  - symmetry. exact (Forall2_length Hall).
  - intros idx line Hline.
    assert (Hit : exists it, nth_error (profiles s) idx = Some it /\
                             exists fields,
                               profile_of (docs s) it = Some (JObj fields) /\
                               line = dict_get_default "name"
                                        (JStr "(Unnamed)") fields).
    { clear -Hall Hline. revert idx Hline.
      induction Hall as [|it l0 ps names0 Hx _ IH]; intros [|idx] Hline;
        simpl in *; try discriminate.
      - injection Hline as <-. eauto.
      - now apply IH. }
    destruct Hit as (it & Hit & fields0 & Hp0 & ->).
    destruct (entry_ok_points _ _ (state_ok_nth _ _ _ Hok Hit))
      as (top & sec & l & fields & H & Hwf).
    rewrite (points_profile_of _ _ _ _ _ _ H) in Hp0.
    injection Hp0 as <-.
    exists it, fields. eexists. split; [exact Hit|].
    split; [exact (points_profile_of _ _ _ _ _ _ H)|].
    split; [exact (on_profile_select_ok s idx it top sec l fields Hit H)|].
    split; [reflexivity|].
    simpl. unfold dict_get_default. simpl in Hwf.
    destruct (dict_get "name" fields) as [[]|]; try discriminate Hwf;
      simpl; auto.
Qed.

Lemma list_lines_name_the_entries_witness :
  exists names,
    populate_list Demo.s0 = (Ok names, Demo.s0) /\
    List.length names = 4.
Proof.
  assert (Hok : state_ok Demo.s0 = true) by reflexivity.
  destruct (list_lines_name_the_entries (RT := Demo.rt) Demo.s0 Hok)
    as (names & E & Hlen & _).
  exists names. split; [exact E|exact Hlen].
Defined.

(* ================================================================== *)
(** * A browse that does not go through *)

Lemma add_events_nil (s : state) : add_events [] s = s.
Proof. destruct s. unfold add_events. simpl. now rewrite app_nil_r. Qed.

Lemma item_at_state (idx : nat) (s : state) : snd (item_at idx s) = s.
Proof.
  unfold item_at, bind, get, or_raise, ret, raise.
  destruct (nth_error (profiles s) idx) as [it|]; [|reflexivity].
  destruct (document_of (docs s) it); [|reflexivity].
  now destruct (profile_of (docs s) it).
Qed.

(** X9.  A browse that does not go through changes nothing: without a
    selection, with the dialog cancelled, with a file that does not open as
    an image or with a bitmap that cannot be written, [browse_icon] leaves
    the table, the loaded documents and entries, the selection and the form
    as they are; it only adds events, none of which is a written bitmap or
    a call of [save_profile_to_db]. *)
Theorem browse_icon_failure_changes_nothing `{RT : Runtime}
    (s : state) (path : string) (opened saved : bool) :
  selected_profile_index s = None \/ path = "" \/ opened = false \/
  saved = false ->
  exists evs,
    snd (browse_icon path opened saved s) = add_events evs s /\
    saves evs = [] /\
    forall final_path, ~ In (ImgSave final_path) evs.
Proof.
  intros Hcase.
  assert (Hnone : exists evs : list event,
             s = add_events evs s /\ saves evs = [] /\
             forall final_path, ~ In (ImgSave final_path) evs).
  { exists []. rewrite add_events_nil. repeat split. intros p []. }
  assert (Hemit : forall evs : list event,
             saves evs = [] ->
             (forall final_path, ~ In (ImgSave final_path) evs) ->
             exists evs' : list event,
               snd (emit evs s) = add_events evs' s /\ saves evs' = [] /\
               forall final_path, ~ In (ImgSave final_path) evs').
  { intros evs H1 H2. exists evs. repeat split; assumption. }
  unfold browse_icon. rewrite (bind_ok get _ s s s eq_refl).
  destruct (selected_profile_index s) as [idx|].
  2:{ apply Hemit; [reflexivity|]. intros p [H|[]]. discriminate H. }
  destruct (PyStr.truthy path) eqn:Hpath; [|exact Hnone].
  change (negb true) with false. cbv iota.
  destruct opened.
  2:{ apply Hemit; [reflexivity|].
      intros p [H|[H|[]]]; discriminate H. }
  change (negb true) with false. cbv iota.
  destruct saved.
  { destruct Hcase as [H|[->|[H|H]]]; discriminate. }
  change (negb false) with true. cbv iota.
  pose proof (item_at_state idx s) as Hs.
  destruct (item_at idx s) as [[[[it doc] prof]|e] s'] eqn:E;
    simpl in Hs; subst s'.
  2:{ rewrite (bind_raise _ _ _ _ _ E). exact Hnone. }
  rewrite (bind_ok _ _ _ _ _ E). cbv beta iota.
  destruct prof as [| | | | | |fields];
    try (rewrite (bind_raise _ _ s s AttributeError) by reflexivity;
         exact Hnone).
  rewrite (bind_ok _ _ s s fields) by reflexivity.
  destruct (dict_get_default "posterPath" (JStr "") fields) as [| | | |t| |];
    try (rewrite (bind_raise _ _ s s AttributeError) by reflexivity;
         exact Hnone).
  rewrite (bind_ok _ _ s s t) by reflexivity.
  destruct (dict_get_default "name" (JStr "") fields) as [| | | |u| |];
    try (rewrite (bind_raise _ _ s s AttributeError) by reflexivity;
         exact Hnone).
  rewrite (bind_ok _ _ s s u) by reflexivity.
  apply Hemit; [reflexivity|].
  intros p [H|[H|[]]]; discriminate H.
Qed.

Lemma browse_icon_failure_changes_nothing_witness :
  exists evs,
    snd (browse_icon (RT := Demo.rt) "/x/pic.png" true false Demo.s1)
    = add_events evs Demo.s1 /\
    saves evs = [].
Proof.
  destruct (browse_icon_failure_changes_nothing (RT := Demo.rt)
              Demo.s1 "/x/pic.png" true false
              (or_intror (or_intror (or_intror eq_refl))))
    as (evs & E & Hs & _).
  exists evs. split; [exact E|exact Hs].
Defined.

(* ================================================================== *)
(** * Saving what was not edited *)

Lemma dict_set_same (k : string) (v : json) (m : dict) :
  dict_get k m = Some v -> dict_set k v m = m.
Proof.
  induction m as [|[k' v'] m IH]; simpl; [discriminate|].
  destruct (String.eqb k' k) eqn:E.
  - intros H. injection H as ->. apply String.eqb_eq in E. now subst.
  - intros H. now rewrite IH.
Qed.

Lemma list_set_same {A : Type} (i : nat) (x : A) (l : list A) :
  nth_error l i = Some x -> list_set i x l = l.
Proof.
  revert i. induction l as [|y l IH]; intros [|i]; simpl; try discriminate.
  - now intros [= ->].
  - intros H. now rewrite IH.
Qed.

Lemma edited_same (n a p : string) (fields : dict) :
  dict_get "name" fields = Some (JStr n) ->
  dict_get "applicationPath" fields = Some (JStr a) ->
  dict_get "posterPath" fields = Some (JStr p) ->
  edited n a p fields = fields.
Proof.
  intros Hn Ha Hp. unfold edited.
  rewrite (dict_set_same "name" _ _ Hn), (dict_set_same _ _ _ Ha).
  exact (dict_set_same _ _ _ Hp).
Qed.

(** X10.  Selecting an entry whose name, applicationPath and posterPath
    are strings and saving without typing anything writes the entry's
    document back as it is: [save_profile_to_db] is called once, for the
    row of the entry, with the unchanged document. *)
Theorem select_then_save_writes_document_back `{RT : Runtime}
    (s : state) idx it top sec l fields (n a p : string) :
  nth_error (profiles s) idx = Some it ->
  points (docs s) it top sec l (JObj fields) ->
  dict_get "name" fields = Some (JStr n) ->
  dict_get "applicationPath" fields = Some (JStr a) ->
  dict_get "posterPath" fields = Some (JStr p) ->
  fst (on_profile_select (Some idx) s) = Ok tt /\
  saves (events (snd (save_changes (snd (on_profile_select (Some idx) s)))))
  = saves (events s) ++ [(db_row_id it, JObj top)].
Proof.
  intros Hit H Hn Ha Hp.
  rewrite (on_profile_select_ok s idx it top sec l fields Hit H).
  split; [reflexivity|]. simpl snd.
  unfold dict_get_default. rewrite Hn, Ha, Hp. simpl var_text.
  match goal with |- context [save_changes ?s1] => set (s1' := s1) end.
  rewrite (save_changes_saves s1' idx it top sec l fields eq_refl Hit H).
  simpl. f_equal. f_equal. f_equal.
  rewrite (edited_same n a p fields Hn Ha Hp).
  rewrite (list_set_same _ _ _ (proj2 (proj2 (proj2 H)))).
  unfold with_apps_list.
  destruct H as (_ & Htop & Hsec & _).
  rewrite (dict_set_same _ _ _ Hsec). now rewrite (dict_set_same _ _ _ Htop).
Qed.

Lemma select_then_save_writes_document_back_witness :
  saves (events (snd (save_changes (RT := Demo.rt)
                        (snd (on_profile_select (RT := Demo.rt) (Some 3)
                                Demo.s0)))))
  = saves (events Demo.s0) ++ [(1%Z, JObj Demo2.top_a)].
Proof.
  exact (proj2 (select_then_save_writes_document_back (RT := Demo.rt)
                  Demo.s0 3
                  {| db_row_id := 1; entire_json := 0; profile := 0 |}
                  Demo2.top_a Demo2.sec_a Demo2.l_a
                  [("name", JStr "Zed"); ("applicationPath", JStr "C:/z.exe");
                   ("posterPath", JStr "")]
                  "Zed" "C:/z.exe" ""
                  eq_refl
                  (conj eq_refl (conj eq_refl (conj eq_refl eq_refl)))
                  eq_refl eq_refl eq_refl)).
Defined.

(* ================================================================== *)
(** * What a save leaves in the table *)

(** X11.  When the document encodes, a save to a table that can be written
    keeps the rows, their order and their identifiers; a row with another
    identifier is left as it is, and every row with the identifier reads
    back as the saved document, provided the encoder's output is not empty
    and decodes to the document. *)
Theorem saved_document_reads_back `{RT : Runtime}
    (rows : list row) (id : Z) (doc : json) (new_blob : bytes) :
  json_dumps doc = Some new_blob ->
  new_blob <> [] ->
  json_loads new_blob = Some doc ->
  exists rows',
    snd (save_profile_to_db (Some rows) id doc) = Some rows' /\
    map row_id rows' = map row_id rows /\
    Forall2 (fun r r' =>
               if Z.eqb (row_id r) id
               then row_document r' = Some doc
               else r' = r)
            rows rows'.
Proof.
  intros Hd Hne Hl. unfold save_profile_to_db. rewrite Hd. simpl.
  exists (sql_update new_blob id rows). split; [reflexivity|].
  unfold sql_update. split.
  - rewrite map_map. apply map_ext. intros r.
    now destruct (Z.eqb (row_id r) id).
  - induction rows as [|r rows IH]; simpl; constructor; [|exact IH].
    destruct (Z.eqb (row_id r) id); [|reflexivity].
    now apply row_document_written.
Qed.

Lemma saved_document_reads_back_witness :
  exists rows',
    snd (save_profile_to_db (RT := Demo2.rt) (Some Demo.table) 4
           Demo2.doc_b_added) = Some rows' /\
    map row_id rows' = map row_id Demo.table.
Proof.
  assert (Hne : Demo2.blob_b_added <> []) by discriminate.
  destruct (saved_document_reads_back (RT := Demo2.rt) Demo.table 4
              Demo2.doc_b_added Demo2.blob_b_added eq_refl Hne eq_refl)
    as (rows' & E & Hids & _).
  exists rows'. split; [exact E|exact Hids].
Defined.

(* ================================================================== *)
(** * The rows of the table *)

Lemma same_rows_trans (s1 s2 s3 : state) :
  same_rows s1 s2 -> same_rows s2 s3 -> same_rows s1 s3.
Proof. unfold same_rows. congruence. Qed.

Lemma keeps_rows_silent {A : Type} (m : M A) : silent m -> keeps_rows m.
Proof. intros H s. destruct (H s) as [E _]. unfold same_rows. now rewrite E. Qed.

Lemma keeps_rows_bind {A B : Type} (m : M A) (k : A -> M B) :
  keeps_rows m -> (forall a, keeps_rows (k a)) -> keeps_rows (bind m k).
Proof.
  intros Hm Hk s. unfold bind. specialize (Hm s).
  destruct (m s) as [[a|e] s']; simpl in *; [|exact Hm].
  eapply same_rows_trans; [exact Hm|apply Hk].
Qed.

Lemma row_ids_sql_update (new_blob : bytes) (id : Z) (rows : list row) :
  map row_id (sql_update new_blob id rows) = map row_id rows.
Proof.
  unfold sql_update. rewrite map_map. apply map_ext. intros r.
  now destruct (Z.eqb (row_id r) id).
Qed.

Ltac rows_quiet := solve [apply keeps_rows_silent; auto 10 with silent].

Section Rows.

Context {RT : Runtime}.

Lemma keeps_rows_call_save_profile_to_db (id : Z) (doc : json) :
  keeps_rows (call_save_profile_to_db id doc).
Proof.
  intros s. unfold call_save_profile_to_db, save_profile_to_db, same_rows.
  destruct (json_dumps doc) as [new_blob|]; [|reflexivity].
  destruct (DATA s) as [rows|]; simpl; [|reflexivity].
  now rewrite row_ids_sql_update.
Qed.

Lemma keeps_rows_save_and_reload (id : Z) (doc : json) (k : M unit) :
  silent k ->
  keeps_rows (bind (call_save_profile_to_db id doc)
                   (fun _ => bind reload (fun _ => k))).
Proof.
  intros Hk.
  apply keeps_rows_bind; [apply keeps_rows_call_save_profile_to_db|intros _].
  apply keeps_rows_silent, silent_bind; [apply silent_reload|intros _].
  exact Hk.
Qed.

Lemma keeps_rows_add_entry : keeps_rows add_entry.
Proof.
  unfold add_entry.
  apply keeps_rows_bind; [rows_quiet|].
  intros s. destruct (profiles s) as [|it rest];
    [rows_quiet|].
  apply keeps_rows_bind; [rows_quiet|].
  intros doc.
  apply keeps_rows_bind; [rows_quiet|].
  intros top.
  apply keeps_rows_bind; [rows_quiet|].
  intros sec.
  destruct (dict_get_default "applications" (JArr []) sec);
    try rows_quiet.
  apply keeps_rows_bind; [rows_quiet|].
  intros _. apply keeps_rows_save_and_reload, silent_select_by_name.
Qed.

Lemma keeps_rows_delete_entry (askyesno : bool) :
  keeps_rows (delete_entry askyesno).
Proof.
  unfold delete_entry.
  apply keeps_rows_bind; [rows_quiet|].
  intros s. destruct (selected_profile_index s) as [idx|];
    [|rows_quiet].
  destruct (negb askyesno); [rows_quiet|].
  apply keeps_rows_bind; [rows_quiet|].
  intros [[it doc] prof].
  apply keeps_rows_bind; [rows_quiet|].
  intros apps_list.
  apply keeps_rows_bind; [rows_quiet|].
  intros _. apply keeps_rows_save_and_reload. auto 10 with silent.
Qed.

Lemma keeps_rows_save_changes : keeps_rows save_changes.
Proof.
  unfold save_changes.
  apply keeps_rows_bind; [rows_quiet|].
  intros s. destruct (selected_profile_index s) as [idx|];
    [|rows_quiet].
  apply keeps_rows_bind; [rows_quiet|].
  intros [[it doc] prof].
  destruct prof; try rows_quiet.
  apply keeps_rows_bind; [rows_quiet|].
  intros _.
  apply keeps_rows_bind; [rows_quiet|].
  intros s1.
  apply keeps_rows_bind; [rows_quiet|].
  intros doc'. apply keeps_rows_save_and_reload.
  apply silent_bind; [apply silent_select_by_name|intros _].
  auto with silent.
Qed.

End Rows.

(** X12.  No method adds, removes or moves a row of the table: after
    start-up the table has the rows it was given, and after selecting,
    adding, deleting, browsing for an icon, clearing the icon and saving
    changes, whether the method returns or raises, the table has the same
    row identifiers in the same order as before (and a database that could
    not be opened stays so). *)
Theorem rows_are_never_added_or_removed `{RT : Runtime} :
  (forall db folder, row_ids (DATA (snd (init db folder))) = row_ids db) /\
  (forall s,
     (forall sel, same_rows s (snd (on_profile_select sel s))) /\
     same_rows s (snd (add_entry s)) /\
     (forall askyesno, same_rows s (snd (delete_entry askyesno s))) /\
     (forall path opened saved,
        same_rows s (snd (browse_icon path opened saved s))) /\
     same_rows s (snd (clear_icon s)) /\
     same_rows s (snd (save_changes s))).
Proof.
  split.
  - intros db folder. unfold init.
    match goal with |- context [reload ?s0] =>
      exact (keeps_rows_silent _ silent_reload s0)
    end.
  - intros s.
    split; [intros sel;
            exact (keeps_rows_silent _ (silent_on_profile_select sel) s)|].
    split; [exact (keeps_rows_add_entry s)|].
    split; [intros askyesno; exact (keeps_rows_delete_entry askyesno s)|].
    split; [intros path opened saved;
            exact (keeps_rows_silent _
                     (silent_browse_icon path opened saved) s)|].
    split; [exact (keeps_rows_silent _ silent_clear_icon s)|].
    exact (keeps_rows_save_changes s).
Qed.
